(* ===== verification/_CoqProject ===== *)
-Q . S2P
Prelude.v
Geometry.v
Bboxes.v
Decompose.v
Footprint.v
PyStr.v
PolyParse.v
Normalize.v
ParseRoundtrip.v
Frames.v
Flatten.v
PyPath.v
Mapping.v
MapMetadata.v
Pipeline.v
Utils.v
