(* ===== verification/Prelude.v ===== *)
(** * FTCNN geometry preprocessing: a shallow-embedding verification library

    The program.  [src/ftcnn/geometry/polygons.py] turns vector
    annotations into training labels.  [flatten_polygons] groups a
    GeoDataFrame, unions each group's geometries ([unary_union]) and emits
    one row per bounding box ([get_polygon_bboxes]).  [get_geom_polygons]
    decomposes a geometry into simple polygons, optionally merging
    overlapping parts with a greedy loop over [shapely.coverage_union].
    [create_tile_polygon] computes the ground footprint of a raster window.
    [parse_polygon_str] parses "(x1 y1, x2 y2, ...)" strings, and
    [normalize_polygon] turns geometries, coordinate lists or strings into
    a simplified polygon.  [src/ftcnn/geospacial/mapping.py] joins
    annotations with raster files: [map_geometry_to_geotiffs] clips the
    annotations to the footprint ([create_tile_polygon]) of every raster
    whose name passes a stem pre-filter.  [map_metadata] joins image sizes
    and selected columns onto annotation rows.  [src/ftcnn/utils] defines
    constants and a process-wide write lock.

    The files, in dependency order.
    - [Prelude] (this file): Python exceptions [exc], the result monad
      [res] (stdpp's [x ← m; k] notation), the hint database [geo], the
      tactic [qc_lra] for [qmin]/[qmax] arithmetic on coordinates, shared
      lemmas on lists and [mapM], and the equivalence [same_elems] (same
      members).
    - [Geometry]: points in [Qc], [polygon] (exterior ring, holes) and
      [geometry] (Polygon / MultiPolygon / another kind, the three cases
      the code dispatches on); [bounds] (shapely's [geom.bounds]) and
      [box] ([shapely.box]) written out exactly, [bounds_of] a morphism
      for the equivalence [same_vertices]; closed rings and their signed
      area ([shoelace]); the class [GeomBackend]
      of the shapely operations the code only calls, with the laws
      [GeomBackendLaws] the proofs rely on, and an executable reference
      backend for the concrete runs.
    - [Bboxes]: [get_polygon_points] and [get_polygon_bboxes] (lines
      60-119), in a Section over the backend.
    - [Decompose]: [get_geom_polygons] (lines 122-174); the merge loop is
      [flatten_loop]/[flatten_step]/[try_merge]/[first_new_part], one
      definition per Python loop, exceptions as [Err].
    - [Footprint]: rasterio's [Affine] product, [windows.transform] and
      [create_tile_polygon] (lines 184-216).
    - [PyStr]: the Python [str] builtins the parser calls ([isdigit],
      [isspace], [split(", ")], [split()], [replace], [float]).
    - [PolyParse]: [parse_polygon_str] (lines 219-261); the [while] loop
      is [strip_loop].
    - [Normalize]: [normalize_polygon] (lines 264-303) on any Python
      value ([pyval]), with [shapely.normalize] on non-geometries.
    - [ParseRoundtrip]: a printer of integer coordinates and the parse
      round trip with its two exceptions.
    - [Frames]: pandas values with Python's [==], rows as
      [gmap string value], GeoDataFrames, [groupby(by, sort=False)],
      [unique] and [drop_duplicates].
    - [Flatten]: [flatten_polygons] (lines 12-57) as explicit state passing
      over a store of dict objects, since the code appends the same dict
      several times and the output reads it after the loop.
    - [PyPath]: [str.rfind], [in], [os.path.splitext] and pathlib's
      [name], [stem], [suffix] and [/].
    - [Mapping]: [map_geometry_to_geotiffs] (mapping.py lines 114-192)
      against a file-system environment [fs_env].
    - [MapMetadata]: [map_metadata] (mapping.py lines 18-111) against a
      file-system environment [meta_env].
    - [Pipeline]: the data flow of spec section 2: the frame
      [flatten_polygons] returns, read back as a GeoDataFrame
      ([frame_of_out]), fed to [map_geometry_to_geotiffs]
      ([flatten_then_map], the two phases composed in the result monad).
    - [Utils]: [src/ftcnn/utils/__init__.py]: the import [import_utils]
      (the constants, [cpu_count()], [_WRITE_LOCK = Lock()]); the lock's
      state (Module [WriteLock], from the spec, as [ftcnn.utils.lock] is
      not under [src/]).

    The theorems.
    - [Flatten]: the store model equals a pure summary
      ([flatten_polygons_refines]).  Every output row carries the last
      bounding box of its group and the group's whole union
      ([flatten_polygons_rows_share_last_bbox]), which is the aliasing bug.
      A union of k parts yields k * k rows ([flatten_polygons_row_count]).
      The rows come group by group, groups in the order their keys are
      first met ([flatten_polygons_group_order]).
    - [Mapping]: every pre-filtered raster appears in the output
      (completeness).  Every output geometry is a part of the empty
      placeholder or of an annotation clipped to the footprint.  An
      unreadable raster aborts the run.  The pre-filter keeps rasters named
      after an annotation's file, and also admits any stem contained in a
      name.
    - [Bboxes]: the i-th box has exactly the bounds of the i-th part and
      contains its vertices.
    - [Footprint]: the footprint under the identity transform, its bounds
      under a north-up transform, and that it is a closed ring whose signed
      area is the pixel area times the transform's determinant (clockwise
      for north-up rasters).
    - [Decompose]: decomposition without [flatten]; with [flatten], a
      refinement of the greedy merge of the spec (its test [genuine_merge]
      written independently of the code's [first_new_part]) when all
      unions are multi-part, the [AttributeError] that a merged union
      raises, and that under shapely's contract for [coverage_union] the
      merge never happens.
    - [Normalize]: only geometry inputs return; strings, lists of pairs
      and flat lists raise, each with its exception; the flat-list
      windowing overlaps: its i-th pair is elements i and i+1.
    - [MapMetadata]: the duplicate-path test never fires, so there is one
      row per source row with an existing image.  Preserved fields are
      checked only when some image exists.
    - [PolyParse] and [ParseRoundtrip]: the strip loop terminates within
      its fuel; printed integer points parse back; a zero [y] raises
      [ValueError]; a negative first [x] loses its sign; a string without
      digits raises [ValueError] after the strip loop has crossed its
      indices.
    - [Frames]: lemmas on the model of [groupby(by, sort=False)] (a fold
      that appends each row to its key's group), used by the group-order
      theorem of [Flatten].
    - [Pipeline]: the composition only maps whole group unions clipped to
      footprints (or placeholders), and fails only in the flattening, on
      the file names or on a raster that does not open, never on the
      geometry column the mapper reads by name.
    - [Utils]: the import's result and its [NotImplementedError]
      ([import_utils_result]).
    Each theorem with hypotheses has a witness that runs the model on a
    concrete input with [vm_compute].

    Fuel.  [strip_loop] runs with fuel [len(polygon_str)]: every iteration
    moves [start] or [end] by one, so at most [end - start + 1 = len(s)]
    iterations run.  [strip_loop_exits] proves that with this fuel the loop
    stops in a state where its condition is false, so the fuel never cuts
    the Python loop short.  The other loops are [for] loops over finite
    lists, modelled by structural recursion.

    Modelling choices.
    - Python floats are exact rationals ([Qc]): rounding is not modelled,
      and [float()] accepts the decimal grammar without [inf], [nan] or
      underscores.
    - Characters are Latin-1 ([ascii]); [isdigit] includes the
      superscripts 1, 2 and 3 of that range.  Paths are POSIX strings,
      with pathlib's semantics of Python 3.12.
    - shapely's [normalize], [simplify], [unary_union], [coverage_union],
      [equals], [intersects], [intersection] and [get_parts] are the
      operations of [GeomBackend].  Theorems that need their behaviour
      state it as a hypothesis or as the laws [GeomBackendLaws].
    - pandas' [groupby] follows pandas 2: [None] raises [TypeError], rows
      with a missing key are dropped, and groups come in order of first
      appearance.  A cell absent from a row's dict reads as a missing
      value.
    - The file system is an explicit environment: the files the directory
      enumeration yields and the files that exist or open, by path.
      [Path.resolve()] is taken as already done on the directory argument.
    - [ftcnn.raster.create_window], [ftcnn.raster.open_raster] and
      [ftcnn.io.collect_files_with_suffix] live outside [src/] and are
      modelled from the spec; [parse_filename] is a parameter.
    - [ftcnn.utils.lock.Lock] lives outside [src/]: it is modelled from
      spec section 9 as a lock that is created free.  No code under
      [src/] acquires or releases [_WRITE_LOCK], so its acquire and
      release are not modelled.  [TQDM_INTERVAL], the
      float [1 / 100], is the rational 1/100.

    Not modelled.
    - The [print] diagnostic of [get_polygon_bboxes] and the [tqdm]
      progress bar of the mapper (output only).
    - [multiprocessing.cpu_count] is read through the count the
      operating system reports (an argument of [import_utils]).
    - shapely, geopandas and rasterio themselves: their operations are the
      interface [GeomBackend], not implementations.
    - Image decoding: only the size an opened image reports is used.
    - Concurrency: the mapper's per-raster loop is a sequential [for]
      loop in the source, and no code under [src/] acquires or releases
      [_WRITE_LOCK]; the lock is modelled only as the value the import
      creates.
    - [ftcnn.io], [ftcnn.raster] and [ftcnn.geospacial.utils.parse_filename]
      are not in the repository: the first two are modelled from spec
      section 6 only as far as the sources use them, and [parse_filename]
      stays a parameter, since the spec leaves the naming convention open.
    - The source lines no definition maps are imports, blank lines and one
      comment (polygons.py lines 178-182); every statement of the three
      source files is translated. *)

From stdpp Require Export base list strings gmap numbers.
From Stdlib Require Export QArith Qcanon Lqa Ascii.

(** ** Python exceptions and the result monad

    Every fallible operation of the sources ([src/ftcnn/geometry/polygons.py],
    [src/ftcnn/geospacial/mapping.py]) raises a Python exception; the model
    returns a value of [res A]: [Ok a] for a normal return, [Err e] for the
    exception [e] propagating to the caller. *)

Inductive exc : Type :=
| ValueError        (** [raise ValueError], [float(...)], tuple unpacking *)
| TypeError         (** a library call given an argument of the wrong type *)
| IndexError        (** [lst[0]] / [df.iloc[i]] out of range *)
| KeyError (k : string)  (** a missing column or dict key *)
| AttributeError    (** [g.geoms] on a single-part geometry *)
| RasterioIOError   (** [rasterio.open] on an unreadable file *)
| OSError           (** PIL's [Image.open] on a file it cannot identify *)
| NotImplementedError.  (** [multiprocessing.cpu_count()] when the count is unknown *)

#[export] Instance exc_eq_dec : EqDecision exc.
Proof. solve_decision. Defined.

Inductive res (A : Type) : Type :=
| Ok (a : A)
| Err (e : exc).
Arguments Ok {A} a.
Arguments Err {A} e.

#[export] Instance res_ret : MRet res := λ A a, Ok a.
#[export] Instance res_bind : MBind res := λ A B f m,
  match m with Ok a => f a | Err e => Err e end.
#[export] Instance res_fmap : FMap res := λ A B f m,
  match m with Ok a => Ok (f a) | Err e => Err e end.

Definition is_ok {A} (r : res A) : bool :=
  match r with Ok _ => true | Err _ => false end.

Declare Scope geo_scope.
Delimit Scope geo_scope with geo.
Open Scope geo_scope.

(** [raise e] reads like the Python statement. *)
Notation "'raise' e" := (Err e) (at level 10, only parsing) : geo_scope.

Lemma bind_Ok {A B} (a : A) (f : A → res B) : (Ok a ≫= f) = f a.
Proof. done. Qed.

Lemma bind_Err {A B} (e : exc) (f : A → res B) : (Err e ≫= f) = Err e.
Proof. done. Qed.

Lemma bind_eq_Ok {A B} (m : res A) (f : A → res B) (b : B) :
  (m ≫= f) = Ok b ↔ ∃ a, m = Ok a ∧ f a = Ok b.
Proof.
  destruct m as [a|e]; simpl; split.
  - eauto.
  - by intros (? & [= <-] & ?).
  - done.
  - by intros (? & ? & ?).
Qed.

Lemma mapM_res_Ok {A B} (f : A → res B) (l : list A) (l' : list B) :
  mapM f l = Ok l' ↔ Forall2 (λ a b, f a = Ok b) l l'.
Proof.
  revert l'. induction l as [|a l IH]; intros l'; simpl.
  - split; [intros [= <-]; constructor | inversion 1; done].
  - destruct (f a) as [b|e] eqn:Hf; simpl.
    + destruct (mapM f l) as [bs|e] eqn:Hm; simpl.
      * split; [intros [= <-]; constructor; [done | by apply IH]|].
        inversion 1; subst. f_equal. apply IH in H4. congruence.
      * split; [done|]. inversion 1; subst. apply IH in H4. congruence.
    + split; [done|]. inversion 1; subst. congruence.
Qed.

Lemma mapM_res_cons {A B} (f : A → res B) (a : A) (l : list A) :
  mapM f (a :: l) = (b ← f a; bs ← mapM f l; Ok (b :: bs)).
Proof. reflexivity. Qed.

Lemma mapM_res_length {A B} (f : A → res B) (l : list A) (l' : list B) :
  mapM f l = Ok l' → length l' = length l.
Proof. intros H%mapM_res_Ok. symmetry. by eapply Forall2_length. Qed.

Create HintDb geo.
Create Rewrite HintDb geo.
#[export] Hint Rewrite @bind_Ok @bind_Err : geo.

(** [simpl_res] runs the result monad forward through known [Ok]/[Err]. *)
Ltac simpl_res :=
  repeat (progress (simpl; autorewrite with geo in *)
         || match goal with
            | H : Ok _ = Ok _ |- _ => injection H as H
            | H : Ok _ = Err _ |- _ => discriminate H
            | H : Err _ = Ok _ |- _ => discriminate H
            | H : (_ ≫= _) = Ok _ |- _ =>
                let a := fresh "a" in let Ha := fresh "Ha" in
                apply bind_eq_Ok in H; destruct H as (a & Ha & H)
            end).

(** Split an equation between lists of pairs into equations of components. *)
Ltac pointwise :=
  repeat match goal with
         | |- _ :: _ = _ :: _ => f_equal
         | |- (_, _) = (_, _) => f_equal
         end.

(** ** Generic list facts shared by the components *)

Lemma Forall_concat_map {A B} (P : B → Prop) (f : A → list B) (l : list A) :
  (∀ a, a ∈ l → Forall P (f a)) → Forall P (concat (map f l)).
Proof.
  intros H. apply Forall_concat, Forall_forall. intros x Hx.
  apply in_map_iff in Hx as (a & <- & Ha).
  apply H. by apply list_elem_of_In.
Qed.
#[export] Hint Resolve Forall_concat_map : geo.

(** ** Exact coordinates

    Python floats are modelled by canonical rationals [Qc]: the arithmetic the
    sources perform on coordinates (affine maps, min/max) is exact there. *)

Definition qmin (x y : Qc) : Qc := if decide (x ≤ y)%Qc then x else y.
Definition qmax (x y : Qc) : Qc := if decide (x ≤ y)%Qc then y else x.

(** Linear order goals on [Qc], through the underlying [Q]. *)
Ltac qc_lra :=
  unfold qmin, qmax in *; repeat case_decide;
  first [ reflexivity
        | match goal with |- @eq Qc _ _ => apply Qcle_antisym end;
          unfold Qcle, Qclt in *; lra
        | unfold Qcle, Qclt in *; lra ].

Lemma qmin_cases x y : qmin x y = x ∨ qmin x y = y.
Proof. unfold qmin. case_decide; auto. Qed.
Lemma qmax_cases x y : qmax x y = x ∨ qmax x y = y.
Proof. unfold qmax. case_decide; auto. Qed.

Lemma qc_le_add_r (x w : Qc) : (0 ≤ w → x ≤ x + w)%Qc.
Proof. intros Hw. rewrite <-(Qcplus_0_r x) at 1. apply Qcplus_le_compat; [apply Qcle_refl | done]. Qed.

(** [x ↦ c + a x] is monotone for [a ≥ 0] and antitone for [a ≤ 0]. *)
Lemma qc_affine_mono (a c x y : Qc) : (0 ≤ a → x ≤ y → a * x + c ≤ a * y + c)%Qc.
Proof.
  intros Ha Hxy. apply Qcplus_le_compat; [|apply Qcle_refl].
  rewrite (Qcmult_comm a x), (Qcmult_comm a y). by apply Qcmult_le_compat_r.
Qed.

Lemma qc_affine_anti (a c x y : Qc) : (a ≤ 0 → x ≤ y → a * y + c ≤ a * x + c)%Qc.
Proof.
  intros Ha Hxy. apply Qcplus_le_compat; [|apply Qcle_refl].
  assert (Hna : (0 ≤ - a)%Qc).
  { replace 0%Qc with (- 0)%Qc by ring. by apply Qcopp_le_compat. }
  pose proof (Qcopp_le_compat _ _ (Qcmult_le_compat_r x y (- a) Hxy Hna)) as H.
  replace (a * y)%Qc with (- (y * - a))%Qc by ring.
  replace (a * x)%Qc with (- (x * - a))%Qc by ring. done.
Qed.

Lemma map_replicate_eq {A B} (f : A → B) n x : map f (replicate n x) = replicate n (f x).
Proof. induction n as [|n IH]; simpl; [done|]. by rewrite IH. Qed.

Lemma elem_of_concat_iff {A} (x : A) (ls : list (list A)) :
  x ∈ concat ls ↔ ∃ l, x ∈ l ∧ l ∈ ls.
Proof.
  rewrite list_elem_of_In, in_concat. split.
  - intros (l & Hl & Hx). exists l. by rewrite !list_elem_of_In.
  - intros (l & Hx & Hl). exists l. by rewrite <-!list_elem_of_In.
Qed.

Lemma elem_of_map_iff {A B} (f : A → B) (l : list A) y :
  y ∈ map f l ↔ ∃ x, y = f x ∧ x ∈ l.
Proof.
  rewrite list_elem_of_In, in_map_iff. split.
  - intros (x & <- & Hx). exists x. by rewrite list_elem_of_In.
  - intros (x & -> & Hx). exists x. by rewrite <-list_elem_of_In.
Qed.

(** Every input of a successful [mapM] has its output among the results,
    and every result comes from an input. *)
Lemma mapM_res_elem {A B} (f : A → res B) (l : list A) (bs : list B) a :
  mapM f l = Ok bs → a ∈ l → ∃ b, f a = Ok b ∧ b ∈ bs.
Proof.
  intros Hm%mapM_res_Ok Ha. apply list_elem_of_lookup in Ha as [i Hi].
  destruct (Forall2_lookup_l _ _ _ _ _ Hm Hi) as (b & Hb & Hfb).
  exists b. split; [done | by eapply list_elem_of_lookup_2].
Qed.

Lemma mapM_res_elem_r {A B} (f : A → res B) (l : list A) (bs : list B) b :
  mapM f l = Ok bs → b ∈ bs → ∃ a, a ∈ l ∧ f a = Ok b.
Proof.
  intros Hm%mapM_res_Ok Hb. apply list_elem_of_lookup in Hb as [i Hi].
  destruct (Forall2_lookup_r _ _ _ _ _ Hm Hi) as (a & Ha & Hfa).
  exists a. split; [by eapply list_elem_of_lookup_2 | done].
Qed.

(** A failed [mapM] failed on one of its inputs. *)
Lemma mapM_res_Err {A B} (f : A → res B) (l : list A) e :
  mapM f l = Err e → ∃ a, a ∈ l ∧ f a = Err e.
Proof.
  induction l as [|a l IH]; [done|]. rewrite mapM_res_cons.
  destruct (f a) as [b|e'] eqn:Hf; simpl.
  - destruct (mapM f l) as [bs|e'] eqn:Hm; simpl; [done|]. intros [= ->].
    destruct (IH eq_refl) as (a' & ? & ?). exists a'. split; [by right | done].
  - intros [= ->]. exists a. split; [left | done].
Qed.

Lemma mapM_res_concat_elem {A B} (f : A → res (list B)) (l : list A) (rs : list (list B)) x :
  mapM f l = Ok rs → x ∈ concat rs → ∃ a xs, a ∈ l ∧ f a = Ok xs ∧ x ∈ xs.
Proof.
  intros Hm%mapM_res_Ok Hx. apply elem_of_concat_iff in Hx as (xs & Hx & Hxs).
  apply list_elem_of_lookup in Hxs as [i Hi].
  destruct (Forall2_lookup_r _ _ _ _ _ Hm Hi) as (a & Ha & Hfa).
  exists a, xs. split; [by eapply list_elem_of_lookup_2 | done].
Qed.

(** ** Lists up to their elements

    Two lists with the same elements: the equivalence under which the
    result of a loop does not depend on the order of its iterations. *)
Definition same_elems {A} (l l' : list A) : Prop := ∀ x, x ∈ l ↔ x ∈ l'.

#[export] Instance same_elems_equivalence {A} : Equivalence (@same_elems A).
Proof.
  split.
  - intros l x. done.
  - intros l l' H x. symmetry. apply H.
  - intros l1 l2 l3 H1 H2 x. rewrite (H1 x). apply H2.
Qed.

(** A test on equivalent conditions takes the same branch. *)
Lemma if_decide_iff {A} (P Q : Prop) `{Decision P, Decision Q} (a b : A) :
  (P ↔ Q) → (if decide P then a else b) = (if decide Q then a else b).
Proof. intros HPQ. do 2 case_decide; first [done | tauto]. Qed.

