(* ===== verification/Geometry.v ===== *)
(** * Geometry: the shapely data model used by the sources

    Points, rings, [Polygon] and [MultiPolygon] values as the sources
    manipulate them, with coordinates in [Qc] (exact rationals standing for
    Python floats), the two shapely operations the sources compute on
    coordinates ([geom.bounds] and [shapely.box]) written out exactly, and the
    interface [GeomBackend] of the shapely operations the sources only call
    ([normalize], [simplify], [unary_union], [coverage_union], [equals],
    [intersects], [intersection], explode's [get_parts]), with the laws
    [GeomBackendLaws] that the theorems of the other files assume of them. *)

From S2P Require Import Prelude.

Open Scope Qc_scope.

(** ** Data *)

Definition point : Type := Qc * Qc.

(** A shapely [Polygon]: exterior ring and holes, as coordinate lists
    ([polygon.exterior.coords] and [polygon.interiors]). *)
Record polygon : Type := Polygon {
  exterior : list point;
  interiors : list (list point)
}.

(** The geometry kinds the sources dispatch on with [geom.geom_type]. *)
Inductive geometry : Type :=
| GPolygon (p : polygon)
| GMultiPolygon (ps : list polygon)
| GOther (kind : string).

Definition geom_type (g : geometry) : string :=
  match g with
  | GPolygon _ => "Polygon"
  | GMultiPolygon _ => "MultiPolygon"
  | GOther k => k
  end.

(** [Polygon()] *)
Definition empty_polygon : polygon := Polygon [] [].

#[export] Instance polygon_eq_dec : EqDecision polygon.
Proof. solve_decision. Defined.
#[export] Instance geometry_eq_dec : EqDecision geometry.
Proof. solve_decision. Defined.

(** The simple polygons a geometry is made of, in [geoms] order. *)
Definition polygon_parts (g : geometry) : list polygon :=
  match g with
  | GPolygon p => [p]
  | GMultiPolygon ps => ps
  | GOther _ => []
  end.

(** ** Envelopes: [geom.bounds] *)

Record envelope : Type := Envelope {
  minx : Qc; miny : Qc; maxx : Qc; maxy : Qc
}.

#[export] Instance envelope_eq_dec : EqDecision envelope.
Proof. solve_decision. Defined.

Definition env_add (e : envelope) (v : point) : envelope :=
  Envelope (qmin (minx e) v.1) (qmin (miny e) v.2)
           (qmax (maxx e) v.1) (qmax (maxy e) v.2).

(** GEOS computes the envelope of a polygon from its shell; an empty
    coordinate list has no envelope (shapely returns NaN bounds). *)
Definition bounds_of (pts : list point) : option envelope :=
  match pts with
  | [] => None
  | v :: rest => Some (foldl env_add (Envelope v.1 v.2 v.1 v.2) rest)
  end.

Definition bounds (p : polygon) : option envelope := bounds_of (exterior p).

(** A point lies within or on the rectangle of an envelope. *)
Definition in_env (e : envelope) (v : point) : Prop :=
  minx e ≤ v.1 ≤ maxx e ∧ miny e ≤ v.2 ≤ maxy e.

#[export] Instance in_env_dec e v : Decision (in_env e v).
Proof. unfold in_env. apply _. Defined.

(** ** [shapely.box(minx, miny, maxx, maxy)] (ccw=True) *)

(** The ring shapely builds: lower-right corner first, counter-clockwise,
    closed.  With NaN bounds (an empty input) shapely returns an empty
    polygon. *)
Definition box (e : envelope) : polygon :=
  Polygon [(maxx e, miny e); (maxx e, maxy e); (minx e, maxy e);
           (minx e, miny e); (maxx e, miny e)] [].

Definition box_of_bounds (b : option envelope) : polygon :=
  match b with Some e => box e | None => empty_polygon end.

(** ** Envelope lemmas *)

Definition env_wf (e : envelope) : Prop := minx e ≤ maxx e ∧ miny e ≤ maxy e.

(** The four extremes of [e] are attained by points of [pts]. *)
Definition env_attained (e : envelope) (pts : list point) : Prop :=
  (∃ v, v ∈ pts ∧ minx e = v.1) ∧ (∃ v, v ∈ pts ∧ miny e = v.2) ∧
  (∃ v, v ∈ pts ∧ maxx e = v.1) ∧ (∃ v, v ∈ pts ∧ maxy e = v.2).

Lemma env_add_mono e v w : in_env e w → in_env (env_add e v) w.
Proof. unfold in_env; simpl. intros. split; split; qc_lra. Qed.

Lemma env_add_self e v : in_env (env_add e v) v.
Proof. unfold in_env; simpl. split; split; qc_lra. Qed.

Lemma env_fold_contains e0 l w :
  (in_env e0 w ∨ w ∈ l) → in_env (foldl env_add e0 l) w.
Proof.
  revert e0. induction l as [|v l IH]; intros e0 Hw; simpl.
  - destruct Hw as [Hw|Hw]; [done | by apply not_elem_of_nil in Hw].
  - apply IH. rewrite elem_of_cons in Hw.
    destruct Hw as [Hw|[->|Hw]]; auto using env_add_mono, env_add_self.
Qed.

(** An extreme of the fold is the initial one or a coordinate of a point. *)
Lemma env_fold_attained (f : envelope → Qc) (g : point → Qc) e0 l :
  (∀ e v, f (env_add e v) = f e ∨ f (env_add e v) = g v) →
  f (foldl env_add e0 l) = f e0 ∨ ∃ v, v ∈ l ∧ f (foldl env_add e0 l) = g v.
Proof.
  intros Hf. revert e0. induction l as [|v l IH]; intros e0; simpl; [by left|].
  destruct (IH (env_add e0 v)) as [H|(w & Hw & H)].
  - destruct (Hf e0 v) as [H'|H']; rewrite H, H'; [by left|].
    right. exists v. split; [apply elem_of_cons; by left | done].
  - right. exists w. split; [apply elem_of_cons; by right | done].
Qed.

Lemma bounds_of_contains pts e v : bounds_of pts = Some e → v ∈ pts → in_env e v.
Proof.
  destruct pts as [|u rest]; [done|]. intros [= <-] Hv.
  apply env_fold_contains. rewrite elem_of_cons in Hv.
  destruct Hv as [->|Hv]; [left | by right].
  unfold in_env; simpl. split; split; apply Qcle_refl.
Qed.

Lemma bounds_of_attained pts e : bounds_of pts = Some e → env_attained e pts.
Proof.
  destruct pts as [|u rest]; [done|]. intros [= <-].
  assert (Hlift : ∀ (f : envelope → Qc) g,
    (∀ e v, f (env_add e v) = f e ∨ f (env_add e v) = g v) →
    f (Envelope u.1 u.2 u.1 u.2) = g u →
    ∃ v, v ∈ u :: rest ∧ f (foldl env_add (Envelope u.1 u.2 u.1 u.2) rest) = g v).
  { intros f g Hf Hu. destruct (env_fold_attained f g (Envelope u.1 u.2 u.1 u.2) rest Hf)
      as [H|(v & Hv & H)].
    - exists u. rewrite H, Hu. split; [apply elem_of_cons; by left | done].
    - exists v. split; [apply elem_of_cons; by right | done]. }
  repeat split; apply Hlift; try done; intros e v; simpl;
    auto using qmin_cases, qmax_cases.
Qed.

Lemma bounds_of_wf pts e : bounds_of pts = Some e → env_wf e.
Proof.
  destruct pts as [|u rest] eqn:Hp; [done|]. intros He.
  assert (Hu : in_env e u) by (eapply bounds_of_contains; [exact He | apply elem_of_cons; by left]).
  unfold in_env, env_wf in *. split; qc_lra.
Qed.

(** An envelope containing a point set and attaining its extremes on it is
    unique. *)
Lemma env_unique pts e e' :
  (∀ v, v ∈ pts → in_env e v) → env_attained e pts →
  (∀ v, v ∈ pts → in_env e' v) → env_attained e' pts → e = e'.
Proof.
  intros He [(a & Ha & Ea) [(b & Hb & Eb) [(c & Hc & Ec) (d & Hd & Ed)]]]
         He' [(a' & Ha' & Ea') [(b' & Hb' & Eb') [(c' & Hc' & Ec') (d' & Hd' & Ed')]]].
  apply He in Ha', Hb', Hc', Hd'. apply He' in Ha, Hb, Hc, Hd.
  destruct e, e'; unfold in_env in *; simpl in *. subst.
  f_equal; apply Qcle_antisym; qc_lra.
Qed.

(** [bounds_of] depends only on the set of points. *)
Lemma bounds_of_ext pts pts' :
  (∀ v, v ∈ pts ↔ v ∈ pts') → bounds_of pts = bounds_of pts'.
Proof.
  intros Hext.
  destruct (bounds_of pts) as [e|] eqn:He, (bounds_of pts') as [e'|] eqn:He'.
  - f_equal. apply (env_unique pts).
    + intros v Hv. by eapply bounds_of_contains.
    + by apply bounds_of_attained.
    + intros v Hv. eapply bounds_of_contains; [done | by apply Hext].
    + destruct (bounds_of_attained _ _ He')
        as [(a & ? & ?) [(b & ? & ?) [(c & ? & ?) (d & ? & ?)]]].
      repeat split; [exists a | exists b | exists c | exists d];
        (split; [by apply Hext | done]).
  - exfalso. destruct pts as [|u ?]; [done|]. destruct pts'; [|done].
    assert (Hu : u ∈ @nil point) by (apply Hext, elem_of_cons; by left).
    by apply not_elem_of_nil in Hu.
  - exfalso. destruct pts' as [|u ?]; [done|]. destruct pts; [|done].
    assert (Hu : u ∈ @nil point) by (apply Hext, elem_of_cons; by left).
    by apply not_elem_of_nil in Hu.
  - done.
Qed.

(** Rings with the same vertex set: [bounds_of] depends on nothing else,
    so it is a morphism for this equivalence and rewrites under it. *)
Abbreviation same_vertices := (@same_elems point).

#[export] Instance bounds_of_proper : Proper (same_vertices ==> eq) bounds_of.
Proof. intros l l' H. by apply bounds_of_ext. Qed.

Lemma bounds_box e : env_wf e → bounds (box e) = Some e.
Proof.
  destruct e as [x0 y0 x1 y1]. intros [Hx Hy].
  unfold bounds, bounds_of, box, env_add; simpl in *. f_equal. f_equal; qc_lra.
Qed.

(** The envelope of an axis-aligned closed ring. *)
Lemma bounds_of_rect_ring x0 y0 x1 y1 :
  x0 ≤ x1 → y1 ≤ y0 →
  bounds_of [(x0, y0); (x1, y0); (x1, y1); (x0, y1); (x0, y0)] = Some (Envelope x0 y1 x1 y0).
Proof. intros. unfold bounds_of, env_add; simpl. f_equal. f_equal; qc_lra. Qed.

(** ** Rings *)

(** A ring shapely accepts as a polygon's exterior: at least four
    coordinates, the last repeating the first. *)
Definition ring_closed (r : list point) : Prop :=
  (4 ≤ length r)%nat ∧ head r = list.last r.

#[export] Instance ring_closed_dec r : Decision (ring_closed r).
Proof. unfold ring_closed. apply _. Defined.

(** Twice the signed area of a ring (the shoelace sum): positive when the
    ring runs counter-clockwise. *)
Fixpoint shoelace (r : list point) : Qc :=
  match r with
  | v :: ((w :: _) as r') => v.1 * w.2 - w.1 * v.2 + shoelace r'
  | _ => 0
  end.

(** [shapely.box] builds a closed counter-clockwise ring. *)
Lemma box_ring e :
  ring_closed (exterior (box e)) ∧
  shoelace (exterior (box e)) = 2 * (maxx e - minx e) * (maxy e - miny e).
Proof. split; [split; simpl; [lia | done] | simpl; ring]. Qed.

(** ** The shapely operations the sources call *)

Class GeomBackend : Type := {
  (** [shapely.normalize] on a polygon and on any geometry *)
  normalize : polygon → polygon;
  normalize_geom : geometry → geometry;
  (** [g.simplify(tol, preserve_topology=True)] *)
  simplify : Qc → geometry → geometry;
  (** [shapely.unary_union(group.geometry)] *)
  unary_union : list geometry → geometry;
  (** [shapely.coverage_union(a, b)] *)
  coverage_union : polygon → polygon → geometry;
  (** [a.equals(b)]: topological equality *)
  geom_equals : polygon → polygon → bool;
  (** [g.intersects(tile)] and [g.intersection(tile)] *)
  intersects : geometry → polygon → bool;
  intersection : geometry → polygon → geometry;
  (** the parts [GeoDataFrame.explode] splits a geometry into *)
  get_parts : geometry → list geometry
}.

(** What the theorems assume of shapely: normalization only reorders the
    vertices of a ring and acts on each part of a geometry; explode keeps a
    polygon whole; a non-empty intersection has at least one part. *)
Class GeomBackendLaws `{GeomBackend} : Prop := {
  normalize_vertices p v : v ∈ exterior (normalize p) ↔ v ∈ exterior p;
  normalize_geom_polygon p : normalize_geom (GPolygon p) = GPolygon (normalize p);
  normalize_geom_multi ps :
    ∃ ps', normalize_geom (GMultiPolygon ps) = GMultiPolygon ps' ∧
           length ps' = length ps;
  normalize_geom_other k : normalize_geom (GOther k) = GOther k;
  get_parts_polygon p : get_parts (GPolygon p) = [GPolygon p];
  intersects_parts g t : intersects g t = true → get_parts (intersection g t) ≠ []
}.

(** Integer points and axis-aligned rectangles (counter-clockwise from the
    lower-left corner), for concrete inputs. *)
Definition pt (x y : Z) : point := (Q2Qc (inject_Z x), Q2Qc (inject_Z y)).

Definition rect (x0 y0 x1 y1 : Z) : polygon :=
  Polygon [pt x0 y0; pt x1 y0; pt x1 y1; pt x0 y1; pt x0 y0] [].

(** ** A reference backend

    An executable instance of the interface, used to run the models on
    concrete inputs: normalization and simplification keep the vertices as
    they are, unions keep pairwise-disjoint parts apart (what shapely returns
    for disjoint inputs), and intersections are computed on envelopes, which
    is exact for the axis-aligned rectangles the witnesses use. *)

Definition env_overlap (e1 e2 : envelope) : bool :=
  bool_decide (minx e1 ≤ maxx e2 ∧ minx e2 ≤ maxx e1 ∧
               miny e1 ≤ maxy e2 ∧ miny e2 ≤ maxy e1).

Definition env_meet (e1 e2 : envelope) : envelope :=
  Envelope (qmax (minx e1) (minx e2)) (qmax (miny e1) (miny e2))
           (qmin (maxx e1) (maxx e2)) (qmin (maxy e1) (maxy e2)).

Definition poly_overlap (p t : polygon) : bool :=
  match bounds p, bounds t with
  | Some e1, Some e2 => env_overlap e1 e2
  | _, _ => false
  end.

Definition ref_union (gs : list geometry) : geometry :=
  match concat (map polygon_parts gs) with
  | [p] => GPolygon p
  | ps => GMultiPolygon ps
  end.

Definition ref_intersection (g : geometry) (t : polygon) : geometry :=
  match filter (λ p, poly_overlap p t = true) (polygon_parts g) with
  | [] => GPolygon empty_polygon
  | p :: _ =>
      match bounds p, bounds t with
      | Some e1, Some e2 => GPolygon (box (env_meet e1 e2))
      | _, _ => GPolygon empty_polygon
      end
  end.

Definition ref_backend : GeomBackend := {|
  normalize := λ p, p;
  normalize_geom := λ g, g;
  simplify := λ _ g, g;
  unary_union := ref_union;
  coverage_union := λ a b, GMultiPolygon [a; b];
  geom_equals := λ a b, bool_decide (a = b);
  intersects := λ g t, existsb (λ p, poly_overlap p t) (polygon_parts g);
  intersection := ref_intersection;
  get_parts := λ g, match g with GMultiPolygon ps => map GPolygon ps | _ => [g] end
|}.

Lemma ref_backend_laws : @GeomBackendLaws ref_backend.
Proof.
  split; simpl; try done.
  - intros ps. by exists ps.
  - intros g t _. unfold ref_intersection.
    destruct (filter _ _) as [|p ?]; [done|].
    by destruct (bounds p), (bounds t).
Qed.
