(* ===== verification/Bboxes.v ===== *)
(** * Bounding boxes: [get_polygon_points] and [get_polygon_bboxes]

    [src/ftcnn/geometry/polygons.py], lines 60-119.  One box per simple
    polygon of the input, each box the normalized [shapely.box] of the part's [bounds];
    unknown geometry kinds give an empty list (a printed diagnostic, not an
    exception), while [get_polygon_points] raises [ValueError] for them. *)

From S2P Require Import Prelude Geometry.

Section Bboxes.
Context `{GB : GeomBackend}.

(** The two result shapes of [get_polygon_points]. *)
Inductive points_result : Type :=
| PolyPoints (pts : list point)
| MultiPoints (ptss : list (list point)).

Definition get_polygon_points (g : geometry) : res points_result :=
  match g with
  | GPolygon p => Ok (PolyPoints (exterior p))
  | GMultiPolygon ps => Ok (MultiPoints (map exterior ps))
  | GOther _ => raise ValueError
  end.

(** [normalize(shapely.box( *geom.bounds))] *)
Definition part_bbox (p : polygon) : polygon := normalize (box_of_bounds (bounds p)).

Definition get_polygon_bboxes (g : geometry) : list polygon :=
  match g with
  | GPolygon p => [part_bbox p]
  | GMultiPolygon ps => map part_bbox ps
  | GOther _ => []
  end.

Lemma get_polygon_bboxes_parts g : get_polygon_bboxes g = map part_bbox (polygon_parts g).
Proof. by destruct g. Qed.

Context `{!GeomBackendLaws}.

Lemma normalize_same_vertices p : same_vertices (exterior (normalize p)) (exterior p).
Proof. intros v. apply normalize_vertices. Qed.

(** The box of a part has the part's envelope: normalizing the box only
    reorders its corners. *)
Lemma bounds_part_bbox p : bounds (part_bbox p) = bounds p.
Proof.
  unfold part_bbox, bounds at 1. rewrite normalize_same_vertices.
  destruct (bounds p) as [e|] eqn:He; simpl; [|done].
  apply bounds_box. by eapply bounds_of_wf.
Qed.

(** C5: one box per simple polygon (one for a Polygon, one per part of a
    MultiPolygon, none for another kind), and the i-th box is the tight
    envelope of the i-th part: it has the part's bounds, so every vertex
    of the part lies within or on it. *)
Theorem get_polygon_bboxes_contain g i p b :
  polygon_parts g !! i = Some p → get_polygon_bboxes g !! i = Some b →
  bounds b = bounds p ∧
  ∀ v, v ∈ exterior p → ∃ e, bounds b = Some e ∧ in_env e v.
Proof.
  rewrite get_polygon_bboxes_parts, list_lookup_fmap. intros Hp. rewrite Hp.
  intros [= <-]. rewrite bounds_part_bbox. split; [done|].
  intros v Hv. destruct (bounds p) as [e|] eqn:He.
  - exists e. split; [done|]. by eapply bounds_of_contains.
  - unfold bounds in He. destruct (exterior p); [by apply not_elem_of_nil in Hv | done].
Qed.

Lemma get_polygon_bboxes_length g :
  length (get_polygon_bboxes g) = length (polygon_parts g).
Proof. by rewrite get_polygon_bboxes_parts, length_map. Qed.
End Bboxes.

Lemma get_polygon_bboxes_contain_witness :
  polygon_parts (GMultiPolygon [rect 0 0 1 1; rect 3 0 4 1]) !! 1%nat = Some (rect 3 0 4 1) ∧
  @get_polygon_bboxes ref_backend (GMultiPolygon [rect 0 0 1 1; rect 3 0 4 1]) !! 1%nat
    = Some (box (Envelope (Q2Qc 3) 0 (Q2Qc 4) 1)) ∧
  bounds (box (Envelope (Q2Qc 3) 0 (Q2Qc 4) 1)) = bounds (rect 3 0 4 1).
Proof.
  split; [reflexivity|]. split; [vm_compute; reflexivity|].
  eapply (@get_polygon_bboxes_contain ref_backend ref_backend_laws
            (GMultiPolygon [rect 0 0 1 1; rect 3 0 4 1]) 1%nat); vm_compute; reflexivity.
Defined.
