(* ===== verification/Decompose.v ===== *)
(** * Decomposition and greedy merging: [get_geom_polygons]

    [src/ftcnn/geometry/polygons.py], lines 122-174.  A Polygon gives its
    normalized self; a MultiPolygon gives its normalized parts, or, with
    [flatten=True], the result of the greedy first-match merge loop
    (lines 150-170), which calls [shapely.coverage_union] on each
    accumulated shape and iterates over [union.geoms].  The loop is
    modelled in the result monad because [union.geoms] raises
    [AttributeError] when the union is a single Polygon. *)

From S2P Require Import Prelude Geometry.

Local Open Scope nat_scope.

Section Decompose.
Context `{GB : GeomBackend}.

(** [union.geoms]: only multi-part geometries have it. *)
Definition geoms (g : geometry) : res (list polygon) :=
  match g with
  | GMultiPolygon ps => Ok ps
  | _ => raise AttributeError
  end.

(** The inner [for poly in union.geoms] loop: the first part equal to
    neither [flat] nor [polygon] (lines 158-165). *)
Definition first_new_part (flat p : polygon) (parts : list polygon) : option polygon :=
  List.find (λ poly, negb (geom_equals poly flat || geom_equals poly p)) parts.

(** The scan [for i, flat in enumerate(flattened)] (lines 156-167):
    [Some flattened'] when entry [i] was replaced by a merged part,
    [None] when no accumulated shape merged with the candidate. *)
Fixpoint try_merge (flattened : list polygon) (p : polygon) : res (option (list polygon)) :=
  match flattened with
  | [] => Ok None
  | flat :: rest =>
      parts ← geoms (coverage_union flat p);
      match first_new_part flat p parts with
      | Some poly => Ok (Some (poly :: rest))
      | None => r ← try_merge rest p; Ok (option_map (cons flat) r)
      end
  end.

(** One iteration of [for polygon in ...] (lines 151-169). *)
Definition flatten_step (flattened : list polygon) (p : polygon) : res (list polygon) :=
  match flattened with
  | [] => Ok [p]
  | _ =>
      r ← try_merge flattened p;
      Ok (match r with Some fl => fl | None => flattened ++ [p] end)
  end.

Fixpoint flatten_loop (flattened : list polygon) (ps : list polygon) : res (list polygon) :=
  match ps with
  | [] => Ok flattened
  | p :: ps' => fl ← flatten_step flattened p; flatten_loop fl ps'
  end.

Definition get_geom_polygons (g : geometry) (flatten : bool) : res (list polygon) :=
  match g with
  | GPolygon p => Ok [normalize p]
  | GMultiPolygon ps =>
      if flatten then flatten_loop [] (map normalize ps) else Ok (map normalize ps)
  | GOther _ => raise ValueError
  end.
End Decompose.

(** ** The greedy first-match merge, abstractly (spec 4.3)

    [merge_with flat p] is [Some m] when the candidate [p] merges with the
    accumulated shape [flat] into [m]. *)
Section GreedySpec.
Variable merge_with : polygon → polygon → option polygon.

Fixpoint greedy_replace (fl : list polygon) (p : polygon) : option (list polygon) :=
  match fl with
  | [] => None
  | flat :: rest =>
      match merge_with flat p with
      | Some m => Some (m :: rest)
      | None => option_map (cons flat) (greedy_replace rest p)
      end
  end.

Definition greedy_insert (fl : list polygon) (p : polygon) : list polygon :=
  match greedy_replace fl p with Some fl' => fl' | None => fl ++ [p] end.

Definition greedy_flatten (ps : list polygon) : list polygon := foldl greedy_insert [] ps.
End GreedySpec.

Section DecomposeProofs.
Context `{GB : GeomBackend}.

(** Spec 4.3's merge test, read on the parts of the coverage union: a
    genuine merge occurred when a part equals neither the accumulated shape
    nor the candidate, and the first such part is the merged shape that
    replaces the accumulated one. *)
Definition genuine_merge (flat p q : polygon) : bool :=
  negb (geom_equals q flat) && negb (geom_equals q p).

Definition merge_with_union (flat p : polygon) : option polygon :=
  match coverage_union flat p with
  | GMultiPolygon qs => List.find (genuine_merge flat p) qs
  | _ => None
  end.

(** The loop's test of lines 158-165 is spec 4.3's. *)
Lemma first_new_part_genuine flat p qs :
  first_new_part flat p qs = List.find (genuine_merge flat p) qs.
Proof.
  unfold first_new_part. induction qs as [|q qs IH]; simpl; [done|].
  unfold genuine_merge at 1. by rewrite negb_orb, IH.
Qed.

Section MultiPartUnions.
Hypothesis unions_multi : ∀ a b, ∃ qs, coverage_union a b = GMultiPolygon qs.

Lemma try_merge_refines fl p : try_merge fl p = Ok (greedy_replace merge_with_union fl p).
Proof.
  induction fl as [|flat rest IH]; simpl; [done|].
  destruct (unions_multi flat p) as [qs Hq].
  assert (Hm : merge_with_union flat p = first_new_part flat p qs)
    by (unfold merge_with_union; by rewrite Hq, first_new_part_genuine).
  rewrite Hm, Hq. simpl. destruct (first_new_part flat p qs); [done|].
  rewrite IH. reflexivity.
Qed.

Lemma flatten_loop_refines fl ps :
  flatten_loop fl ps = Ok (foldl (greedy_insert merge_with_union) fl ps).
Proof.
  revert fl. induction ps as [|p ps IH]; intros fl; simpl; [done|].
  assert (Hs : flatten_step fl p = Ok (greedy_insert merge_with_union fl p)).
  { unfold flatten_step, greedy_insert. destruct fl as [|flat rest]; [done|].
    by rewrite try_merge_refines. }
  rewrite Hs. apply IH.
Qed.
End MultiPartUnions.
End DecomposeProofs.

Section DecomposeClaims.
Context `{GB : GeomBackend}.

(** C17: without [flatten], a MultiPolygon of k parts decomposes into
    exactly k polygons, the i-th one the normalized i-th part, and a
    Polygon into the one normalized polygon. *)
Theorem get_geom_polygons_decompose g out :
  get_geom_polygons g false = Ok out →
  length out = length (polygon_parts g) ∧
  ∀ i p, polygon_parts g !! i = Some p → out !! i = Some (normalize p).
Proof.
  destruct g as [p|ps|k]; simpl; intros; simplify_eq; split; try done.
  - intros [|i] q; simpl; [by intros [= ->]|by rewrite lookup_nil].
  - by rewrite length_map.
  - intros i q Hq. by rewrite list_lookup_fmap, Hq.
Qed.

(** C16: when every [coverage_union] the loop computes is multi-part, the
    flatten branch is exactly the greedy first-match merge of spec 4.3:
    each candidate replaces the first accumulated shape whose union with
    it has a part equal to neither ([genuine_merge], the spec's test), and
    is appended otherwise. *)
Theorem get_geom_polygons_flatten_refines ps :
  (∀ a b, ∃ qs, coverage_union a b = GMultiPolygon qs) →
  get_geom_polygons (GMultiPolygon ps) true
    = Ok (greedy_flatten merge_with_union (map normalize ps)).
Proof. intros Hm. apply (flatten_loop_refines Hm). Qed.

(** C7: when the union of the first two parts is a single Polygon (the
    parts touch or overlap and shapely merges them), the loop's
    [union.geoms] raises [AttributeError]: the flatten branch fails
    exactly when it has something to merge. *)
Theorem get_geom_polygons_flatten_merge_raises a b rest q :
  coverage_union (normalize a) (normalize b) = GPolygon q →
  get_geom_polygons (GMultiPolygon (a :: b :: rest)) true = Err AttributeError.
Proof.
  intros Hq. simpl. by rewrite Hq.
Qed.
End DecomposeClaims.

Section CoverageContract.
Context `{GB : GeomBackend}.

(** What [shapely.coverage_union] returns for two polygons: a single
    Polygon when they merge, otherwise a MultiPolygon whose parts are the
    two inputs. *)
Definition coverage_contract : Prop :=
  ∀ a b, (∃ q, coverage_union a b = GPolygon q) ∨
         (∃ qs, coverage_union a b = GMultiPolygon qs ∧
                Forall (λ q, geom_equals q a = true ∨ geom_equals q b = true) qs).

Hypothesis Hcov : coverage_contract.

Lemma first_new_part_none a b qs :
  Forall (λ q, geom_equals q a = true ∨ geom_equals q b = true) qs →
  first_new_part a b qs = None.
Proof.
  induction 1 as [|q qs Hq _ IH]; [done|]. unfold first_new_part; simpl.
  destruct Hq as [-> | ->]; [|rewrite orb_true_r]; done.
Qed.

Lemma try_merge_contract fl p :
  try_merge fl p = Ok None ∨ try_merge fl p = Err AttributeError.
Proof.
  induction fl as [|flat rest IH]; simpl; [by left|].
  destruct (Hcov flat p) as [[q ->] | (qs & -> & Hqs)]; simpl; [by right|].
  rewrite first_new_part_none by done.
  destruct IH as [-> | ->]; [by left | by right].
Qed.

Lemma flatten_loop_contract fl ps :
  flatten_loop fl ps = Ok (fl ++ ps) ∨ flatten_loop fl ps = Err AttributeError.
Proof.
  revert fl. induction ps as [|p ps IH]; intros fl; simpl.
  - left. by rewrite app_nil_r.
  - assert (Hs : flatten_step fl p = Ok (fl ++ [p]) ∨
                 flatten_step fl p = Err AttributeError).
    { unfold flatten_step. destruct fl as [|flat rest]; [by left|].
      destruct (try_merge_contract (flat :: rest) p) as [-> | ->]; [by left | by right]. }
    destruct Hs as [-> | ->]; [|by right]. simpl.
    replace (fl ++ p :: ps) with ((fl ++ [p]) ++ ps) by (by rewrite <-app_assoc).
    apply IH.
Qed.

(** C8: under shapely's contract for [coverage_union], the merge
    assignment [flattened[i] = poly] is never reached: the flatten branch
    returns the normalized parts unchanged or raises [AttributeError]. *)
Theorem get_geom_polygons_flatten_never_merges ps :
  get_geom_polygons (GMultiPolygon ps) true = Ok (map normalize ps) ∨
  get_geom_polygons (GMultiPolygon ps) true = Err AttributeError.
Proof. apply flatten_loop_contract. Qed.
End CoverageContract.

(** A backend whose [coverage_union] merges overlapping polygons into one
    Polygon, as shapely does for parts that share area or an edge. *)
Definition env_join (e1 e2 : envelope) : envelope :=
  Envelope (qmin (minx e1) (minx e2)) (qmin (miny e1) (miny e2))
           (qmax (maxx e1) (maxx e2)) (qmax (maxy e1) (maxy e2)).

Definition merging_union (a b : polygon) : geometry :=
  match bounds a, bounds b with
  | Some ea, Some eb =>
      if env_overlap ea eb then GPolygon (box (env_join ea eb)) else GMultiPolygon [a; b]
  | _, _ => GMultiPolygon [a; b]
  end.

Definition merging_backend : GeomBackend := {|
  normalize := λ p, p;
  normalize_geom := λ g, g;
  simplify := λ _ g, g;
  unary_union := ref_union;
  coverage_union := merging_union;
  geom_equals := λ a b, bool_decide (a = b);
  intersects := λ g t, existsb (λ p, poly_overlap p t) (polygon_parts g);
  intersection := ref_intersection;
  get_parts := λ g, match g with GMultiPolygon ps => map GPolygon ps | _ => [g] end
|}.

Lemma get_geom_polygons_flatten_refines_witness :
  @get_geom_polygons ref_backend (GMultiPolygon [rect 0 0 1 1; rect 3 0 4 1]) true
  = Ok (@greedy_flatten (@merge_with_union ref_backend) [rect 0 0 1 1; rect 3 0 4 1]).
Proof.
  apply (@get_geom_polygons_flatten_refines ref_backend).
  intros a b. by eexists.
Defined.

(** The two overlapping squares of spec section 8, whose merge the spec
    expects to give one polygon of area 7. *)
Lemma get_geom_polygons_flatten_merge_raises_witness :
  @get_geom_polygons merging_backend
    (GMultiPolygon [rect 0 0 2 2; rect 1 1 3 3]) true = Err AttributeError.
Proof.
  apply (@get_geom_polygons_flatten_merge_raises merging_backend _ _ []
           (box (Envelope (pt 0 0).1 (pt 0 0).2 (pt 3 3).1 (pt 3 3).2))).
  vm_compute. reflexivity.
Defined.

Lemma get_geom_polygons_flatten_never_merges_witness :
  @get_geom_polygons ref_backend (GMultiPolygon [rect 0 0 1 1; rect 3 0 4 1]) true
    = Ok [rect 0 0 1 1; rect 3 0 4 1] ∨
  @get_geom_polygons ref_backend (GMultiPolygon [rect 0 0 1 1; rect 3 0 4 1]) true
    = Err AttributeError.
Proof.
  apply (@get_geom_polygons_flatten_never_merges ref_backend).
  intros a b. right. eexists. split; [reflexivity|].
  constructor; [left | constructor; [right | constructor]]; simpl;
    by apply bool_decide_eq_true.
Defined.

Lemma get_geom_polygons_decompose_witness :
  length [rect 0 0 1 1; rect 3 0 4 1] = length (polygon_parts (GMultiPolygon [rect 0 0 1 1; rect 3 0 4 1])) ∧
  [rect 0 0 1 1; rect 3 0 4 1] !! 1%nat = Some (@normalize ref_backend (rect 3 0 4 1)).
Proof.
  destruct (@get_geom_polygons_decompose ref_backend (GMultiPolygon [rect 0 0 1 1; rect 3 0 4 1])
              [rect 0 0 1 1; rect 3 0 4 1]) as [H1 H2]; [reflexivity|].
  split; [exact H1 | apply H2; reflexivity].
Defined.
