(* ===== verification/Footprint.v ===== *)
(** * Raster tile footprints: [create_tile_polygon]

    [src/ftcnn/geometry/polygons.py], lines 184-216: the ground-space ring
    of a raster window, obtained by applying the window's affine transform
    ([src.window_transform(tile_window)], rasterio's [windows.transform]) to
    the pixel corners (0,0), (w,0), (w,h), (0,h) and closing the ring.
    Affine maps follow the [affine] package used by rasterio:
    [Affine(a, b, c, d, e, f) * (x, y) = (a x + b y + c, d x + e y + f)]. *)

From S2P Require Import Prelude Geometry.

Open Scope Qc_scope.

(** ** Affine transforms and windows *)

Record affine : Type := Affine { aff_a : Qc; aff_b : Qc; aff_c : Qc;
                                 aff_d : Qc; aff_e : Qc; aff_f : Qc }.

(** [transform * (x, y)] *)
Definition affine_apply (T : affine) (v : point) : point :=
  (aff_a T * v.1 + aff_b T * v.2 + aff_c T, aff_d T * v.1 + aff_e T * v.2 + aff_f T).

(** [T1 * T2]: apply [T2] first. *)
Definition affine_compose (T1 T2 : affine) : affine :=
  Affine (aff_a T1 * aff_a T2 + aff_b T1 * aff_d T2)
         (aff_a T1 * aff_b T2 + aff_b T1 * aff_e T2)
         (aff_a T1 * aff_c T2 + aff_b T1 * aff_f T2 + aff_c T1)
         (aff_d T1 * aff_a T2 + aff_e T1 * aff_d T2)
         (aff_d T1 * aff_b T2 + aff_e T1 * aff_e T2)
         (aff_d T1 * aff_c T2 + aff_e T1 * aff_f T2 + aff_f T1).

(** [Affine.translation(tx, ty)] and [Affine.identity()] *)
Definition translation (tx ty : Qc) : affine := Affine 1 0 tx 0 1 ty.
Definition affine_identity : affine := Affine 1 0 0 0 1 0.

(** [rasterio.windows.Window(col_off, row_off, width, height)] *)
Record window : Type := Window { col_off : Qc; row_off : Qc; width : Qc; height : Qc }.

(** [ftcnn.raster.create_window] (outside [src/]): the window with the given
    offsets and size. *)
Definition create_window (c r w h : Qc) : window := Window c r w h.

(** [rasterio.windows.transform(window, transform)], which
    [DatasetBase.window_transform] calls:
    [x, y = transform * (col_off, row_off)] then
    [Affine.translation(x - transform.c, y - transform.f) * transform]. *)
Definition window_transform (T : affine) (w : window) : affine :=
  let xy := affine_apply T (col_off w, row_off w) in
  affine_compose (translation (xy.1 - aff_c T) (xy.2 - aff_f T)) T.

(** ** The footprint *)

(** [create_tile_polygon(src, tile_window)], with [src.transform = T]. *)
Definition create_tile_polygon (T : affine) (w : window) : polygon :=
  let tile_transform := window_transform T w in
  Polygon [affine_apply tile_transform (0, 0);
           affine_apply tile_transform (width w, 0);
           affine_apply tile_transform (width w, height w);
           affine_apply tile_transform (0, height w);
           affine_apply tile_transform (0, 0)] [].

(** ** Lemmas *)

Lemma affine_apply_compose T1 T2 v :
  affine_apply (affine_compose T1 T2) v = affine_apply T1 (affine_apply T2 v).
Proof. destruct T1, T2, v. unfold affine_apply; simpl. f_equal; ring. Qed.

(** The window transform maps a pixel of the window to the ground point of
    the same pixel of the whole raster. *)
Lemma window_transform_apply T w x y :
  affine_apply (window_transform T w) (x, y) = affine_apply T (col_off w + x, row_off w + y).
Proof.
  destruct T, w. unfold window_transform, affine_apply, affine_compose; simpl.
  f_equal; ring.
Qed.

(** The footprint is the raster transform applied at the window's pixel
    corners, in the order of the source, closed. *)
Lemma create_tile_polygon_exterior T w :
  exterior (create_tile_polygon T w) =
  map (λ d : point, affine_apply T (col_off w + d.1, row_off w + d.2))
      [(0, 0); (width w, 0); (width w, height w); (0, height w); (0, 0)].
Proof. unfold create_tile_polygon; simpl. by rewrite !window_transform_apply. Qed.

(** The ground extent of a window under a north-up transform ([b = d = 0],
    [a ≥ 0] the pixel width, [e ≤ 0] the negated pixel height). *)
Definition window_extent (T : affine) (w : window) : envelope :=
  Envelope (aff_a T * col_off w + aff_c T)
           (aff_e T * (row_off w + height w) + aff_f T)
           (aff_a T * (col_off w + width w) + aff_c T)
           (aff_e T * row_off w + aff_f T).

(** C6: footprint exactness (spec section 8): under the identity transform
    the footprint of the window [(0, 0, W, H)] is exactly the ring
    (0,0), (W,0), (W,H), (0,H), (0,0). *)
Theorem create_tile_polygon_identity W H :
  exterior (create_tile_polygon affine_identity (create_window 0 0 W H)) =
  [(0, 0); (W, 0); (W, H); (0, H); (0, 0)].
Proof.
  rewrite create_tile_polygon_exterior. unfold affine_apply; simpl.
  pointwise; ring.
Qed.

(** C30: under a north-up transform ([b = d = 0], [a ≥ 0], [e ≤ 0]) and a
    window of non-negative size, the footprint's envelope is exactly the
    ground extent of the window's pixels: from the left edge of column
    [col_off] to the right edge of column [col_off + width], and from the
    bottom of row [row_off + height] to the top of row [row_off]. *)
Theorem create_tile_polygon_bounds T w :
  aff_b T = 0 → aff_d T = 0 → 0 ≤ aff_a T → aff_e T ≤ 0 →
  0 ≤ width w → 0 ≤ height w →
  bounds (create_tile_polygon T w) = Some (window_extent T w).
Proof.
  intros Hb Hd Ha He HW HH. unfold bounds. rewrite create_tile_polygon_exterior.
  destruct T as [a b c d e f], w as [col row W H].
  cbn [aff_a aff_b aff_c aff_d aff_e aff_f col_off row_off width height] in *.
  subst. unfold window_extent.
  cbn [aff_a aff_b aff_c aff_d aff_e aff_f col_off row_off width height].
  rewrite <-bounds_of_rect_ring.
  - apply (f_equal bounds_of). cbn [map]. unfold affine_apply.
    cbn [fst snd aff_a aff_b aff_c aff_d aff_e aff_f]. pointwise; ring.
  - apply qc_affine_mono; [done|]. by apply qc_le_add_r.
  - apply qc_affine_anti; [done|]. by apply qc_le_add_r.
Qed.

(** C11: the footprint is a well-formed polygon: a closed ring of five
    coordinates without holes, whose signed area is the window's pixel
    area scaled by the transform's determinant; so it is non-degenerate
    exactly when the transform is invertible and the window is not empty,
    and for a north-up raster ([a > 0], [e < 0], [b = d = 0]) the ring runs
    clockwise, the opposite of the rings [shapely.box] builds. *)
Theorem create_tile_polygon_ring T w :
  ring_closed (exterior (create_tile_polygon T w)) ∧ interiors (create_tile_polygon T w) = [] ∧
  shoelace (exterior (create_tile_polygon T w)) =
    2 * (aff_a T * aff_e T - aff_b T * aff_d T) * width w * height w.
Proof.
  split_and!; [split; simpl; [lia | done] | done |].
  rewrite create_tile_polygon_exterior. destruct T, w. unfold affine_apply. simpl. ring.
Qed.

Lemma create_tile_polygon_bounds_witness :
  bounds (create_tile_polygon (Affine (Q2Qc 2) 0 (Q2Qc 100) 0 (- Q2Qc 2) (Q2Qc 50))
                              (create_window 0 0 (Q2Qc 10) (Q2Qc 5)))
  = Some (window_extent (Affine (Q2Qc 2) 0 (Q2Qc 100) 0 (- Q2Qc 2) (Q2Qc 50))
                        (create_window 0 0 (Q2Qc 10) (Q2Qc 5))).
Proof.
  apply create_tile_polygon_bounds; simpl; try reflexivity; vm_compute; discriminate.
Defined.
