(* ===== verification/PyStr.v ===== *)
(** * Python string builtins used by the parser

    The [str] methods [parse_polygon_str] calls, on 8-bit characters
    (Python code points 0-255): [isdigit], [isspace], [s.split(", ")],
    [s.split()], [s.replace(" 0", "")], [s.replace("(", "")] and the
    builtin [float].  [float] is modelled on its decimal grammar (sign,
    digits, optional fraction, optional exponent) with exact rational
    values; the spellings [inf], [nan] and digit-group underscores, which
    Python also accepts, are rejected here. *)

From S2P Require Import Prelude.
From Stdlib Require Import Ascii DecimalString DecimalN.

Local Open Scope string_scope.

(** ** Character classes *)

(** [str.isdigit] on code points 0-255: the ASCII digits and the
    superscripts one, two and three. *)
Definition is_digit (c : ascii) : bool :=
  let n := Ascii.nat_of_ascii c in
  (48 <=? n)%nat && (n <=? 57)%nat || (n =? 178)%nat || (n =? 179)%nat || (n =? 185)%nat.

(** [str.isspace] on code points 0-255. *)
Definition is_space (c : ascii) : bool :=
  let n := Ascii.nat_of_ascii c in
  (9 <=? n)%nat && (n <=? 13)%nat || (28 <=? n)%nat && (n <=? 32)%nat
  || (n =? 133)%nat || (n =? 160)%nat.

Definition is_ascii_digit (c : ascii) : bool :=
  let n := Ascii.nat_of_ascii c in (48 <=? n)%nat && (n <=? 57)%nat.

(** ** Splitting and replacing *)

(** Prepend a character to the first piece. *)
Definition cons_head (c : ascii) (ws : list string) : list string :=
  match ws with
  | [] => [String c ""]
  | w :: ws' => String c w :: ws'
  end.

(** [s.split(sep)] for a two-character separator [a b]: the pieces between
    the non-overlapping occurrences found left to right. *)
Fixpoint split_on2 (a b : ascii) (s : string) : list string :=
  match s with
  | "" => [""]
  | String c rest =>
      match rest with
      | String d rest' =>
          if bool_decide (c = a) && bool_decide (d = b)
          then "" :: split_on2 a b rest'
          else cons_head c (split_on2 a b rest)
      | "" => [String c ""]
      end
  end.

(** [s.split()]: the maximal runs of non-whitespace characters. *)
Fixpoint split_ws (s : string) : list string :=
  match s with
  | "" => []
  | String c rest =>
      if is_space c then split_ws rest
      else match rest with
           | String d _ =>
               if is_space d then String c "" :: split_ws rest
               else cons_head c (split_ws rest)
           | "" => [String c ""]
           end
  end.

(** [s.replace(a b, "")] for a two-character pattern, left to right. *)
Fixpoint remove_pair (a b : ascii) (s : string) : string :=
  match s with
  | "" => ""
  | String c rest =>
      match rest with
      | String d rest' =>
          if bool_decide (c = a) && bool_decide (d = b)
          then remove_pair a b rest'
          else String c (remove_pair a b rest)
      | "" => String c ""
      end
  end.

(** [s.replace(c, "")] for one character. *)
Fixpoint remove_char (a : ascii) (s : string) : string :=
  match s with
  | "" => ""
  | String c rest => if bool_decide (c = a) then remove_char a rest else String c (remove_char a rest)
  end.

(** ** [float(s)] *)

(** The longest prefix of ASCII digits, and the rest. *)
Fixpoint span_digits (s : string) : string * string :=
  match s with
  | String c rest =>
      if is_ascii_digit c then let '(ds, r) := span_digits rest in (String c ds, r) else ("", s)
  | "" => ("", "")
  end.

Definition strip_sign (s : string) : bool * string :=
  match s with
  | String "-" rest => (true, rest)
  | String "+" rest => (false, rest)
  | _ => (false, s)
  end.

(** The value of a string of ASCII digits. *)
Definition digits_value (ds : string) : Z :=
  match NilEmpty.uint_of_string ds with
  | Some d => Z.of_N (N.of_uint d)
  | None => 0
  end.

(** [m * 10^k] as an exact rational, for any integer [k]. *)
Definition scale10 (m : Z) (k : Z) : Qc :=
  if decide (0 ≤ k)%Z then Q2Qc (inject_Z (m * 10 ^ k))
  else Q2Qc (Qmake m (Z.to_pos (10 ^ (- k)))).

(** The optional exponent [e[+-]digits]. *)
Definition parse_exponent (s : string) : res Z :=
  match s with
  | "" => Ok 0%Z
  | String c rest =>
      if bool_decide (c = "e"%char) || bool_decide (c = "E"%char) then
        let '(neg, r) := strip_sign rest in
        let '(ds, r') := span_digits r in
        if bool_decide (ds = "") || negb (bool_decide (r' = "")) then raise ValueError
        else Ok (if neg then - digits_value ds else digits_value ds)%Z
      else raise ValueError
  end.

Definition parse_float (s : string) : res Qc :=
  let '(neg, s1) := strip_sign s in
  let '(ip, s2) := span_digits s1 in
  let '(fp, s3) := match s2 with
                   | String "." r => span_digits r
                   | _ => ("", s2)
                   end in
  if bool_decide (ip = "") && bool_decide (fp = "") then raise ValueError
  else
    ex ← parse_exponent s3;
    let m := digits_value (ip ++ fp) in
    Ok (scale10 (if neg then - m else m)%Z (ex - Z.of_nat (String.length fp))%Z).

(** ** String lemmas *)

(** stdpp makes [String.append] opaque to [simpl]; this is its equation. *)
Lemma str_app_cons c s t : (String c s ++ t)%string = String c (s ++ t).
Proof. reflexivity. Qed.
Lemma str_app_nil_l t : ("" ++ t)%string = t.
Proof. reflexivity. Qed.
#[export] Hint Rewrite str_app_cons str_app_nil_l : geo.

(** Every character satisfies [f]. *)
Fixpoint all_chars (f : ascii → bool) (s : string) : bool :=
  match s with "" => true | String c rest => f c && all_chars f rest end.

Lemma all_chars_get f s i c : all_chars f s = true → String.get i s = Some c → f c = true.
Proof.
  revert i. induction s as [|c' s IH]; intros [|i]; simpl; try done.
  - intros [? ?]%andb_true_iff [= <-]. done.
  - intros [? ?]%andb_true_iff. by apply IH.
Qed.

Lemma all_chars_app f a b : all_chars f (a ++ b) = all_chars f a && all_chars f b.
Proof. induction a as [|c a IH]; simpl; [done|]. by rewrite IH, andb_assoc. Qed.

Lemma get_app_l a b i : (i < String.length a)%nat → String.get i (a ++ b) = String.get i a.
Proof. intros. symmetry. by apply String.append_correct1. Qed.

Lemma get_app_r a b i : String.get (String.length a + i) (a ++ b) = String.get i b.
Proof. rewrite Nat.add_comm. symmetry. apply String.append_correct2. Qed.

Lemma substring_app_l a b n : String.substring (String.length a) n (a ++ b) = String.substring 0 n b.
Proof. induction a as [|c a IH]; simpl; [done|]. by destruct n. Qed.

Lemma substring_0_app b c : String.substring 0 (String.length b) (b ++ c) = b.
Proof. induction b as [|x b IH]; simpl; [by destruct c|]. by rewrite IH. Qed.

Lemma str_length_app a b : String.length (a ++ b) = (String.length a + String.length b)%nat.
Proof. induction a as [|c a IH]; simpl; [done|]. by rewrite IH. Qed.

Lemma str_app_nil_r s : (s ++ "")%string = s.
Proof. induction s as [|c s IH]; [done|]. rewrite str_app_cons. by rewrite IH. Qed.

Lemma str_app_assoc a b c : (a ++ (b ++ c))%string = ((a ++ b) ++ c)%string.
Proof. induction a as [|x a IH]; [done|]. rewrite !str_app_cons. by rewrite IH. Qed.

Lemma all_chars_impl f g s : (∀ c, f c = true → g c = true) → all_chars f s = true → all_chars g s = true.
Proof.
  intros Hfg. induction s as [|c s IH]; simpl; [done|].
  intros [? ?]%andb_true_iff. apply andb_true_iff. auto.
Qed.

(** The character is not [a]. *)
Definition not_char (a c : ascii) : bool := negb (bool_decide (c = a)).

Lemma not_char_neq a c : not_char a c = true → c ≠ a.
Proof. unfold not_char. intros H ->. by rewrite bool_decide_eq_true_2 in H. Qed.

(** A character that is not [a] never starts an occurrence of [a b]. *)
Lemma remove_pair_step a b c w : c ≠ a → remove_pair a b (String c w) = String c (remove_pair a b w).
Proof. intros Hc. destruct w as [|d w]; [done|]. simpl. by rewrite bool_decide_eq_false_2. Qed.

Lemma remove_pair_app a b u v :
  all_chars (not_char a) u = true → remove_pair a b (u ++ v) = (u ++ remove_pair a b v)%string.
Proof.
  induction u as [|c u IH]; [done|]. intros Hu. simpl in Hu.
  apply andb_true_iff in Hu as [Hc Hu].
  rewrite str_app_cons, remove_pair_step by (by apply not_char_neq). by rewrite IH.
Qed.

Lemma remove_pair_free a b u : all_chars (not_char a) u = true → remove_pair a b u = u.
Proof. intros Hu. rewrite <-(str_app_nil_r u) at 1. by rewrite remove_pair_app, str_app_nil_r. Qed.

(** [a] followed by something other than [b] is kept. *)
Lemma remove_pair_keep a b d w : d ≠ b → remove_pair a b (String a (String d w)) = String a (remove_pair a b (String d w)).
Proof. intros Hd. simpl. rewrite bool_decide_eq_true_2, bool_decide_eq_false_2 by done. done. Qed.

Lemma remove_char_free a u : all_chars (not_char a) u = true → remove_char a u = u.
Proof.
  induction u as [|c u IH]; [done|]. simpl. intros [Hc Hu]%andb_true_iff.
  rewrite bool_decide_eq_false_2 by (by apply not_char_neq). by rewrite IH.
Qed.

Lemma split_on2_step a b c w : c ≠ a → split_on2 a b (String c w) = cons_head c (split_on2 a b w).
Proof. intros Hc. destruct w as [|d w]; [done|]. simpl. by rewrite bool_decide_eq_false_2. Qed.

Lemma split_on2_free a b u : all_chars (not_char a) u = true → split_on2 a b u = [u].
Proof.
  induction u as [|c u IH]; [done|]. intros Hu. simpl in Hu.
  apply andb_true_iff in Hu as [Hc Hu].
  rewrite split_on2_step by (by apply not_char_neq). by rewrite IH.
Qed.

Lemma split_on2_sep a b u v :
  all_chars (not_char a) u = true →
  split_on2 a b (u ++ String a (String b v)) = u :: split_on2 a b v.
Proof.
  induction u as [|c u IH]; intros Hu.
  - simpl. case_bool_decide; [|done]. case_bool_decide; done.
  - simpl in Hu. apply andb_true_iff in Hu as [Hc Hu].
    rewrite str_app_cons, split_on2_step by (by apply not_char_neq). by rewrite IH.
Qed.

Lemma split_ws_step c d w :
  is_space c = false → is_space d = false →
  split_ws (String c (String d w)) = cons_head c (split_ws (String d w)).
Proof. intros Hc Hd. simpl. by rewrite Hc, Hd. Qed.

(** A word without whitespace, then a space. *)
Lemma split_ws_word u v :
  u ≠ "" → all_chars (λ c, negb (is_space c)) u = true →
  split_ws (u ++ String " " v) = u :: split_ws v ∧ split_ws u = [u].
Proof.
  induction u as [|c u IH]; [done|]. intros _ Hu. simpl in Hu.
  apply andb_true_iff in Hu as [Hc Hu]. apply negb_true_iff in Hc.
  destruct u as [|c' u'].
  - simpl. rewrite Hc. done.
  - destruct (IH ltac:(done) Hu) as [IH1 IH2]. simpl in Hu.
    apply andb_true_iff in Hu as [Hc' _]. apply negb_true_iff in Hc'.
    rewrite !str_app_cons, split_ws_step by done. rewrite <-str_app_cons, IH1.
    rewrite split_ws_step, IH2 by done. done.
Qed.
