(* ===== verification/PolyParse.v ===== *)
(** * Parsing coordinate strings: [parse_polygon_str]

    [src/ftcnn/geometry/polygons.py], lines 219-261.  The [while] loop of
    lines 241-250 moves [start] right and [end] left until both sit on a
    digit; it is modelled with fuel [len(polygon_str)], which is enough
    because every iteration moves at least one of the two indices
    ([strip_loop_exits]).  Indices are Python [int]s, modelled in [Z]. *)

From S2P Require Import Prelude PyStr.

Local Open Scope string_scope.
Local Open Scope Z_scope.

(** ** The model *)

(** [polygon_str[i].isdigit()]; the loop only reads in-range indices. *)
Definition digit_at (s : string) (i : Z) : bool :=
  match String.get (Z.to_nat i) s with
  | Some c => bool_decide (0 ≤ i) && is_digit c
  | None => false
  end.

(** The loop condition of line 241. *)
Definition strip_guard (s : string) (start end_ : Z) : bool :=
  bool_decide (start < end_) && bool_decide (start < Z.of_nat (String.length s))
  && bool_decide (0 ≤ end_) && negb (digit_at s start && digit_at s end_).

(** The loop of lines 241-250. *)
Fixpoint strip_loop (fuel : nat) (s : string) (start end_ : Z) : Z * Z :=
  match fuel with
  | O => (start, end_)
  | S fuel' =>
      if strip_guard s start end_ then
        let start' := if digit_at s start then start else start + 1 in
        let end' := if digit_at s end_ then end_ else end_ - 1 in
        strip_loop fuel' s start' end'
      else (start, end_)
  end.

(** [s[i:j]] for [0 <= i] and [j <= len(s)]; empty when [j <= i]. *)
Definition py_slice (s : string) (i j : Z) : string :=
  String.substring (Z.to_nat i) (Z.to_nat (j - i)) s.

(** Lines 238-253. *)
Definition strip_polygon_str (s : string) : string :=
  let size := Z.of_nat (String.length s) in
  let '(start, end_) := strip_loop (String.length s) s 0 (size - 1) in
  if bool_decide (start < size) && bool_decide (0 ≤ end_) then py_slice s start (end_ + 1) else s.

(** Lines 257-259: [point.replace(" 0", "").replace("(", "").replace(")", "")],
    [x, y = point.split()] and the two [float] conversions. *)
Definition clean_point (point : string) : string :=
  remove_char ")" (remove_char "(" (remove_pair " " "0" point)).

Definition parse_point (point : string) : res (Qc * Qc) :=
  match split_ws (clean_point point) with
  | [x; y] => fx ← parse_float x; fy ← parse_float y; Ok (fx, fy)
  | _ => raise ValueError
  end.

Definition parse_polygon_str (polygon_str : string) : res (list (Qc * Qc)) :=
  mapM parse_point (split_on2 "," " " (strip_polygon_str polygon_str)).

(** ** The strip loop *)

Lemma strip_guard_true s st en :
  strip_guard s st en = true →
  st < en ∧ st < Z.of_nat (String.length s) ∧ 0 ≤ en ∧
  (digit_at s st = false ∨ digit_at s en = false).
Proof.
  unfold strip_guard. intros H. repeat rewrite andb_true_iff in H.
  destruct H as [[[H1 H2] H3] H4]. apply bool_decide_eq_true in H1, H2, H3.
  apply negb_true_iff, andb_false_iff in H4. auto.
Qed.

(** Every iteration shrinks [end - start]: with fuel above that distance the
    loop ends with its condition false. *)
Lemma strip_loop_exits_gen fuel s st en :
  en - st < Z.of_nat fuel →
  let '(st', en') := strip_loop fuel s st en in strip_guard s st' en' = false.
Proof.
  revert st en. induction fuel as [|fuel IH]; intros st en Hm; simpl.
  - unfold strip_guard. rewrite bool_decide_eq_false_2; [done | lia].
  - destruct (strip_guard s st en) eqn:Hg; [|done].
    apply strip_guard_true in Hg as (? & ? & ? & Hd).
    apply IH. destruct (digit_at s st), (digit_at s en); destruct Hd; try done; lia.
Qed.

Section StripSpec.
(** A string whose first [lp] characters and last characters after
    position [lp + lb - 1] are not digits, and whose characters at [lp]
    and [lp + lb - 1] are. *)
Variables (s : string) (lp lb : Z).
Hypothesis Hlb : 1 ≤ lb.
Hypothesis Hlp : 0 ≤ lp.
Hypothesis Hsize : lp + lb ≤ Z.of_nat (String.length s).
Hypothesis Hpre : ∀ i, 0 ≤ i < lp → digit_at s i = false.
Hypothesis Hpost : ∀ i, lp + lb ≤ i → digit_at s i = false.
Hypothesis Hfirst : digit_at s lp = true.
Hypothesis Hlast : digit_at s (lp + lb - 1) = true.

Lemma strip_loop_spec fuel st en :
  0 ≤ st ≤ lp → lp + lb - 1 ≤ en ≤ Z.of_nat (String.length s) - 1 →
  (lp - st) + (en - (lp + lb - 1)) ≤ Z.of_nat fuel →
  strip_loop fuel s st en = (lp, lp + lb - 1).
Proof.
  revert st en. induction fuel as [|fuel IH]; intros st en Hst Hen Hm; simpl.
  - f_equal; lia.
  - destruct (strip_guard s st en) eqn:Hg.
    + apply strip_guard_true in Hg as (? & ? & ? & Hd).
      assert (Hs : digit_at s st = true ↔ st = lp).
      { split; [|by intros ->]. intros Hd'. destruct (decide (st = lp)); [done|].
        rewrite Hpre in Hd'; [done | lia]. }
      assert (He : digit_at s en = true ↔ en = lp + lb - 1).
      { split; [|by intros ->]. intros Hd'. destruct (decide (en = lp + lb - 1)); [done|].
        rewrite Hpost in Hd'; [done | lia]. }
      apply IH; destruct (digit_at s st), (digit_at s en);
        destruct Hd; try done; destruct Hs, He; try lia.
    + unfold strip_guard in Hg.
      destruct (decide (st = lp)) as [->|]; [destruct (decide (en = lp + lb - 1)) as [->|]|].
      * done.
      * exfalso. rewrite bool_decide_eq_true_2 in Hg by lia.
        rewrite bool_decide_eq_true_2 in Hg by lia. rewrite bool_decide_eq_true_2 in Hg by lia.
        rewrite Hfirst, Hpost in Hg by lia. done.
      * exfalso. rewrite bool_decide_eq_true_2 in Hg by lia.
        rewrite bool_decide_eq_true_2 in Hg by lia. rewrite bool_decide_eq_true_2 in Hg by lia.
        rewrite Hpre in Hg by lia. done.
Qed.
End StripSpec.

(** C29: the [while] loop of lines 241-250 terminates within
    [len(polygon_str)] iterations: with that fuel the model stops on a state
    where the loop condition is false. *)
Theorem strip_loop_exits s :
  let size := Z.of_nat (String.length s) in
  let '(start, end_) := strip_loop (String.length s) s 0 (size - 1) in
  strip_guard s start end_ = false.
Proof. apply strip_loop_exits_gen. lia. Qed.

Lemma digit_at_app_l a b i :
  i < Z.of_nat (String.length a) → digit_at (a ++ b) i = digit_at a i.
Proof.
  intros Hi. unfold digit_at. destruct (decide (0 ≤ i)).
  - by rewrite get_app_l by lia.
  - rewrite (bool_decide_eq_false_2 (0 ≤ i)) by done.
    by destruct (String.get _ (a ++ b)), (String.get _ a).
Qed.

Lemma digit_at_app_r a b i :
  0 ≤ i → digit_at (a ++ b) (Z.of_nat (String.length a) + i) = digit_at b i.
Proof.
  intros Hi. unfold digit_at. rewrite Z2Nat.inj_add, Nat2Z.id, get_app_r by lia.
  rewrite !bool_decide_eq_true_2 by lia. done.
Qed.

Lemma digit_at_no_digits a i :
  all_chars (λ c, negb (is_digit c)) a = true → digit_at a i = false.
Proof.
  intros Ha. unfold digit_at. destruct (String.get _ a) as [c|] eqn:Hc; [|done].
  apply (all_chars_get _ _ _ _ Ha), negb_true_iff in Hc. rewrite Hc. apply andb_false_r.
Qed.

(** Stripping a body framed by non-digit characters returns the body. *)
Lemma strip_polygon_str_frame pre body post :
  all_chars (λ c, negb (is_digit c)) pre = true →
  all_chars (λ c, negb (is_digit c)) post = true →
  digit_at body 0 = true →
  digit_at body (Z.of_nat (String.length body) - 1) = true →
  strip_polygon_str (pre ++ body ++ post) = body.
Proof.
  intros Hpre Hpost Hfirst Hlast.
  assert (Hlb : (1 ≤ String.length body)%nat).
  { destruct body; [done | simpl; lia]. }
  set (lp := Z.of_nat (String.length pre)). set (lb := Z.of_nat (String.length body)).
  set (s := pre ++ body ++ post).
  assert (Hlen : Z.of_nat (String.length s) = lp + lb + Z.of_nat (String.length post)).
  { unfold s. rewrite !str_length_app. lia. }
  assert (Hds : ∀ i, 0 ≤ i → digit_at s (lp + i) = digit_at (body ++ post) i)
    by (intros; by apply digit_at_app_r).
  unfold strip_polygon_str. rewrite (strip_loop_spec s lp lb); try lia.
  - rewrite !bool_decide_eq_true_2 by lia. simpl. unfold py_slice.
    replace (Z.to_nat lp) with (String.length pre) by lia.
    replace (Z.to_nat (lp + lb - 1 + 1 - lp)) with (String.length body) by lia.
    unfold s. rewrite substring_app_l. apply substring_0_app.
  - intros i Hi. unfold s. rewrite digit_at_app_l by lia. by apply digit_at_no_digits.
  - intros i Hi. replace i with (lp + (lb + (i - lp - lb))) by lia. rewrite Hds by lia.
    rewrite digit_at_app_r by lia. by apply digit_at_no_digits.
  - replace lp with (lp + 0) at 1 by lia. rewrite Hds by lia.
    rewrite digit_at_app_l by lia. done.
  - replace (lp + lb - 1) with (lp + (lb - 1)) by lia. rewrite Hds by lia.
    rewrite digit_at_app_l by lia. done.
Qed.

(** ** Strings without digits *)

Lemma substring_length_le n m s : (String.length (String.substring n m s) ≤ m)%nat.
Proof.
  revert n m. induction s as [|c s IH]; intros [|n] [|m]; simpl; try lia; try apply IH.
  specialize (IH 0%nat m). lia.
Qed.

(** Without digits both indices move at every iteration, so the loop
    keeps [start + end] and stops with [start] at [end] or just past it. *)
Lemma strip_loop_lockstep fuel s st en :
  (∀ i, digit_at s i = false) → 0 ≤ st → st ≤ en + 1 →
  let '(st', en') := strip_loop fuel s st en in
  st' + en' = st + en ∧ 0 ≤ st' ∧ st' ≤ en' + 1.
Proof.
  intros Hd. revert st en. induction fuel as [|fuel IH]; intros st en H0 H1; simpl; [lia|].
  destruct (strip_guard s st en) eqn:Hg; [|lia].
  apply strip_guard_true in Hg as (? & ? & ? & _). rewrite !Hd.
  specialize (IH (st + 1) (en - 1) ltac:(lia) ltac:(lia)).
  destruct (strip_loop fuel s (st + 1) (en - 1)). lia.
Qed.

Lemma strip_polygon_str_no_digits s :
  all_chars (λ c, negb (is_digit c)) s = true →
  (String.length (strip_polygon_str s) ≤ 1)%nat.
Proof.
  intros Hs. pose proof (digit_at_no_digits s) as Hd.
  pose proof (strip_loop_exits s) as Hx. pose proof (strip_loop_lockstep (String.length s) s 0
    (Z.of_nat (String.length s) - 1) (λ i, Hd i Hs)) as Hl.
  unfold strip_polygon_str. cbv zeta in *.
  destruct (strip_loop _ s 0 _) as [st en]. specialize (Hl ltac:(lia) ltac:(lia)).
  unfold strip_guard in Hx. rewrite !(Hd _ Hs) in Hx.
  destruct (decide (st < en)).
  { rewrite !bool_decide_eq_true_2 in Hx by lia. done. }
  destruct (bool_decide (st < _) && bool_decide (0 ≤ en)) eqn:Hb.
  - unfold py_slice. etransitivity; [apply substring_length_le | lia].
  - apply andb_false_iff in Hb as [Hb|Hb]; apply bool_decide_eq_false_1 in Hb; lia.
Qed.

Lemma parse_point_short u : (String.length u ≤ 1)%nat → parse_point u = Err ValueError.
Proof.
  intros Hu. unfold parse_point, clean_point.
  destruct u as [|c [|d u]]; simpl in Hu; [done| |lia].
  cbn [remove_pair remove_char].
  destruct (bool_decide (c = "("%char)); cbn [remove_char];
    [|destruct (bool_decide (c = ")"%char)); cbn [remove_char]]; cbn [split_ws]; try done;
    destruct (is_space c); done.
Qed.

(** C21: on a string without digits the strip loop of lines 241-250 moves
    both indices at every iteration until they cross, so the slice of line
    253 has at most one character; that cannot split into two fields, and
    [parse_polygon_str] raises [ValueError] (spec 4.1's ParseError). *)
Theorem parse_polygon_str_no_digits s :
  all_chars (λ c, negb (is_digit c)) s = true →
  (String.length (strip_polygon_str s) ≤ 1)%nat ∧ parse_polygon_str s = Err ValueError.
Proof.
  intros Hs%strip_polygon_str_no_digits. split; [done|]. unfold parse_polygon_str.
  assert (Hsplit : split_on2 "," " " (strip_polygon_str s) = [strip_polygon_str s])
    by (destruct (strip_polygon_str s) as [|c [|d t]]; simpl in *; [done | done | lia]).
  rewrite Hsplit, mapM_res_cons, parse_point_short by done. done.
Qed.

Lemma parse_polygon_str_no_digits_witness :
  (String.length (strip_polygon_str "POLYGON EMPTY") ≤ 1)%nat ∧
  parse_polygon_str "POLYGON EMPTY" = Err ValueError.
Proof. apply parse_polygon_str_no_digits. reflexivity. Defined.
