(* ===== verification/Normalize.v ===== *)
(** * The geometry normalizer: [normalize_polygon]

    [src/ftcnn/geometry/polygons.py], lines 264-303.  The argument is any
    Python value: a shapely geometry, a WKT-like string, a list of
    coordinate tuples or a flat list of numbers.  Non-polygons are first
    converted (a flat list is windowed into pairs, a string is parsed by
    [parse_polygon_str]) and then passed to [shapely.normalize]; the result
    receives the method call [.simplify(0.002, preserve_topology=True)].

    [shapely.normalize] is a numpy ufunc: on a Python list or tuple it
    builds an array, raising [TypeError] when an element is a number or a
    string and returning an array otherwise.  An array (like [None]) has
    no [.simplify] method, hence [AttributeError].  [py_normalize] models
    this.  The theorems show that only geometry inputs return: the list and
    string branches of lines 294-300 always raise. *)

From S2P Require Import Prelude Geometry PyStr PolyParse.

Local Open Scope nat_scope.

(** ** Python values *)

Inductive pyval : Type :=
| PNone
| PNum (q : Qc)
| PStr (s : string)
| PTuple (vs : list pyval)
| PList (vs : list pyval)
| PGeom (g : geometry).

(** [(x, y)] built by [parse_polygon_str] (line 259). *)
Definition coord_tuple (xy : Qc * Qc) : pyval := PTuple [PNum xy.1; PNum xy.2].

(** [[(polygon[i], polygon[i + 1]) for i in range(len(polygon) - 1)]]
    (lines 296-298): element [i] of the result pairs elements [i] and
    [i + 1] of the input ([window_pairs_lookup]). *)
Definition window_pairs (xs : list pyval) : list pyval :=
  zip_with (λ a b, PTuple [a; b]) xs (tail xs).

Section Normalize.
Context `{GB : GeomBackend}.

(** [shapely.normalize(v)] on an arbitrary Python value. *)
Fixpoint py_normalize (v : pyval) : res pyval :=
  match v with
  | PNone => Ok PNone
  | PGeom g => Ok (PGeom (normalize_geom g))
  | PNum _ | PStr _ => raise TypeError
  | PTuple vs => vs' ← mapM py_normalize vs; Ok (PTuple vs')
  | PList vs => vs' ← mapM py_normalize vs; Ok (PList vs')
  end.

(** The tolerance of line 303. *)
Definition simplify_tolerance : Qc := Q2Qc (2 # 1000)%Q.

(** Lines 294-300: the conversion of a list or a string. *)
Definition convert_input (polygon : pyval) : res pyval :=
  match polygon with
  | PList xs =>
      match xs with
      | [] => raise IndexError
      | PTuple _ :: _ => Ok polygon
      | _ :: _ => Ok (PList (window_pairs xs))
      end
  | PStr s => pts ← parse_polygon_str s; Ok (PList (map coord_tuple pts))
  | _ => Ok polygon
  end.

Definition normalize_polygon (polygon : pyval) : res geometry :=
  polygon ← match polygon with
            | PGeom (GPolygon _) => Ok polygon
            | _ => polygon ← convert_input polygon; py_normalize polygon
            end;
  match polygon with
  | PGeom g => Ok (normalize_geom (simplify simplify_tolerance g))
  | _ => raise AttributeError
  end.
End Normalize.

(** ** Lemmas *)

Definition is_geom (v : pyval) : bool :=
  match v with PGeom _ => true | _ => false end.

Lemma split_on2_nonempty a b s : split_on2 a b s ≠ [].
Proof.
  induction s as [|c [|d w] IH]; simpl; try done.
  case_match; [done|]. unfold cons_head. by case_match.
Qed.

Lemma window_pairs_length xs : length (window_pairs xs) = length xs - 1.
Proof.
  unfold window_pairs. rewrite length_zip_with.
  destruct xs; cbn [length tail]; lia.
Qed.

Section NormalizeProofs.
Context `{GB : GeomBackend}.

(** [shapely.normalize] returns a geometry only when given one. *)
Lemma py_normalize_kind v w : py_normalize v = Ok w → is_geom w = is_geom v.
Proof.
  destruct v as [| | |vs|vs|g]; simpl; intros H; simplify_eq; try done;
    destruct (mapM py_normalize vs); simpl in H; by simplify_eq.
Qed.

(** The conversion of lines 294-300 never produces a geometry. *)
Lemma convert_input_kind v w : convert_input v = Ok w → is_geom w = is_geom v.
Proof.
  destruct v as [| | | |xs|]; simpl; try (intros; by simplify_eq).
  - destruct (parse_polygon_str s); simpl; intros; by simplify_eq.
  - destruct xs as [|[]]; intros; by simplify_eq.
Qed.

(** A sequence whose first element is a pair holding a number is refused
    with [TypeError], whatever follows. *)
Lemma mapM_py_normalize_num_pair q v vs :
  mapM py_normalize (PTuple [PNum q; v] :: vs) = Err TypeError.
Proof. done. Qed.

Lemma parse_polygon_str_nonempty s pts : parse_polygon_str s = Ok pts → pts ≠ [].
Proof.
  unfold parse_polygon_str. intros H%mapM_res_length ->.
  apply (split_on2_nonempty "," " " (strip_polygon_str s)). by apply length_zero_iff_nil.
Qed.
(** C9: only a geometry comes back.  The conversion of lines 294-300 and
    [shapely.normalize] never turn a list or a string into a geometry, so
    [normalize_polygon] raises on every input that is not already a
    shapely geometry, although its docstring and spec 4.1 accept
    coordinate lists and WKT-like strings. *)
Theorem normalize_polygon_only_geometries v g :
  normalize_polygon v = Ok g → ∃ g0, v = PGeom g0.
Proof.
  unfold normalize_polygon. intros H.
  destruct v as [| | | | |g0]; [| | | | | by eauto].
  all: cbn -[convert_input py_normalize] in H.
  all: destruct (convert_input _) as [w|e] eqn:Hc; simpl in H; [|done].
  all: destruct (py_normalize w) as [w'|e] eqn:Hn; simpl in H; [|done].
  all: apply convert_input_kind in Hc; apply py_normalize_kind in Hn.
  all: destruct w'; simpl in *; congruence.
Qed.

(** C22: a string raises the parser's exception when [parse_polygon_str]
    fails, and [TypeError] when it succeeds ([shapely.normalize] is given
    the parsed list of float pairs). *)
Theorem normalize_polygon_str s :
  normalize_polygon (PStr s) =
  match parse_polygon_str s with Ok _ => raise TypeError | Err e => Err e end.
Proof.
  unfold normalize_polygon. cbn -[parse_polygon_str py_normalize].
  destruct (parse_polygon_str s) as [pts|e] eqn:Hp; [|done].
  destruct pts as [|[x y] pts]; [by apply parse_polygon_str_nonempty in Hp|].
  done.
Qed.

(** A list of coordinate pairs raises: [IndexError] when it is empty
    ([polygon[0]]), [TypeError] otherwise. *)
Theorem normalize_polygon_coord_list pts :
  normalize_polygon (PList (map coord_tuple pts)) =
  raise (if bool_decide (pts = []) then IndexError else TypeError).
Proof. by destruct pts as [|[x y] pts]. Qed.

(** C23: a flat list of numbers raises: [IndexError] when it is empty,
    [AttributeError] for a single number (the windowed list is empty and
    [normalize([])] returns an array, which has no [.simplify]), and
    [TypeError] otherwise. *)
Theorem normalize_polygon_flat_list xs :
  Forall (λ v, ∃ q, v = PNum q) xs →
  normalize_polygon (PList xs) =
  raise (match xs with [] => IndexError | [_] => AttributeError | _ => TypeError end).
Proof.
  intros Hxs. destruct xs as [|x [|y xs]]; [done| |];
    inversion Hxs as [|? ? [q ->] _]; done.
Qed.
End NormalizeProofs.

(** C24: the windowing of lines 296-298 overlaps: element [i] of the result
    pairs elements [i] and [i + 1] of the input, so [x0, y0, x1, y1]
    gives the three pairs (x0, y0), (y0, x1), (x1, y1) instead of the two
    points spec 4.1 describes. *)
Theorem window_pairs_lookup xs i a b :
  xs !! i = Some a → xs !! S i = Some b → window_pairs xs !! i = Some (PTuple [a; b]).
Proof.
  intros Ha Hb. unfold window_pairs. rewrite lookup_zip_with, Ha. simpl.
  by rewrite lookup_tail, Hb.
Qed.

(** ** Concrete inputs *)

Definition num (z : Z) : pyval := PNum (Q2Qc (inject_Z z)).

Lemma window_pairs_lookup_witness :
  window_pairs [num 1; num 2; num 3; num 4] !! 1 = Some (PTuple [num 2; num 3]) ∧
  length (window_pairs [num 1; num 2; num 3; num 4]) = 3.
Proof. split; [apply window_pairs_lookup; reflexivity | reflexivity]. Defined.

Lemma normalize_polygon_flat_list_witness :
  @normalize_polygon ref_backend (PList [num 1; num 2; num 3; num 4]) = raise TypeError.
Proof. apply normalize_polygon_flat_list. repeat constructor; eexists; reflexivity. Defined.

Lemma normalize_polygon_only_geometries_witness :
  @normalize_polygon ref_backend (PGeom (GPolygon (rect 0 0 1 1))) = Ok (GPolygon (rect 0 0 1 1)) ∧
  ∃ g0, PGeom (GPolygon (rect 0 0 1 1)) = PGeom g0.
Proof.
  split; [reflexivity|].
  apply (@normalize_polygon_only_geometries ref_backend _ (GPolygon (rect 0 0 1 1))).
  reflexivity.
Defined.
