(* ===== verification/ParseRoundtrip.v ===== *)
(** * Round trip of [parse_polygon_str] on printed coordinates

    A printer for integer coordinates in the textual form the parser's
    docstring shows, [(x1 y1, x2 y2, ..., xn yn)], inside any frame without
    digits (such as [POLYGON ((...))]), and the exact behaviour of
    [parse_polygon_str] on its output: the coordinates come back, except that
    the sign of the first x is dropped, and any y equal to 0 makes the parse
    raise [ValueError]. *)

From S2P Require Import Prelude PyStr PolyParse.
From Stdlib Require Import DecimalString DecimalN DecimalPos.

Local Open Scope string_scope.
Local Open Scope Z_scope.

(** ** The printer *)

(** [str(n)] for a natural number: its decimal digits. *)
Definition show_N (n : N) : string := NilEmpty.string_of_uint (N.to_uint n).

(** [str(z)] for an integer. *)
Definition fmt_coord (z : Z) : string :=
  if decide (z < 0) then "-" ++ show_N (Z.to_N (- z)) else show_N (Z.to_N z).

Definition fmt_point (p : Z * Z) : string := fmt_coord p.1 ++ " " ++ fmt_coord p.2.

Definition fmt_points (pts : list (Z * Z)) : string := String.concat ", " (map fmt_point pts).

Definition qc_of_Z (z : Z) : Qc := Q2Qc (inject_Z z).

Definition qc_point (p : Z * Z) : Qc * Qc := (qc_of_Z p.1, qc_of_Z p.2).

(** The points with the first x replaced by its absolute value. *)
Definition abs_first (pts : list (Z * Z)) : list (Z * Z) :=
  match pts with
  | [] => []
  | (x, y) :: rest => (Z.abs x, y) :: rest
  end.

(** ** Decimal digits *)

Lemma nzhead_not_D0 d d' : Decimal.nzhead d ≠ Decimal.D0 d'.
Proof. induction d; simpl; congruence. Qed.

Lemma show_N_digits n : all_chars is_ascii_digit (show_N n) = true.
Proof. unfold show_N. generalize (N.to_uint n). induction u; simpl; auto. Qed.

Lemma show_N_nonempty n : show_N n ≠ "".
Proof.
  unfold show_N. destruct n as [|p]; [done|]. simpl.
  pose proof (DecimalPos.Unsigned.to_uint_nonnil p). by destruct (Pos.to_uint p).
Qed.

(** The decimal form of a positive number does not start with 0. *)
Lemma show_N_head n rest : show_N n = String "0" rest → n = 0%N.
Proof.
  unfold show_N. destruct n as [|p]; [done|]. simpl. intros Hs.
  assert (Hn : N.to_uint (Npos p) = Decimal.unorm (Pos.to_uint p)).
  { rewrite <-DecimalPos.Unsigned.to_of, DecimalPos.Unsigned.of_to. done. }
  simpl in Hn. destruct (Pos.to_uint p) as [| d | | | | | | | | |] eqn:Hp; try discriminate Hs.
  unfold Decimal.unorm in Hn. simpl in Hn.
  destruct (Decimal.nzhead d) eqn:Hz.
  - exfalso. apply (DecimalPos.Unsigned.to_uint_nonzero p). rewrite Hp. by injection Hn as ->.
  - exfalso. by apply (nzhead_not_D0 d u).
  - discriminate Hn. - discriminate Hn. - discriminate Hn. - discriminate Hn.
  - discriminate Hn. - discriminate Hn. - discriminate Hn. - discriminate Hn.
  - discriminate Hn.
Qed.

Lemma digits_value_show_N n : digits_value (show_N n) = Z.of_N n.
Proof. unfold digits_value, show_N. by rewrite NilEmpty.usu, DecimalN.Unsigned.of_to. Qed.

(** ** [float] on printed coordinates *)

Lemma strip_sign_digit c s : is_ascii_digit c = true → strip_sign (String c s) = (false, String c s).
Proof. by destruct c as [[] [] [] [] [] [] [] []]. Qed.

Lemma span_digits_all s : all_chars is_ascii_digit s = true → span_digits s = (s, "").
Proof.
  induction s as [|c s IH]; simpl; [done|]. intros [-> Hs]%andb_true_iff.
  by rewrite IH.
Qed.

Lemma parse_float_unsigned s :
  s ≠ "" → all_chars is_ascii_digit s = true →
  parse_float s = Ok (qc_of_Z (digits_value s)).
Proof.
  destruct s as [|c s']; [done|]. intros _ Hd. unfold parse_float.
  assert (Hc : is_ascii_digit c = true) by (simpl in Hd; apply andb_true_iff in Hd; tauto).
  rewrite strip_sign_digit, span_digits_all by done. simpl.
  rewrite str_app_nil_r. unfold scale10, qc_of_Z. simpl. by rewrite Z.mul_1_r.
Qed.

Lemma parse_float_fmt_coord z : parse_float (fmt_coord z) = Ok (qc_of_Z z).
Proof.
  unfold fmt_coord. destruct (decide (z < 0)).
  - unfold parse_float. simpl.
    rewrite span_digits_all by apply show_N_digits.
    destruct (show_N (Z.to_N (- z))) as [|c s] eqn:Hs; [by apply show_N_nonempty in Hs|].
    simpl. rewrite str_app_nil_l, str_app_nil_r, <-Hs, digits_value_show_N.
    unfold scale10, qc_of_Z. simpl. f_equal. f_equal. f_equal. lia.
  - rewrite parse_float_unsigned by (apply show_N_nonempty || apply show_N_digits).
    rewrite digits_value_show_N. f_equal. unfold qc_of_Z. f_equal. f_equal. lia.
Qed.

(** ** Printed points *)

(** The characters of a printed integer. *)
Definition num_char (c : ascii) : bool := is_ascii_digit c || bool_decide (c = "-"%char).

Lemma num_char_classes c :
  num_char c = true →
  not_char " " c = true ∧ not_char "," c = true ∧ not_char "(" c = true ∧
  not_char ")" c = true ∧ negb (is_space c) = true.
Proof. destruct c as [[] [] [] [] [] [] [] []]; intros H; try discriminate H; done. Qed.

Lemma fmt_coord_chars z : all_chars num_char (fmt_coord z) = true.
Proof.
  unfold fmt_coord. destruct (decide (z < 0)).
  - rewrite str_app_cons, str_app_nil_l. simpl.
    apply (all_chars_impl is_ascii_digit); [|apply show_N_digits].
    intros c Hc. unfold num_char. by rewrite Hc.
  - apply (all_chars_impl is_ascii_digit); [|apply show_N_digits].
    intros c Hc. unfold num_char. by rewrite Hc.
Qed.

(** A printed integer avoids a character class [g] that digits and [-]
    avoid. *)
Lemma fmt_coord_avoids (g : ascii → bool) z :
  (∀ c, num_char c = true → g c = true) → all_chars g (fmt_coord z) = true.
Proof. intros Hg. eapply all_chars_impl; [exact Hg | apply fmt_coord_chars]. Qed.

Lemma fmt_coord_nonempty z : fmt_coord z ≠ "".
Proof. unfold fmt_coord. destruct (decide (z < 0)); [done | apply show_N_nonempty]. Qed.

Lemma fmt_coord_head z rest : fmt_coord z = String "0" rest → z = 0.
Proof.
  unfold fmt_coord. destruct (decide (z < 0)); [done|].
  intros Hs%show_N_head. lia.
Qed.

Lemma fmt_point_eq p : fmt_point p = (fmt_coord p.1 ++ String " " (fmt_coord p.2))%string.
Proof. unfold fmt_point. by rewrite str_app_cons, str_app_nil_l. Qed.

Ltac num_class :=
  let c := fresh "c" in let H := fresh "H" in
  intros c H; apply num_char_classes in H; destruct H as (? & ? & ? & ? & ?); assumption.

Lemma fmt_point_avoids (g : ascii → bool) p :
  (∀ c, num_char c = true → g c = true) → g " "%char = true → all_chars g (fmt_point p) = true.
Proof.
  intros Hg Hs. rewrite fmt_point_eq, all_chars_app. simpl.
  rewrite !fmt_coord_avoids, Hs by done. done.
Qed.

Lemma clean_fmt_point p : p.2 ≠ 0 → clean_point (fmt_point p) = fmt_point p.
Proof.
  intros Hy. unfold clean_point. rewrite fmt_point_eq.
  rewrite remove_pair_app by (apply fmt_coord_avoids; num_class).
  destruct (fmt_coord p.2) as [|d w] eqn:Hd; [by apply fmt_coord_nonempty in Hd|].
  rewrite remove_pair_keep.
  2:{ intros ->. by apply Hy, (fmt_coord_head _ w). }
  rewrite <-Hd, remove_pair_free by (apply fmt_coord_avoids; num_class).
  rewrite <-fmt_point_eq.
  rewrite (remove_char_free "(") by (apply fmt_point_avoids; [num_class | done]).
  by rewrite (remove_char_free ")") by (apply fmt_point_avoids; [num_class | done]).
Qed.

Lemma split_ws_fmt_point p : split_ws (fmt_point p) = [fmt_coord p.1; fmt_coord p.2].
Proof.
  rewrite fmt_point_eq.
  assert (Hs : ∀ z, all_chars (λ c, negb (is_space c)) (fmt_coord z) = true)
    by (intros z; apply fmt_coord_avoids; num_class).
  destruct (split_ws_word (fmt_coord p.1) (fmt_coord p.2)) as [-> _];
    [apply fmt_coord_nonempty | apply Hs |].
  destruct (split_ws_word (fmt_coord p.2) "") as [_ ->]; [apply fmt_coord_nonempty | apply Hs | done].
Qed.

Lemma parse_point_fmt p : p.2 ≠ 0 → parse_point (fmt_point p) = Ok (qc_point p).
Proof.
  intros Hy. unfold parse_point. rewrite clean_fmt_point, split_ws_fmt_point by done.
  by rewrite !parse_float_fmt_coord.
Qed.

(** With [y = 0] the token is ["x 0"]; [replace(" 0", "")] leaves ["x"],
    which does not unpack into two fields. *)
Lemma parse_point_fmt_zero x : parse_point (fmt_point (x, 0)) = Err ValueError.
Proof.
  unfold parse_point, clean_point. rewrite fmt_point_eq.
  rewrite remove_pair_app by (apply fmt_coord_avoids; num_class).
  simpl fmt_coord. replace (show_N (Z.to_N 0)) with "0" by reflexivity.
  simpl remove_pair. rewrite str_app_nil_r.
  rewrite (remove_char_free "(") by (apply fmt_coord_avoids; num_class).
  rewrite (remove_char_free ")") by (apply fmt_coord_avoids; num_class).
  destruct (split_ws_word (fmt_coord x) "") as [_ ->]; [apply fmt_coord_nonempty | |done].
  apply fmt_coord_avoids; num_class.
Qed.

Lemma parse_float_error s e : parse_float s = Err e → e = ValueError.
Proof.
  unfold parse_float, parse_exponent. repeat case_match; simpl; intros; simplify_eq; done.
Qed.

Lemma parse_point_error s e : parse_point s = Err e → e = ValueError.
Proof.
  unfold parse_point. repeat case_match; simpl; intros; simplify_eq; try done.
  - match goal with H : _ = Err e |- _ => revert H end.
    destruct (parse_float s0) eqn:Hx; simpl; [|intros [= <-]; by eapply parse_float_error].
    destruct (parse_float s1) eqn:Hy; simpl; [done|intros [= <-]; by eapply parse_float_error].
Qed.

(** ** The joined body *)

Lemma fmt_points_cons2 p q rest :
  fmt_points (p :: q :: rest) = (fmt_point p ++ String "," (String " " (fmt_points (q :: rest))))%string.
Proof. reflexivity. Qed.

Lemma split_fmt_points pts : pts ≠ [] → split_on2 "," " " (fmt_points pts) = map fmt_point pts.
Proof.
  induction pts as [|p [|q rest] IH]; intros Hne; [done| |].
  - unfold fmt_points; simpl. apply split_on2_free, fmt_point_avoids; [num_class | done].
  - rewrite fmt_points_cons2, split_on2_sep by (apply fmt_point_avoids; [num_class | done]).
    by rewrite IH.
Qed.

Lemma mapM_parse_points pts :
  Forall (λ p, p.2 ≠ 0) pts → mapM parse_point (map fmt_point pts) = Ok (map qc_point pts).
Proof.
  induction 1 as [|p pts Hp _ IH]; [done|]. cbn [map]. rewrite mapM_res_cons.
  by rewrite parse_point_fmt, IH by done.
Qed.

Lemma mapM_parse_points_zero pts i x :
  pts !! i = Some (x, 0) → mapM parse_point (map fmt_point pts) = Err ValueError.
Proof.
  revert i. induction pts as [|p pts IH]; intros [|i] Hi; simpl in Hi; simplify_eq;
    cbn [map]; rewrite mapM_res_cons.
  - by rewrite parse_point_fmt_zero.
  - destruct (parse_point (fmt_point p)) eqn:Hp; simpl.
    + by rewrite (IH i Hi).
    + f_equal. by eapply parse_point_error.
Qed.

(** The printed points are the sign of the first x followed by the points
    with that sign dropped. *)
Lemma fmt_points_abs_first pts :
  fmt_points pts =
  ((match pts with (x, _) :: _ => if decide (x < 0) then "-" else "" | [] => "" end)
   ++ fmt_points (abs_first pts))%string.
Proof.
  destruct pts as [|[x y] rest]; [done|]. simpl.
  assert (Hx : fmt_coord x = ((if decide (x < 0) then "-" else "") ++ fmt_coord (Z.abs x))%string).
  { unfold fmt_coord. destruct (decide (x < 0)); destruct (decide (Z.abs x < 0)); try lia.
    - by rewrite Z.abs_neq by lia.
    - by rewrite Z.abs_eq by lia. }
  destruct rest as [|q rest].
  - unfold fmt_points; simpl. rewrite !fmt_point_eq; simpl. by rewrite Hx, <-str_app_assoc.
  - rewrite !fmt_points_cons2, !fmt_point_eq; simpl. rewrite Hx.
    by rewrite <-!str_app_assoc.
Qed.

(** ** The frame conditions on the printed body *)

Lemma str_get_lt s i : (i < String.length s)%nat → ∃ c, String.get i s = Some c.
Proof.
  revert i. induction s as [|c s IH]; intros [|i] Hi; simpl in *; try lia; eauto.
  apply IH. lia.
Qed.

Lemma digit_at_digits v i :
  all_chars is_ascii_digit v = true → 0 ≤ i < Z.of_nat (String.length v) → digit_at v i = true.
Proof.
  intros Hv Hi. unfold digit_at. destruct (str_get_lt v (Z.to_nat i)) as [c Hc]; [lia|].
  rewrite Hc, bool_decide_eq_true_2 by lia. simpl.
  apply (all_chars_get _ _ _ _ Hv) in Hc. unfold is_digit. unfold is_ascii_digit in Hc.
  by rewrite Hc.
Qed.

Lemma show_N_length n : (1 ≤ String.length (show_N n))%nat.
Proof. pose proof (show_N_nonempty n). destruct (show_N n); [done | simpl; lia]. Qed.

Lemma fmt_points_head p rest : ∃ t, fmt_points (p :: rest) = (fmt_point p ++ t)%string.
Proof.
  destruct rest as [|q rest].
  - exists "". by rewrite str_app_nil_r.
  - rewrite fmt_points_cons2. eauto.
Qed.

Lemma fmt_points_last pts : pts ≠ [] → ∃ u n, fmt_points pts = (u ++ show_N n)%string.
Proof.
  induction pts as [|p [|q rest] IH]; intros Hne; [done| |].
  - unfold fmt_points; simpl. rewrite fmt_point_eq. unfold fmt_coord at 2.
    destruct (decide (p.2 < 0)).
    + exists (fmt_coord p.1 ++ String " " "-")%string, (Z.to_N (- p.2)).
      rewrite <-str_app_assoc. by rewrite str_app_cons.
    + exists (fmt_coord p.1 ++ String " " "")%string, (Z.to_N p.2).
      rewrite <-str_app_assoc. by rewrite str_app_cons.
  - destruct IH as (u & n & Hu); [done|]. rewrite fmt_points_cons2, Hu.
    exists (fmt_point p ++ String "," (String " " u))%string, n.
    by rewrite <-str_app_assoc, !str_app_cons.
Qed.

Lemma fmt_points_abs_first_first pts : pts ≠ [] → digit_at (fmt_points (abs_first pts)) 0 = true.
Proof.
  destruct pts as [|[x y] rest]; [done|]. intros _. simpl.
  destruct (fmt_points_head (Z.abs x, y) rest) as [t ->]. rewrite fmt_point_eq. simpl.
  unfold fmt_coord at 1. rewrite decide_False by lia.
  rewrite <-str_app_assoc, digit_at_app_l by (pose proof (show_N_length (Z.to_N (Z.abs x))); lia).
  apply digit_at_digits; [apply show_N_digits | pose proof (show_N_length (Z.to_N (Z.abs x))); lia].
Qed.

Lemma fmt_points_last_digit pts :
  pts ≠ [] → digit_at (fmt_points pts) (Z.of_nat (String.length (fmt_points pts)) - 1) = true.
Proof.
  intros Hne. destruct (fmt_points_last pts Hne) as (u & n & ->).
  pose proof (show_N_length n).
  rewrite str_length_app.
  replace (Z.of_nat (String.length u + String.length (show_N n)) - 1)
    with (Z.of_nat (String.length u) + (Z.of_nat (String.length (show_N n)) - 1)) by lia.
  rewrite digit_at_app_r by lia. apply digit_at_digits; [apply show_N_digits | lia].
Qed.

Lemma abs_first_nonempty pts : pts ≠ [] → abs_first pts ≠ [].
Proof. by destruct pts as [|[? ?] ?]. Qed.

Lemma abs_first_lookup pts i x y :
  pts !! i = Some (x, y) → ∃ x', abs_first pts !! i = Some (x', y).
Proof. destruct pts as [|[x0 y0] rest], i; simpl; intros; simplify_eq; eauto. Qed.

Lemma abs_first_ys pts : Forall (λ p : Z * Z, p.2 ≠ 0) pts → Forall (λ p : Z * Z, p.2 ≠ 0) (abs_first pts).
Proof. destruct pts as [|[x y] rest]; [done|]. by inversion 1; constructor. Qed.

(** The parser on a framed printed body: the body is stripped from the
    frame together with the sign of the first x. *)
Lemma parse_polygon_str_framed pre post pts :
  all_chars (λ c, negb (is_digit c)) pre = true →
  all_chars (λ c, negb (is_digit c)) post = true →
  pts ≠ [] →
  parse_polygon_str (pre ++ fmt_points pts ++ post) =
  mapM parse_point (map fmt_point (abs_first pts)).
Proof.
  intros Hpre Hpost Hne. unfold parse_polygon_str.
  rewrite fmt_points_abs_first, <-str_app_assoc, str_app_assoc.
  rewrite strip_polygon_str_frame.
  - by rewrite split_fmt_points by (by apply abs_first_nonempty).
  - rewrite all_chars_app, Hpre. destruct pts as [|[x y] ?]; [done|].
    by destruct (decide (x < 0)).
  - done.
  - by apply fmt_points_abs_first_first.
  - by apply fmt_points_last_digit, abs_first_nonempty.
Qed.

(** ** The parser's behaviour on printed coordinates *)

(** C18: round trip.  Inside any frame without digits (such as
    [POLYGON ((...))] or the docstring's [(...)]), integer coordinates
    printed as [x1 y1, x2 y2, ...] with a non-negative first x and no y
    equal to 0 parse back to exactly the printed points. *)
Theorem parse_polygon_str_roundtrip pre post x y rest :
  all_chars (λ c, negb (is_digit c)) pre = true →
  all_chars (λ c, negb (is_digit c)) post = true →
  0 ≤ x → Forall (λ p : Z * Z, p.2 ≠ 0) ((x, y) :: rest) →
  parse_polygon_str (pre ++ fmt_points ((x, y) :: rest) ++ post) =
  Ok (map qc_point ((x, y) :: rest)).
Proof.
  intros Hpre Hpost Hx Hys. rewrite parse_polygon_str_framed by done.
  simpl abs_first. rewrite Z.abs_eq by done. by apply mapM_parse_points.
Qed.

(** C20: the leading-character strip of lines 241-251 skips every
    non-digit at the start of the string, including the minus sign of the
    first x: a negative first x comes back as its absolute value. *)
Theorem parse_polygon_str_drops_first_sign pre post x y rest :
  all_chars (λ c, negb (is_digit c)) pre = true →
  all_chars (λ c, negb (is_digit c)) post = true →
  x < 0 → Forall (λ p : Z * Z, p.2 ≠ 0) ((x, y) :: rest) →
  parse_polygon_str (pre ++ fmt_points ((x, y) :: rest) ++ post) =
  Ok ((qc_of_Z (- x), qc_of_Z y) :: map qc_point rest).
Proof.
  intros Hpre Hpost Hx Hys. rewrite parse_polygon_str_framed by done.
  simpl abs_first. rewrite Z.abs_neq by lia.
  by rewrite mapM_parse_points by (inversion Hys; by constructor).
Qed.

(** C19: [point.replace(" 0", "")] (line 257) is meant to drop a zero z
    ordinate but removes every space followed by 0: a point whose y is 0
    loses its y field, and the parse raises [ValueError]. *)
Theorem parse_polygon_str_zero_y pre post pts i x :
  all_chars (λ c, negb (is_digit c)) pre = true →
  all_chars (λ c, negb (is_digit c)) post = true →
  pts !! i = Some (x, 0) →
  parse_polygon_str (pre ++ fmt_points pts ++ post) = Err ValueError.
Proof.
  intros Hpre Hpost Hi.
  rewrite parse_polygon_str_framed; [| done | done | intros ->; by rewrite lookup_nil in Hi].
  destruct (abs_first_lookup pts i x 0 Hi) as [x' Hx'].
  by eapply mapM_parse_points_zero.
Qed.

Lemma parse_polygon_str_roundtrip_witness :
  parse_polygon_str ("POLYGON ((" ++ fmt_points [(1, 2); (3, -4); (5, 6)] ++ "))")
  = Ok (map qc_point [(1, 2); (3, -4); (5, 6)]).
Proof.
  apply parse_polygon_str_roundtrip; try reflexivity; try lia; repeat constructor; simpl; lia.
Defined.

Lemma parse_polygon_str_drops_first_sign_witness :
  parse_polygon_str ("POLYGON ((" ++ fmt_points [(-1, 2); (3, 4)] ++ "))")
  = Ok ((qc_of_Z 1, qc_of_Z 2) :: map qc_point [(3, 4)]).
Proof.
  apply (parse_polygon_str_drops_first_sign "POLYGON ((" "))" (-1) 2 [(3, 4)]);
    try reflexivity; try lia; repeat constructor; simpl; lia.
Defined.

Lemma parse_polygon_str_zero_y_witness :
  parse_polygon_str ("(" ++ fmt_points [(1, 0); (3, 4)] ++ ")") = Err ValueError.
Proof. apply (parse_polygon_str_zero_y "(" ")" _ 0 1); reflexivity. Defined.
