(* ===== verification/Frames.v ===== *)
(** * GeoDataFrames, rows and [groupby]

    The pandas/geopandas values the sources manipulate: a row is a dict
    (a [pandas.Series] turned into a dict with [to_dict()]) from column
    names to values, modelled as [gmap string value]; a GeoDataFrame is its
    list of rows, the name of its active geometry column and its CRS.
    [groupby(by, sort=False)] is modelled with its behaviour on the cases
    the sources can reach: [by=None] raises [TypeError], an empty list of
    keys raises [ValueError], a key that is not a column raises
    [KeyError], rows whose key holds a missing value are dropped
    ([dropna=True]), and groups come in order of first appearance with
    their rows in frame order.  Also Python's [==] on cell values
    ([py_eq]), the output frame of both pipelines ([out_frame]), and
    [Series.unique()] / [DataFrame.drop_duplicates()] ([keep_first]). *)

From S2P Require Import Prelude Geometry.

(** ** Values, rows, frames *)

Inductive value : Type :=
| VNone
| VBool (b : bool)
| VInt (z : Z)
| VFloat (q : Qc)
| VStr (s : string)
| VPath (p : string)   (** a [pathlib.PosixPath] *)
| VGeom (g : geometry).

#[export] Instance value_eq_dec : EqDecision value.
Proof. solve_decision. Defined.

(** Python's [==] on these values: numbers compare by value across [bool],
    [int] and [float]; a [str] never equals a [Path] (both [__eq__]
    return [NotImplemented] and the identity test fails); geometries
    compare exactly, as shapely 2 does. *)
Definition num_of (v : value) : option Qc :=
  match v with
  | VBool b => Some (if b then 1 else 0)%Qc
  | VInt z => Some (Q2Qc (inject_Z z))
  | VFloat q => Some q
  | _ => None
  end.

Definition py_eq (v w : value) : bool :=
  match v, w with
  | VNone, VNone => true
  | VStr s, VStr t => bool_decide (s = t)
  | VPath p, VPath q => bool_decide (p = q)
  | VGeom g, VGeom h => bool_decide (g = h)
  | _, _ =>
      match num_of v, num_of w with
      | Some x, Some y => bool_decide (x = y)
      | _, _ => false
      end
  end.

(** A dict / Series: column name to value. *)
Abbreviation row := (gmap string value).

(** A row of a GeoDataFrame: its non-geometry attributes and its geometry. *)
Record frow : Type := FRow { fr_attrs : row; fr_geom : geometry }.

Record frame : Type := Frame {
  fr_rows : list frow;
  fr_columns : list string;   (** the non-geometry columns *)
  fr_geom_col : string;       (** the active geometry column *)
  fr_crs : option string
}.

(** [df.iloc[i]] as a Series: the attributes and the geometry column. *)
Definition series (fr : frame) (r : frow) : row :=
  <[fr_geom_col fr := VGeom (fr_geom r)]> (fr_attrs r).

(** [series.drop(col)]: [KeyError] when the label is absent. *)
Definition drop_col (c : string) (s : row) : res row :=
  match s !! c with
  | Some _ => Ok (delete c s)
  | None => raise (KeyError c)
  end.

(** A cell; a column absent from a row reads as a missing value. *)
Definition get_col (fr : frame) (r : frow) (c : string) : value :=
  default VNone (series fr r !! c).

Definition has_column (fr : frame) (c : string) : bool :=
  bool_decide (c ∈ fr_columns fr) || bool_decide (c = fr_geom_col fr).

(** ** [groupby(by, sort=False)] *)

Definition group_key (fr : frame) (cs : list string) (r : frow) : list value :=
  map (get_col fr r) cs.

(** Append a row to the group of its key, or open a new group at the end. *)
Fixpoint add_to_groups (k : list value) (r : frow) (gs : list (list value * list frow))
    : list (list value * list frow) :=
  match gs with
  | [] => [(k, [r])]
  | (k', rs) :: gs' =>
      if decide (k = k') then (k', rs ++ [r]) :: gs' else (k', rs) :: add_to_groups k r gs'
  end.

Definition group_rows (fr : frame) (cs : list string) : list (list value * list frow) :=
  foldl (λ gs r, let k := group_key fr cs r in
                 if decide (VNone ∈ k) then gs else add_to_groups k r gs)
        [] (fr_rows fr).

Definition missing_column (fr : frame) (cs : list string) : option string :=
  List.find (λ c, negb (has_column fr c)) cs.

Definition groupby (fr : frame) (by_ : option (list string)) : res (list (list frow)) :=
  match by_ with
  | None => raise TypeError
  | Some [] => raise ValueError
  | Some cs =>
      match missing_column fr cs with
      | Some c => raise (KeyError c)
      | None => Ok (map snd (group_rows fr cs))
      end
  end.

(** ** Building a GeoDataFrame *)

(** [gpd.GeoDataFrame(rows, geometry=geometry, crs=...)]: row i is the
    dict [rows[i]] (as it is when the frame is built) with geometry
    [geometry[i]]. *)
Record out_frame : Type := OutFrame {
  out_rows : list (row * geometry);
  out_crs : option string
}.

(** [Series.unique()] and [DataFrame.drop_duplicates()]: the first
    occurrence of each value, in order. *)
Fixpoint keep_first {A} `{EqDecision A} (seen : list A) (l : list A) : list A :=
  match l with
  | [] => []
  | x :: l' => if decide (x ∈ seen) then keep_first seen l' else x :: keep_first (x :: seen) l'
  end.

Definition unique {A} `{EqDecision A} (l : list A) : list A := keep_first [] l.
Definition drop_duplicates {A} `{EqDecision A} (l : list A) : list A := keep_first [] l.

(** What [groupby(by, sort=False)] promises: the rows without a missing
    key, one group per distinct key in order of first appearance, each
    group the rows with that key in their original order. *)
Definition groupby_spec (fr : frame) (cs : list string) : list (list frow) :=
  let rs := filter (λ r, VNone ∉ group_key fr cs r) (fr_rows fr) in
  map (λ k, filter (λ r, group_key fr cs r = k) rs) (keep_first [] (map (group_key fr cs) rs)).

Lemma elem_of_keep_first {A} `{EqDecision A} (seen l : list A) x :
  x ∈ keep_first seen l ↔ x ∈ l ∧ x ∉ seen.
Proof.
  revert seen. induction l as [|y l IH]; intros seen; simpl.
  - split; [by intros ?%not_elem_of_nil | by intros [?%not_elem_of_nil _]].
  - destruct (decide (x = y)) as [->|Hxy]; case_decide as Hy;
      rewrite ?elem_of_cons, IH; set_solver.
Qed.

Lemma elem_of_drop_duplicates {A} `{EqDecision A} (l : list A) x :
  x ∈ drop_duplicates l ↔ x ∈ l.
Proof. unfold drop_duplicates. rewrite elem_of_keep_first. set_solver. Qed.

(** ** [groupby] keeps groups in order of first appearance *)

Lemma keep_first_snoc {A} `{EqDecision A} (seen xs : list A) x :
  keep_first seen (xs ++ [x]) =
  keep_first seen xs ++ (if decide (x ∈ seen ++ xs) then [] else [x]).
Proof.
  revert seen. induction xs as [|y xs IH]; intros seen; simpl.
  - rewrite app_nil_r. by case_decide.
  - case_decide; rewrite IH; [f_equal | simpl; do 2 f_equal]; apply if_decide_iff; set_solver.
Qed.

Lemma keep_first_NoDup {A} `{EqDecision A} (seen l : list A) : NoDup (keep_first seen l).
Proof.
  revert seen. induction l as [|x l IH]; intros seen; simpl; [constructor|].
  case_decide; [done|]. constructor; [|done]. rewrite elem_of_keep_first. set_solver.
Qed.

Lemma filter_key_nil {A B} `{EqDecision B} (K : A → B) k (rs : list A) :
  k ∉ map K rs → filter (λ r, K r = k) rs = [].
Proof.
  induction rs as [|r rs IH]; intros Hk; [done|]. simpl in Hk.
  rewrite not_elem_of_cons in Hk. destruct Hk as [Hr Hk].
  rewrite list.filter_cons_False by congruence. by apply IH.
Qed.

(** Adding a row to groups listed by distinct keys. *)
Lemma add_to_groups_map k r (F : list value → list frow) us :
  NoDup us →
  add_to_groups k r (map (λ k', (k', F k')) us) =
  if decide (k ∈ us) then map (λ k', (k', if decide (k = k') then F k' ++ [r] else F k')) us
  else map (λ k', (k', F k')) us ++ [(k, [r])].
Proof.
  induction us as [|u us IH]; intros Hnd; [done|]. simpl.
  apply list.NoDup_cons in Hnd as [Hu Hnd].
  destruct (decide (k = u)) as [<-|Hku].
  - rewrite decide_True by constructor. f_equal. apply map_ext_in.
    intros k' Hk'. rewrite decide_False; [done|]. intros ->. apply Hu. by apply list_elem_of_In.
  - rewrite IH by done. destruct (decide (k ∈ us)).
    + by rewrite decide_True by by right.
    + by rewrite decide_False by (rewrite not_elem_of_cons; auto).
Qed.

Lemma group_rows_spec fr cs :
  let rs := filter (λ r, VNone ∉ group_key fr cs r) (fr_rows fr) in
  group_rows fr cs =
  map (λ k, (k, filter (λ r, group_key fr cs r = k) rs)) (keep_first [] (map (group_key fr cs) rs)).
Proof.
  unfold group_rows. simpl. set (K := group_key fr cs).
  induction (fr_rows fr) as [|r l IH] using rev_ind; [done|].
  rewrite foldl_app, IH. simpl. rewrite list.filter_app, list.filter_cons, list.filter_nil.
  destruct (decide (VNone ∈ K r)) as [Hn|Hn].
  { rewrite decide_False by tauto. by rewrite app_nil_r. }
  rewrite decide_True by done.
  set (rs := filter (λ r, VNone ∉ K r) l).
  rewrite map_app. cbn [map]. rewrite keep_first_snoc. simpl.
  rewrite (add_to_groups_map (K r) r (λ k, filter (λ r', K r' = k) rs)) by apply keep_first_NoDup.
  destruct (decide (K r ∈ keep_first [] (map K rs))) as [Hin|Hnin].
  - rewrite decide_True by (apply elem_of_keep_first in Hin; set_solver).
    rewrite app_nil_r. apply map_ext. intros k.
    rewrite list.filter_app, list.filter_cons, list.filter_nil. case_decide; by rewrite ?app_nil_r.
  - rewrite decide_False by (rewrite elem_of_keep_first in Hnin; set_solver).
    rewrite map_app. simpl. f_equal.
    + apply map_ext_in. intros k Hk. rewrite list.filter_app, list.filter_cons, list.filter_nil.
      assert (K r ≠ k) by (intros <-; apply Hnin; by apply list_elem_of_In).
      by rewrite !decide_False, app_nil_r.
    + rewrite list.filter_app, list.filter_cons, list.filter_nil, decide_True by done.
      rewrite filter_key_nil; [done|]. rewrite elem_of_keep_first in Hnin. set_solver.
Qed.

