(* ===== verification/Flatten.v ===== *)
(** * Grouped flattening: [flatten_polygons]

    [src/ftcnn/geometry/polygons.py], lines 12-57.  The function builds
    one dict per template row ([group.iloc[i].drop(geometry_column).to_dict()])
    and, for every bounding box, assigns [row["bbox"] = bbox] and appends
    the {e same} dict object to [rows].  The model keeps the Python objects
    in a store ([fs_heap], indexed by allocation order) and [rows] as a list
    of references, so that the aliasing is modelled: the DataFrame built at
    line 57 reads every dict in its final state.  [flatten_spec] is the
    pure summary of the loop, and [flatten_polygons_refines] proves the
    store model equal to it. *)

From S2P Require Import Prelude Geometry Bboxes Frames.

Local Open Scope nat_scope.

(** ** The store model of the loop *)

Record fstate : Type := FState {
  fs_heap : list row;          (** the dict objects allocated so far *)
  fs_rows : list nat;          (** [rows]: references to dicts *)
  fs_geometry : list geometry  (** [geometry] *)
}.

Definition fs_init : fstate := FState [] [] [].

(** [row = ....to_dict()]: a fresh dict object. *)
Definition alloc (r : row) (st : fstate) : nat * fstate :=
  (length (fs_heap st), FState (fs_heap st ++ [r]) (fs_rows st) (fs_geometry st)).

(** [row["bbox"] = bbox] on the object at [l]. *)
Definition set_bbox (l : nat) (b : polygon) (st : fstate) : fstate :=
  FState (alter (insert "bbox" (VGeom (GPolygon b))) l (fs_heap st)) (fs_rows st) (fs_geometry st).

(** [rows.append(row)] and [geometry.append(polygon)]. *)
Definition append_row (l : nat) (g : geometry) (st : fstate) : fstate :=
  FState (fs_heap st) (fs_rows st ++ [l]) (fs_geometry st ++ [g]).

(** [for bbox in get_polygon_bboxes(polygon): row["bbox"] = bbox; rows.append(row);
    geometry.append(polygon)] (lines 45-48 and 52-55). *)
Fixpoint emit_bboxes (l : nat) (g : geometry) (bs : list polygon) (st : fstate) : fstate :=
  match bs with
  | [] => st
  | b :: bs' => emit_bboxes l g bs' (append_row l g (set_bbox l b st))
  end.

Section Flatten.
Context `{GB : GeomBackend}.
Variable fr : frame.
Variable geometry_column : string.

(** [group.iloc[i].drop(geometry_column).to_dict()] *)
Definition template (group : list frow) (i : nat) : res row :=
  match group !! i with
  | Some r => drop_col geometry_column (series fr r)
  | None => raise IndexError
  end.

(** [for i, poly in enumerate(polygon.geoms)] (lines 42-48), [union]
    standing for the variable [polygon] of the source; the
    normalized [poly] of line 43 is not used by the loop body. *)
Fixpoint flatten_parts (group : list frow) (union : geometry) (i : nat)
    (parts : list polygon) (st : fstate) : res fstate :=
  match parts with
  | [] => Ok st
  | _ :: parts' =>
      tmpl ← template group i;
      let '(l, st1) := alloc tmpl st in
      flatten_parts group union (S i) parts' (emit_bboxes l union (get_polygon_bboxes union) st1)
  end.

(** One group (lines 40-55). *)
Definition flatten_group (group : list frow) (st : fstate) : res fstate :=
  let polygon := unary_union (map fr_geom group) in
  match polygon with
  | GMultiPolygon ps => flatten_parts group polygon 0 ps st
  | _ =>
      let polygon' := normalize_geom polygon in
      tmpl ← template group 0;
      let '(l, st1) := alloc tmpl st in
      Ok (emit_bboxes l polygon' (get_polygon_bboxes polygon') st1)
  end.

Fixpoint flatten_groups (groups : list (list frow)) (st : fstate) : res fstate :=
  match groups with
  | [] => Ok st
  | g :: gs => st' ← flatten_group g st; flatten_groups gs st'
  end.

(** Line 57: every reference read in the store's final state. *)
Definition materialize (st : fstate) : list (row * geometry) :=
  zip (map (λ l, default ∅ (fs_heap st !! l)) (fs_rows st)) (fs_geometry st).

Definition flatten_polygons (group_by : option (list string)) : res out_frame :=
  groups ← groupby fr group_by;
  st ← flatten_groups groups fs_init;
  Ok (OutFrame (materialize st) (fr_crs fr)).

(** ** The pure summary *)

(** The rows one template dict contributes: one per bounding box, all
    showing the dict's final value, which carries the last box. *)
Definition rows_for (tmpl : row) (g : geometry) (bs : list polygon) : list (row * geometry) :=
  match list.last bs with
  | None => []
  | Some b => replicate (length bs) (<["bbox" := VGeom (GPolygon b)]> tmpl, g)
  end.

Definition group_spec (group : list frow) : res (list (row * geometry)) :=
  let polygon := unary_union (map fr_geom group) in
  match polygon with
  | GMultiPolygon ps =>
      tmpls ← mapM (template group) (seq 0 (length ps));
      Ok (concat (map (λ t, rows_for t polygon (get_polygon_bboxes polygon)) tmpls))
  | _ =>
      let polygon' := normalize_geom polygon in
      t ← template group 0;
      Ok (rows_for t polygon' (get_polygon_bboxes polygon'))
  end.

Definition flatten_spec (group_by : option (list string)) : res (list (row * geometry)) :=
  groups ← groupby fr group_by;
  rs ← mapM group_spec groups;
  Ok (concat rs).
End Flatten.

(** ** The store during the loop *)

(** Every reference in [rows] points into the store, and [rows] and
    [geometry] have the same length. *)
Definition fs_wf (st : fstate) : Prop :=
  Forall (λ l, l < length (fs_heap st)) (fs_rows st) ∧
  length (fs_rows st) = length (fs_geometry st).

(** The value of a template dict after its inner loop. *)
Definition final_row (tmpl : row) (bs : list polygon) : row :=
  match list.last bs with
  | Some b => <["bbox" := VGeom (GPolygon b)]> tmpl
  | None => tmpl
  end.

Lemma emit_bboxes_heap l g bs st :
  fs_heap (emit_bboxes l g bs st) =
  match list.last bs with
  | Some b => alter (insert "bbox" (VGeom (GPolygon b))) l (fs_heap st)
  | None => fs_heap st
  end.
Proof.
  revert st. induction bs as [|b bs IH]; intros st; [done|]. simpl. rewrite IH, last_cons.
  destruct (list.last bs) as [b'|]; simpl; [|done].
  rewrite list_alter_alter_eq. apply list_alter_ext; [|done].
  intros r _. apply insert_insert_eq.
Qed.

Lemma emit_bboxes_rows l g bs st :
  fs_rows (emit_bboxes l g bs st) = fs_rows st ++ replicate (length bs) l ∧
  fs_geometry (emit_bboxes l g bs st) = fs_geometry st ++ replicate (length bs) g.
Proof.
  revert st. induction bs as [|b bs IH]; intros st; simpl; [by rewrite !app_nil_r|].
  rewrite !(proj1 (IH _)), !(proj2 (IH _)). simpl. by rewrite <-!app_assoc.
Qed.

(** Allocating a template and running its inner loop appends, to the
    materialized rows, one row per box showing the template's final
    value; the rows already there are untouched. *)
Lemma alloc_emit_materialize tmpl g bs st :
  fs_wf st →
  let '(l, st1) := alloc tmpl st in
  fs_wf (emit_bboxes l g bs st1) ∧
  materialize (emit_bboxes l g bs st1) = materialize st ++ rows_for tmpl g bs.
Proof.
  intros [Hin Hlen]. simpl.
  set (st2 := emit_bboxes _ g bs _).
  destruct (emit_bboxes_rows (length (fs_heap st)) g bs
              (FState (fs_heap st ++ [tmpl]) (fs_rows st) (fs_geometry st))) as [Hr Hg].
  pose proof (emit_bboxes_heap (length (fs_heap st)) g bs
                (FState (fs_heap st ++ [tmpl]) (fs_rows st) (fs_geometry st))) as Hh.
  fold st2 in Hr, Hg, Hh. simpl in Hr, Hg, Hh.
  assert (Hlen2 : length (fs_heap st2) = S (length (fs_heap st))).
  { rewrite Hh. destruct (list.last bs); rewrite ?length_alter, length_app; simpl; lia. }
  split; [split|].
  - rewrite Hr, Hlen2. apply Forall_app. split.
    + eapply Forall_impl; [| exact Hin]. simpl. lia.
    + apply Forall_replicate. lia.
  - rewrite Hr, Hg, !length_app, !length_replicate. lia.
  - unfold materialize. rewrite Hr, Hg, map_app, zip_with_app by (by rewrite length_map).
    f_equal.
    + f_equal. apply map_ext_in. intros l' Hl'.
      rewrite Forall_forall in Hin. specialize (Hin l' Hl').
      rewrite Hh. destruct (list.last bs); rewrite ?list_lookup_alter_ne by lia;
        by rewrite lookup_app_l.
    + rewrite map_replicate_eq, zip_with_replicate. unfold rows_for.
      rewrite Hh. destruct (list.last bs) as [b|] eqn:Hb.
      * rewrite list_lookup_alter, decide_True, lookup_app_r, Nat.sub_diag by done.
        done.
      * by apply last_None in Hb as ->.
Qed.

(** [r] (a run of the store model from a state materializing to [base])
    and [s] (the pure summary) agree: the same exception, or a well-formed
    final state materializing to [base ++ xs]. *)
Definition refines (r : res fstate) (base : list (row * geometry))
    (s : res (list (row * geometry))) : Prop :=
  match r, s with
  | Ok st, Ok xs => fs_wf st ∧ materialize st = base ++ xs
  | Err e, Err e' => e = e'
  | _, _ => False
  end.

Section FlattenProofs.
Context `{GB : GeomBackend}.
Variable fr : frame.
Variable geometry_column : string.

Lemma flatten_parts_refines group u i parts st :
  fs_wf st →
  refines (flatten_parts fr geometry_column group u i parts st) (materialize st)
    (tmpls ← mapM (template fr geometry_column group) (seq i (length parts));
     Ok (concat (map (λ t, rows_for t u (get_polygon_bboxes u)) tmpls))).
Proof.
  revert i st. induction parts as [|p parts IH]; intros i st Hwf;
    cbn [length seq flatten_parts].
  - split; [done | by rewrite app_nil_r].
  - rewrite mapM_res_cons.
    destruct (template fr geometry_column group i) as [tmpl|e] eqn:Ht; simpl; [|done].
    pose proof (alloc_emit_materialize tmpl u (get_polygon_bboxes u) st Hwf) as [Hwf' Hm].
    specialize (IH (S i) _ Hwf'). rewrite Hm in IH.
    destruct (flatten_parts _ _ _ _ _ _ _), (mapM _ _); simpl in *; try done.
    destruct IH as [? ->]. split; [done|]. by rewrite <-app_assoc.
Qed.

Lemma flatten_group_refines group st :
  fs_wf st →
  refines (flatten_group fr geometry_column group st) (materialize st)
    (group_spec fr geometry_column group).
Proof.
  intros Hwf. unfold flatten_group, group_spec.
  destruct (unary_union (map fr_geom group)) as [q|ps|k].
  1, 3: destruct (template fr geometry_column group 0) as [tmpl|e]; simpl; [|done];
    apply (alloc_emit_materialize tmpl _ _ st Hwf).
  apply flatten_parts_refines, Hwf.
Qed.

Lemma flatten_groups_refines gs st :
  fs_wf st →
  refines (flatten_groups fr geometry_column gs st) (materialize st)
    (rs ← mapM (group_spec fr geometry_column) gs; Ok (concat rs)).
Proof.
  revert st. induction gs as [|g gs IH]; intros st Hwf; cbn [flatten_groups].
  - split; [done | by rewrite app_nil_r].
  - rewrite mapM_res_cons. pose proof (flatten_group_refines g st Hwf) as Hg.
    destruct (flatten_group _ _ g st) as [st'|e], (group_spec _ _ g) as [xs|e'];
      simpl in *; try done.
    destruct Hg as [Hwf' Hm]. specialize (IH st' Hwf'). rewrite Hm in IH.
    destruct (flatten_groups _ _ gs st'), (mapM _ gs); simpl in *; try done.
    destruct IH as [? ->]. split; [done|]. by rewrite <-app_assoc.
Qed.

(** A successful run reads as the pure summary of its groups. *)
Lemma flatten_polygons_Ok group_by out :
  flatten_polygons fr geometry_column group_by = Ok out →
  ∃ gs rs, groupby fr group_by = Ok gs ∧ mapM (group_spec fr geometry_column) gs = Ok rs ∧
    out_rows out = concat rs.
Proof.
  unfold flatten_polygons. destruct (groupby fr group_by) as [gs|e]; simpl; [|done].
  assert (Hwf0 : fs_wf fs_init) by (split; [constructor | done]).
  pose proof (flatten_groups_refines gs fs_init Hwf0) as H.
  destruct (flatten_groups _ _ gs fs_init) as [st|e]; simpl; [|done]. intros [= <-].
  destruct (mapM (group_spec fr geometry_column) gs) as [rs|e] eqn:Hm; simpl in H; [|done].
  destruct H as [_ Hmat]. exists gs, rs. do 2 (split; [done|]). simpl. by rewrite Hmat.
Qed.

(** C2: refinement.  The store model of [flatten_polygons], in which every
    dict appended to [rows] is a reference to a mutable object, equals the
    pure summary [flatten_spec]: groups in [groupby] order, each template
    contributing one row per bounding box, every such row showing the
    template's final value; exceptions are the same. *)
Theorem flatten_polygons_refines group_by :
  flatten_polygons fr geometry_column group_by =
  (xs ← flatten_spec fr geometry_column group_by; Ok (OutFrame xs (fr_crs fr))).
Proof.
  unfold flatten_polygons, flatten_spec.
  destruct (groupby fr group_by) as [gs|e]; simpl; [|done].
  assert (Hwf0 : fs_wf fs_init) by (split; [constructor | done]).
  pose proof (flatten_groups_refines gs fs_init Hwf0) as H.
  destruct (flatten_groups _ _ gs fs_init), (mapM _ gs); simpl in *; try done.
  - destruct H as [_ ->]. done.
  - by subst.
Qed.

(** The geometry every row of a group carries: the union itself when it is
    a MultiPolygon (line 48 appends [polygon], not the part [poly]), its
    normalization otherwise. *)
Definition group_geometry (group : list frow) : geometry :=
  match unary_union (map fr_geom group) with
  | GMultiPolygon ps => GMultiPolygon ps
  | u => normalize_geom u
  end.

Lemma rows_for_elem t g bs r g' :
  (r, g') ∈ rows_for t g bs →
  ∃ b, list.last bs = Some b ∧ r = <["bbox" := VGeom (GPolygon b)]> t ∧ g' = g.
Proof.
  unfold rows_for. destruct (list.last bs) as [b|]; [|by intros ?%not_elem_of_nil].
  intros [[= -> ->] _]%elem_of_replicate. eauto.
Qed.

Lemma group_spec_elem group xs r g :
  group_spec fr geometry_column group = Ok xs → (r, g) ∈ xs →
  ∃ b, list.last (get_polygon_bboxes (group_geometry group)) = Some b ∧
       r !! "bbox" = Some (VGeom (GPolygon b)) ∧ g = group_geometry group.
Proof.
  unfold group_spec, group_geometry.
  destruct (unary_union (map fr_geom group)) as [q|ps|k].
  2: { destruct (mapM _ _) as [tmpls|e]; simpl; [|done]. intros [= <-] Hx.
       apply elem_of_concat_iff in Hx as (ys & Hx & Hys).
       apply elem_of_map_iff in Hys as (t & -> & _).
       destruct (rows_for_elem _ _ _ _ _ Hx) as (b & Hb & -> & ->).
       exists b. by rewrite lookup_insert_eq. }
  all: destruct (template _ _ _ _) as [t|e]; simpl; [|done]; intros [= <-] Hx;
       destruct (rows_for_elem _ _ _ _ _ Hx) as (b & Hb & -> & ->);
       exists b; by rewrite lookup_insert_eq.
Qed.

(** C1: the aliasing of line 44-47.  Every row [flatten_polygons]
    returns carries, as its "bbox", the {e last} bounding box of its
    group's geometry (all rows built from one dict show its final value),
    and, as its geometry, the group's whole union rather than one part:
    contrary to spec 4.4, the rows of a multi-part group do not pair each
    part with its own box. *)
Theorem flatten_polygons_rows_share_last_bbox group_by out r g :
  flatten_polygons fr geometry_column group_by = Ok out →
  (r, g) ∈ out_rows out →
  ∃ gs group b, groupby fr group_by = Ok gs ∧ group ∈ gs ∧
    list.last (get_polygon_bboxes (group_geometry group)) = Some b ∧
    r !! "bbox" = Some (VGeom (GPolygon b)) ∧ g = group_geometry group.
Proof.
  intros (gs & rs & Hgs & Hm & Hout)%flatten_polygons_Ok Hx. rewrite Hout in Hx.
  destruct (mapM_res_concat_elem _ _ _ _ Hm Hx) as (group & xs & Hg & Hgs' & Hxs).
  destruct (group_spec_elem group xs r g Hgs' Hxs) as (b & ? & ? & ?).
  exists gs, group, b. done.
Qed.
(** The number of rows a group contributes: [k * k] for a union of [k]
    parts ([k] templates, each appended once per box of the whole union),
    one per box of the normalized union otherwise. *)
Definition group_row_count (group : list frow) : nat :=
  match unary_union (map fr_geom group) with
  | GMultiPolygon ps => length ps * length ps
  | u => length (get_polygon_bboxes (normalize_geom u))
  end.

Lemma rows_for_length t g bs : length (rows_for t g bs) = length bs.
Proof.
  unfold rows_for. destruct (list.last bs) eqn:Hb; [by rewrite length_replicate|].
  by apply last_None in Hb as ->.
Qed.

Lemma concat_rows_for_length ts g bs :
  length (concat (map (λ t, rows_for t g bs) ts)) = length ts * length bs.
Proof.
  induction ts as [|t ts IH]; [done|]. simpl. rewrite length_app, rows_for_length, IH. lia.
Qed.

Lemma group_spec_length group xs :
  group_spec fr geometry_column group = Ok xs → length xs = group_row_count group.
Proof.
  unfold group_spec, group_row_count. destruct (unary_union (map fr_geom group)) as [q|ps|k].
  2: { destruct (mapM _ _) as [tmpls|e] eqn:Hm; simpl; [|done]. intros [= <-].
       rewrite concat_rows_for_length, ?get_polygon_bboxes_length, ?length_map.
       apply mapM_res_length in Hm. rewrite Hm, length_seq. done. }
  all: destruct (template _ _ _ _) as [t|e]; simpl; [|done]; intros [= <-];
       apply rows_for_length.
Qed.

(** C14: row count.  [flatten_polygons] returns, per group, [k * k] rows
    for a union of [k] parts and one row per bounding box otherwise; spec
    4.4 expects one row per part. *)
Theorem flatten_polygons_row_count group_by out gs :
  flatten_polygons fr geometry_column group_by = Ok out → groupby fr group_by = Ok gs →
  length (out_rows out) = sum_list (map group_row_count gs).
Proof.
  intros (gs' & rs & Hgs' & Hm & ->)%flatten_polygons_Ok Hgs.
  rewrite Hgs in Hgs'. injection Hgs' as <-.
  rewrite length_concat. f_equal. apply mapM_res_Ok in Hm. clear Hgs.
  induction Hm as [|g r gs rs Hg _ IH]; [done|]. simpl. f_equal; [|done].
  by apply group_spec_length.
Qed.

(** C13: ordering (spec sections 4.4 and 5): grouping by [cs], the rows
    [flatten_polygons] returns are the rows of each group, in the order the
    groups' keys are first encountered in the source, the rows of one group
    contiguous and in the order the loop emits them. *)
Theorem flatten_polygons_group_order cs out :
  flatten_polygons fr geometry_column (Some cs) = Ok out →
  ∃ rss, mapM (group_spec fr geometry_column) (groupby_spec fr cs) = Ok rss ∧
    out_rows out = concat rss.
Proof.
  intros (gs & rss & Hgs & Hm & Hout)%flatten_polygons_Ok. exists rss.
  split; [|done]. rewrite <-Hm. f_equal.
  unfold groupby in Hgs. destruct cs as [|c cs]; [done|].
  destruct (missing_column fr (c :: cs)); [done|]. injection Hgs as <-.
  rewrite group_rows_spec. unfold groupby_spec. by rewrite map_map.
Qed.
End FlattenProofs.

(** ** A concrete run: one group, two disjoint squares *)

Definition demo_attrs : row := {[ "label" := VStr "a"; "filename" := VStr "t.tif" ]}.

Definition demo_frame : frame :=
  Frame [FRow demo_attrs (GPolygon (rect 0 0 1 1)); FRow demo_attrs (GPolygon (rect 3 0 4 1))]
        ["label"; "filename"] "geometry" (Some "EPSG:4326").

Definition demo_union : geometry := GMultiPolygon [rect 0 0 1 1; rect 3 0 4 1].

(** The row every output row shows: the box of the second square. *)
Definition demo_row : row :=
  <["bbox" := VGeom (GPolygon (box (Envelope (pt 3 0).1 (pt 3 0).2 (pt 4 1).1 (pt 4 1).2)))]> demo_attrs.

Lemma flatten_polygons_rows_share_last_bbox_witness :
  @flatten_polygons ref_backend demo_frame "geometry" (Some ["label"])
    = Ok (OutFrame (replicate 4 (demo_row, demo_union)) (Some "EPSG:4326")) ∧
  ∃ gs group b, groupby demo_frame (Some ["label"]) = Ok gs ∧ group ∈ gs ∧
    list.last (@get_polygon_bboxes ref_backend (@group_geometry ref_backend group)) = Some b ∧
    demo_row !! "bbox" = Some (VGeom (GPolygon b)) ∧
    demo_union = @group_geometry ref_backend group.
Proof.
  assert (Hrun : @flatten_polygons ref_backend demo_frame "geometry" (Some ["label"])
    = Ok (OutFrame (replicate 4 (demo_row, demo_union)) (Some "EPSG:4326")))
    by (vm_compute; reflexivity).
  split; [exact Hrun|].
  apply (@flatten_polygons_rows_share_last_bbox ref_backend demo_frame "geometry"
           (Some ["label"]) _ demo_row demo_union Hrun).
  simpl. left.
Defined.

Lemma flatten_polygons_row_count_witness :
  length (out_rows (OutFrame (replicate 4 (demo_row, demo_union)) (Some "EPSG:4326"))) =
  sum_list (map (@group_row_count ref_backend) [fr_rows demo_frame]).
Proof.
  apply (@flatten_polygons_row_count ref_backend demo_frame "geometry" (Some ["label"])).
  - vm_compute. reflexivity.
  - vm_compute. reflexivity.
Defined.

(** ** Two groups, keys first met in the order a, b *)

Definition demo_groups_frame : frame :=
  Frame [FRow {[ "label" := VStr "a" ]} (GPolygon (rect 0 0 1 1));
         FRow {[ "label" := VStr "b" ]} (GPolygon (rect 5 5 6 6));
         FRow {[ "label" := VStr "a" ]} (GPolygon (rect 3 0 4 1))]
        ["label"] "geometry" None.

Definition demo_groups_out : out_frame :=
  match @flatten_polygons ref_backend demo_groups_frame "geometry" (Some ["label"]) with
  | Ok out => out
  | Err _ => OutFrame [] None
  end.

Lemma flatten_polygons_group_order_witness :
  @flatten_polygons ref_backend demo_groups_frame "geometry" (Some ["label"]) = Ok demo_groups_out ∧
  length (out_rows demo_groups_out) = 5 ∧
  ∃ rss, mapM (@group_spec ref_backend demo_groups_frame "geometry")
              (groupby_spec demo_groups_frame ["label"]) = Ok rss ∧
    out_rows demo_groups_out = concat rss.
Proof.
  assert (Hrun : @flatten_polygons ref_backend demo_groups_frame "geometry" (Some ["label"])
                 = Ok demo_groups_out) by (vm_compute; reflexivity).
  split; [exact Hrun|]. split; [vm_compute; reflexivity|].
  exact (@flatten_polygons_group_order ref_backend demo_groups_frame "geometry" ["label"] _ Hrun).
Defined.
