(* ===== verification/PyPath.v ===== *)
(** * Python path names: [os.path.splitext], [PurePath.name], [PurePath.stem]

    The path operations [map_geometry_to_geotiffs]
    ([src/ftcnn/geospacial/mapping.py], lines 139-154) uses to pre-filter
    raster files, on POSIX paths held as strings, following CPython's
    [posixpath._splitext] and [pathlib.PurePath.suffix]/[stem] (Python
    3.12).  Also [str.rfind] and the substring test [a in b] they rest
    on. *)

From S2P Require Import Prelude PyStr.

Local Open Scope string_scope.
Local Open Scope Z_scope.

(** ** [str] methods *)

Fixpoint rfind_from (c : ascii) (s : string) (i acc : Z) : Z :=
  match s with
  | "" => acc
  | String d s' => rfind_from c s' (i + 1) (if bool_decide (d = c) then i else acc)
  end.

(** [s.rfind(c)]: the last index of [c] in [s], [-1] when there is none. *)
Definition rfind (c : ascii) (s : string) : Z := rfind_from c s 0 (-1).

(** [s[i:j]] for [0 <= i <= j]. *)
Definition slice (s : string) (i j : Z) : string :=
  String.substring (Z.to_nat i) (Z.to_nat (j - i)) s.

(** [a in b] on strings. *)
Definition str_in (a b : string) : bool :=
  match String.index 0 a b with Some _ => true | None => false end.

(** ** Paths *)

(** [os.path.splitext(p)[0]]: cut at the last dot of the last component,
    unless that component has only dots before it. *)
Definition splitext_root (p : string) : string :=
  let sep := rfind "/" p in
  let dot := rfind "." p in
  if bool_decide (sep < dot)
     && negb (all_chars (λ c, bool_decide (c = "."%char)) (slice p (sep + 1) dot))
  then slice p 0 dot else p.

(** [PurePath(p).name]: the text after the last separator. *)
Definition path_name (p : string) : string :=
  slice p (rfind "/" p + 1) (Z.of_nat (String.length p)).

(** [PurePath(p).stem]: the name without its suffix, the suffix starting at
    the name's last dot when that dot is neither its first nor its last
    character. *)
Definition path_stem (p : string) : string :=
  let name := path_name p in
  let i := rfind "." name in
  if bool_decide (0 < i < Z.of_nat (String.length name) - 1) then slice name 0 i else name.

(** [PurePath(p).suffix]: from the name's last dot, under the same
    condition. *)
Definition path_suffix (p : string) : string :=
  let name := path_name p in
  let i := rfind "." name in
  if bool_decide (0 < i < Z.of_nat (String.length name) - 1)
  then slice name i (Z.of_nat (String.length name)) else "".

(** [Path(d) / f]: an absolute [f] replaces [d]; an empty [f] adds nothing. *)
Definition path_join (d f : string) : string :=
  match f with
  | "" => d
  | String c _ => if bool_decide (c = "/"%char) then f else d ++ String "/" f
  end.

(** ** Lemmas *)

Definition no_char (c : ascii) (s : string) : bool := all_chars (not_char c) s.

Lemma rfind_from_app c a b i acc :
  rfind_from c (a ++ b) i acc =
  rfind_from c b (i + Z.of_nat (String.length a)) (rfind_from c a i acc).
Proof.
  revert i acc. induction a as [|d a IH]; intros i acc.
  - simpl. by rewrite Z.add_0_r.
  - rewrite str_app_cons. simpl. rewrite IH. f_equal. lia.
Qed.

Lemma rfind_from_free c s i acc : no_char c s = true → rfind_from c s i acc = acc.
Proof.
  revert i. induction s as [|d s IH]; intros i; [done|].
  simpl. intros [Hd Hs]%andb_true_iff. apply not_char_neq in Hd.
  rewrite bool_decide_eq_false_2 by done. by apply IH.
Qed.

Lemma rfind_from_char c i acc : rfind_from c (String c "") i acc = i.
Proof. simpl. by rewrite bool_decide_eq_true_2. Qed.

(** The last [c] of [a ++ c ++ b], when [b] has none, is at [length a]. *)
Lemma rfind_last c a b :
  no_char c b = true → rfind c (a ++ String c b) = Z.of_nat (String.length a).
Proof.
  intros Hb. unfold rfind.
  rewrite rfind_from_app. change (String c b) with (String c "" ++ b).
  rewrite rfind_from_app, rfind_from_char, rfind_from_free by done. lia.
Qed.

Lemma rfind_none c s : no_char c s = true → rfind c s = -1.
Proof. apply rfind_from_free. Qed.

Lemma slice_prefix a b : slice (a ++ b) 0 (Z.of_nat (String.length a)) = a.
Proof.
  unfold slice. rewrite Z.sub_0_r, !Nat2Z.id. apply substring_0_app.
Qed.

Lemma slice_suffix a b :
  slice (a ++ b) (Z.of_nat (String.length a)) (Z.of_nat (String.length a + String.length b)) = b.
Proof.
  unfold slice. rewrite Nat2Z.id.
  replace (Z.to_nat _) with (String.length b) by lia.
  rewrite substring_app_l. rewrite <-(str_app_nil_r b) at 2. apply substring_0_app.
Qed.

Lemma prefix_refl s : String.prefix s s = true.
Proof. induction s as [|c s IH]; [done|]. simpl. by destruct (ascii_dec c c). Qed.

Lemma str_in_refl s : str_in s s = true.
Proof. unfold str_in. destruct s as [|c s]; [done|]. cbn [String.index]. by rewrite prefix_refl. Qed.

Lemma substring_full s : String.substring 0 (String.length s) s = s.
Proof. rewrite <-(str_app_nil_r s) at 2. by rewrite substring_0_app. Qed.

Lemma no_char_app c a b : no_char c (a ++ b) = no_char c a && no_char c b.
Proof. apply all_chars_app. Qed.

Lemma no_char_cons c d s : no_char c (String d s) = negb (bool_decide (d = c)) && no_char c s.
Proof. done. Qed.

(** The root of a plain file name [b.ext]: a non-empty base without dots
    or separators, an extension without them. *)
Lemma splitext_root_plain b ext :
  b ≠ "" → no_char "." b = true → no_char "/" b = true →
  no_char "/" ext = true → no_char "." ext = true →
  splitext_root (b ++ String "." ext) = b.
Proof.
  intros Hne Hbd Hbs Hes Hed. unfold splitext_root.
  rewrite rfind_none by (rewrite no_char_app, no_char_cons, Hbs, Hes; done).
  rewrite rfind_last by done.
  rewrite bool_decide_eq_true_2 by lia. simpl (-1 + 1).
  rewrite slice_prefix. destruct b as [|c b]; [done|].
  simpl in Hbd. apply andb_true_iff in Hbd as [Hc _]. apply not_char_neq in Hc.
  cbn [all_chars]. rewrite bool_decide_eq_false_2 by done. apply slice_prefix.
Qed.

(** The stem of [dir/b.ext] is [b]. *)
Lemma path_stem_plain dir b ext :
  b ≠ "" → no_char "." b = true → no_char "/" b = true →
  ext ≠ "" → no_char "/" ext = true → no_char "." ext = true →
  path_stem (dir ++ String "/" (b ++ String "." ext)) = b.
Proof.
  intros Hne Hbd Hbs Hene Hes Hed. unfold path_stem, path_name.
  rewrite rfind_last by (rewrite no_char_app, no_char_cons, Hbs, Hes; done).
  replace (dir ++ String "/" (b ++ String "." ext))
    with ((dir ++ "/") ++ (b ++ String "." ext)) by (by rewrite <-str_app_assoc).
  assert (Hd : String.length (dir ++ "/") = S (String.length dir))
    by (rewrite str_length_app; simpl; lia).
  replace (Z.of_nat (String.length dir) + 1) with (Z.of_nat (String.length (dir ++ "/")))
    by lia.
  rewrite (str_length_app (dir ++ "/")), slice_suffix.
  rewrite rfind_last by done.
  rewrite str_length_app. simpl String.length.
  destruct b as [|c b']; [done|]. destruct ext as [|e ext']; [done|].
  rewrite bool_decide_eq_true_2 by (simpl; lia). apply slice_prefix.
Qed.
