(* ===== verification/Mapping.v ===== *)
(** * The spatial mapper: [map_geometry_to_geotiffs]

    [src/ftcnn/geospacial/mapping.py], lines 114-192.  The stems of the
    annotation file names are computed ([orig_stems]).  The [.tif] files
    under the image directory are pre-filtered with [compare_stem]
    ([image_paths]).  Each surviving raster is opened ([open_raster]) and
    contributes either one row per annotation intersecting its footprint,
    with the clipped geometry, or one row with an empty polygon
    ([map_tile]).  The rows are exploded into parts and deduplicated.

    The file system is an explicit environment [fs_env]: the files the
    directory enumeration yields, in its order, and the rasters rasterio
    can open, by path.  [collect_files_with_suffix] ([ftcnn.io], outside
    [src/]) is modelled from spec section 6.  The resolution of [img_dir]
    ([Path.resolve()]) is taken as done: [img_dir] is an absolute path
    without [.] or [..] components. *)

From S2P Require Import Prelude Geometry Footprint PyStr PyPath Frames.

Local Open Scope nat_scope.

(** ** The environment *)

(** What [rasterio.open(path)] exposes: [src.width], [src.height],
    [src.transform]. *)
Record raster : Type := Raster { r_width : Z; r_height : Z; r_transform : affine }.

Record fs_env : Type := FsEnv {
  env_files : list string;            (** the files under the image directory *)
  env_rasters : gmap string raster    (** the files rasterio opens *)
}.

(** [s.endswith(suffix)] *)
Definition ends_with (suffix s : string) : bool :=
  bool_decide (String.length suffix ≤ String.length s) &&
  bool_decide (String.substring (String.length s - String.length suffix)
                                (String.length suffix) s = suffix).

(** [collect_files_with_suffix(suffix, dir, recurse=...)] (spec section 6):
    the enumerated files under [dir] with the suffix, only those directly
    in [dir] unless [recurse]. *)
Definition collect_files_with_suffix (suffix dir : string) (recurse : bool)
    (files : list string) : list string :=
  filter (λ p, String.prefix (dir ++ "/") p && ends_with suffix p &&
               (recurse || no_char "/" (String.substring (S (String.length dir))
                                          (String.length p) p)) = true) files.

Definition qz (z : Z) : Qc := Q2Qc (inject_Z z).

(** [os.path.splitext] takes a [str]. *)
Definition as_str (v : value) : res string :=
  match v with VStr s => Ok s | _ => raise TypeError end.

(** Lines 139-141: [gdf["filename"].unique()] and their roots. *)
Definition orig_stems (gdf : frame) : res (list string) :=
  if has_column gdf "filename" then
    fs ← mapM as_str (unique (map (λ r, get_col gdf r "filename") (fr_rows gdf)));
    Ok (map splitext_root fs)
  else raise (KeyError "filename").

(** Lines 144-148. *)
Definition compare_stem (stem : string) (names : list string) : bool :=
  existsb (λ name, str_in (String.substring 0 (String.length name) stem) name) names.

(** The row of lines 171-176. *)
Definition tile_row (p : string) (src : raster) : row :=
  {[ "filename" := VStr (path_name p); "path" := VStr p;
     "width" := VInt (r_width src); "height" := VInt (r_height src) ]}.

(** Lines 163-166: the footprint of the whole raster. *)
Definition tile_polygon (src : raster) : polygon :=
  create_tile_polygon (r_transform src) (create_window 0 0 (qz (r_width src)) (qz (r_height src))).

(** [polygon_row["geometry"]]: the column named "geometry", whatever the
    active geometry column is; [.intersection] on a non-geometry raises
    [AttributeError]. *)
Definition row_geometry (gdf : frame) (r : frow) : res geometry :=
  match series gdf r !! "geometry" with
  | Some (VGeom g) => Ok g
  | Some _ => raise AttributeError
  | None => raise (KeyError "geometry")
  end.

Section Mapping.
Context `{GB : GeomBackend}.
Variable env : fs_env.

(** Lines 150-154. *)
Definition image_paths (stems : list string) (img_dir : string) (recurse : bool) : list string :=
  filter (λ p, compare_stem (path_stem p) stems = true)
         (collect_files_with_suffix ".tif" img_dir recurse (env_files env)).

(** [rasterio.open(path)] *)
Definition open_raster (p : string) : res raster :=
  match env_rasters env !! p with
  | Some src => Ok src
  | None => raise RasterioIOError
  end.

(** Lines 161-186: the rows one raster contributes; [gdf.intersects] reads
    the active geometry column. *)
Definition map_tile (gdf : frame) (p : string) : res (list (row * geometry)) :=
  src ← open_raster p;
  let tile := tile_polygon src in
  let hits := filter (λ r, intersects (fr_geom r) tile = true) (fr_rows gdf) in
  match hits with
  | [] => Ok [(tile_row p src, GPolygon empty_polygon)]
  | _ => mapM (λ r, g ← row_geometry gdf r; Ok (tile_row p src, intersection g tile)) hits
  end.

(** [GeoDataFrame.explode()]: one row per part, a geometry without parts
    (an empty one) kept as it is. *)
Definition explode_geom (g : geometry) : list geometry :=
  match get_parts g with [] => [g] | ps => ps end.

Definition explode (rows : list (row * geometry)) : list (row * geometry) :=
  concat (map (λ rg, map (λ g, (rg.1, g)) (explode_geom rg.2)) rows).

Definition map_geometry_to_geotiffs (gdf : frame) (img_dir : string) (recurse : bool)
    : res out_frame :=
  stems ← orig_stems gdf;
  rss ← mapM (map_tile gdf) (image_paths stems img_dir recurse);
  Ok (OutFrame (drop_duplicates (explode (concat rss))) (fr_crs gdf)).
End Mapping.

(** ** Lemmas *)

Lemma substring_long s n : String.length s ≤ n → String.substring 0 n s = s.
Proof.
  revert n. induction s as [|c s IH]; intros [|n] Hn; simpl in *; try done; [lia|].
  f_equal. apply IH. lia.
Qed.

(** A plain name: non-empty, without dots or separators. *)
Definition plain (s : string) : Prop := s ≠ "" ∧ no_char "." s = true ∧ no_char "/" s = true.

Section MappingProofs.
Context `{GB : GeomBackend}.
Variable env : fs_env.

Lemma explode_geom_nonempty g : explode_geom g ≠ [].
Proof. unfold explode_geom. by destruct (get_parts g). Qed.

Lemma elem_of_explode rows r g :
  (r, g) ∈ explode rows ↔ ∃ g0, (r, g0) ∈ rows ∧ g ∈ explode_geom g0.
Proof.
  unfold explode. rewrite elem_of_concat_iff. split.
  - intros (xs & Hx & Hxs). apply elem_of_map_iff in Hxs as ([r0 g0] & -> & Hin).
    apply elem_of_map_iff in Hx as (g' & [= -> ->] & Hg). eauto.
  - intros (g0 & Hin & Hg). eexists. split; [|apply elem_of_map_iff; exists (r, g0); done].
    apply elem_of_map_iff. by exists g.
Qed.

(** What one raster contributes: rows carrying its metadata, either the
    empty placeholder when no annotation intersects its footprint or the
    clipped geometry of an intersecting annotation. *)
Lemma map_tile_Ok gdf p rs :
  map_tile env gdf p = Ok rs →
  ∃ src, env_rasters env !! p = Some src ∧ rs ≠ [] ∧
    ∀ r g, (r, g) ∈ rs → r = tile_row p src ∧
      ((g = GPolygon empty_polygon ∧
        ∀ x, x ∈ fr_rows gdf → intersects (fr_geom x) (tile_polygon src) = false) ∨
       ∃ x g0, x ∈ fr_rows gdf ∧ intersects (fr_geom x) (tile_polygon src) = true ∧
         row_geometry gdf x = Ok g0 ∧ g = intersection g0 (tile_polygon src)).
Proof.
  unfold map_tile, open_raster. intros Hm.
  destruct (env_rasters env !! p) as [src|]; simpl in Hm; [|done].
  exists src. split; [done|].
  destruct (filter _ (fr_rows gdf)) as [|h hs] eqn:Hf.
  - injection Hm as <-. split; [done|]. intros r g [= -> ->]%list_elem_of_singleton.
    split; [done|]. left. split; [done|]. intros x Hx.
    destruct (intersects (fr_geom x) (tile_polygon src)) eqn:Hi; [|done].
    assert (Hx' : x ∈ filter (λ r, intersects (fr_geom r) (tile_polygon src) = true) (fr_rows gdf))
      by (by apply list_elem_of_filter).
    rewrite Hf in Hx'. by apply not_elem_of_nil in Hx'.
  - split.
    { intros ->. apply mapM_res_length in Hm. done. }
    intros r g Hrg. destruct (mapM_res_elem_r _ _ _ _ Hm Hrg) as (x & Hx & Hfx).
    rewrite <-Hf in Hx. apply list_elem_of_filter in Hx as [Hi Hx].
    destruct (row_geometry gdf x) as [g0|e] eqn:Hg; simpl in Hfx; [|done].
    injection Hfx as <- <-. split; [done|]. right. by exists x, g0.
Qed.

Lemma tile_row_path p src : tile_row p src !! "path" = Some (VStr p).
Proof. unfold tile_row. by simplify_map_eq. Qed.
Lemma map_geometry_to_geotiffs_Ok gdf img_dir recurse out :
  map_geometry_to_geotiffs env gdf img_dir recurse = Ok out →
  ∃ stems rss, orig_stems gdf = Ok stems ∧
    mapM (map_tile env gdf) (image_paths env stems img_dir recurse) = Ok rss ∧
    out_rows out = drop_duplicates (explode (concat rss)).
Proof.
  unfold map_geometry_to_geotiffs. intros H.
  destruct (orig_stems gdf) as [stems|e]; simpl in H; [|done].
  destruct (mapM _ _) as [rss|e] eqn:Hm; simpl in H; [|done].
  injection H as <-. by exists stems, rss.
Qed.

(** C3: completeness (spec section 8): every raster that survives the
    pre-filter has an output row carrying its path, also when no
    annotation intersects it. *)
Theorem map_geometry_to_geotiffs_complete gdf img_dir recurse out stems p :
  map_geometry_to_geotiffs env gdf img_dir recurse = Ok out →
  orig_stems gdf = Ok stems → p ∈ image_paths env stems img_dir recurse →
  ∃ r g, (r, g) ∈ out_rows out ∧ r !! "path" = Some (VStr p).
Proof.
  intros (stems' & rss & Hs' & Hm & ->)%map_geometry_to_geotiffs_Ok Hs Hp.
  rewrite Hs in Hs'. injection Hs' as <-.
  destruct (mapM_res_elem _ _ _ _ Hm Hp) as (rs & Hrs & Hin).
  destruct (map_tile_Ok _ _ _ Hrs) as (src & _ & Hne & Hall).
  destruct rs as [|[r g0] rs]; [done|].
  destruct (Hall r g0 (list_elem_of_here _ _)) as [-> _].
  destruct (explode_geom g0) as [|g gs] eqn:He; [by apply explode_geom_nonempty in He|].
  exists (tile_row p src), g. split; [|apply tile_row_path].
  apply elem_of_drop_duplicates, elem_of_explode. exists g0. split.
  - apply elem_of_concat_iff. exists ((tile_row p src, g0) :: rs). split; [left | done].
  - rewrite He. left.
Qed.

(** C4: clipping (spec sections 4.6 and 8): every output row carries the
    metadata of a raster that survived the pre-filter and opened, and a
    part of either the empty placeholder, when no annotation intersects
    that raster's footprint, or the intersection of an intersecting
    annotation's geometry with the footprint. *)
Theorem map_geometry_to_geotiffs_clipped gdf img_dir recurse out r g :
  map_geometry_to_geotiffs env gdf img_dir recurse = Ok out → (r, g) ∈ out_rows out →
  ∃ stems p src, orig_stems gdf = Ok stems ∧ p ∈ image_paths env stems img_dir recurse ∧
    env_rasters env !! p = Some src ∧ r = tile_row p src ∧
    ((g ∈ explode_geom (GPolygon empty_polygon) ∧
      ∀ x, x ∈ fr_rows gdf → intersects (fr_geom x) (tile_polygon src) = false) ∨
     ∃ x g0, x ∈ fr_rows gdf ∧ intersects (fr_geom x) (tile_polygon src) = true ∧
       row_geometry gdf x = Ok g0 ∧ g ∈ explode_geom (intersection g0 (tile_polygon src))).
Proof.
  intros (stems & rss & Hs & Hm & ->)%map_geometry_to_geotiffs_Ok Hrg.
  apply elem_of_drop_duplicates, elem_of_explode in Hrg as (g1 & Hrg1 & Hg).
  destruct (mapM_res_concat_elem _ _ _ _ Hm Hrg1) as (p & rs & Hp & Hrs & Hin).
  destruct (map_tile_Ok _ _ _ Hrs) as (src & Hsrc & _ & Hall).
  destruct (Hall r g1 Hin) as [-> [[-> Hno] | (x & g0 & Hx & Hi & Hg0 & ->)]].
  - exists stems, p, src. repeat split; try done. left. done.
  - exists stems, p, src. repeat split; try done. right. by exists x, g0.
Qed.

(** C15: a raster that survives the pre-filter but cannot be opened aborts
    the whole mapping ([rasterio.open] is not guarded), where spec
    section 7 asks for the file to be skipped. *)
Theorem map_geometry_to_geotiffs_unreadable gdf img_dir recurse stems p :
  orig_stems gdf = Ok stems → p ∈ image_paths env stems img_dir recurse →
  env_rasters env !! p = None →
  is_ok (map_geometry_to_geotiffs env gdf img_dir recurse) = false.
Proof.
  intros Hs Hp Hnone.
  destruct (map_geometry_to_geotiffs env gdf img_dir recurse) as [out|e] eqn:H; [|done].
  apply map_geometry_to_geotiffs_Ok in H as (stems' & rss & Hs' & Hm & _).
  rewrite Hs in Hs'. injection Hs' as <-.
  destruct (mapM_res_elem _ _ _ _ Hm Hp) as (rs & Hrs & _).
  unfold map_tile, open_raster in Hrs. by rewrite Hnone in Hrs.
Qed.

(** The root of every annotation file name is a stem of the filter. *)
Lemma orig_stems_elem gdf stems x f :
  orig_stems gdf = Ok stems → x ∈ fr_rows gdf → get_col gdf x "filename" = VStr f →
  splitext_root f ∈ stems.
Proof.
  unfold orig_stems. destruct (has_column gdf "filename"); [|done].
  destruct (mapM as_str _) as [fs|e] eqn:Hm; simpl; [|done]. intros [= <-] Hx Hf.
  assert (Hu : VStr f ∈ unique (map (λ r, get_col gdf r "filename") (fr_rows gdf))).
  { unfold unique. apply elem_of_keep_first. split; [|by apply not_elem_of_nil].
    apply elem_of_map_iff. by exists x. }
  destruct (mapM_res_elem _ _ _ _ Hm Hu) as (f' & [= <-] & Hf').
  apply elem_of_map_iff. by exists f.
Qed.
End MappingProofs.

(** C27: the pre-filter has no false negatives for the naming convention:
    a raster [dir/b.tif] is kept whenever an annotation's file name is
    [b.ext], with [b] and [ext] plain names. *)
Theorem image_paths_keep_named env gdf stems img_dir recurse x dir b ext :
  orig_stems gdf = Ok stems → x ∈ fr_rows gdf →
  get_col gdf x "filename" = VStr (b ++ String "." ext)%string → plain b → plain ext →
  (dir ++ String "/" (b ++ ".tif"))%string
    ∈ collect_files_with_suffix ".tif" img_dir recurse (env_files env) →
  (dir ++ String "/" (b ++ ".tif"))%string ∈ image_paths env stems img_dir recurse.
Proof.
  intros Hs Hx Hf (Hb & Hbd & Hbs) (He & Hed & Hes) Hc.
  apply list_elem_of_filter. split; [|done].
  rewrite (path_stem_plain dir b "tif") by done.
  apply existsb_exists. exists b. split.
  - apply list_elem_of_In. rewrite <-(splitext_root_plain b ext) by done.
    by eapply orig_stems_elem.
  - rewrite substring_full. apply str_in_refl.
Qed.

(** C28: the pre-filter over-matches (spec section 9): a stem no longer
    than some annotation name and contained in it passes, e.g. the raster
    [1.tif] for the annotation file [tile_1.tif]. *)
Theorem compare_stem_substring stem name names :
  name ∈ names → String.length stem ≤ String.length name → str_in stem name = true →
  compare_stem stem names = true.
Proof.
  intros Hn Hl Hin. apply existsb_exists. exists name. split; [by apply list_elem_of_In|].
  by rewrite substring_long.
Qed.

(** ** A concrete run *)

Definition demo_gdf : frame :=
  Frame [FRow {[ "filename" := VStr "t.tif" ]} (GPolygon (rect 0 0 1 1));
         FRow {[ "filename" := VStr "t.tif" ]} (GPolygon (rect 3 0 4 1))]
        ["filename"] "geometry" (Some "EPSG:4326").

(** North-up rasters of 2 x 1 pixels of unit size: [t.tif] covers
    [0, 2] x [0, 1], [t_extra.tif] covers [10, 12] x [0, 1]. *)
Definition demo_raster (x0 : Z) : raster :=
  Raster 2 1 (Affine (qz 1) (qz 0) (qz x0) (qz 0) (qz (-1)) (qz 1)).

Definition demo_env : fs_env :=
  FsEnv ["/data/t.tif"; "/data/u.tif"; "/data/t_extra.tif"; "/data/notes.txt"]
        {[ "/data/t.tif" := demo_raster 0; "/data/u.tif" := demo_raster 0;
           "/data/t_extra.tif" := demo_raster 10 ]}.

(** [t.tif] is listed but rasterio cannot open it. *)
Definition demo_env_bad : fs_env := FsEnv ["/data/t.tif"] ∅.

Definition demo_out : out_frame :=
  match @map_geometry_to_geotiffs ref_backend demo_env demo_gdf "/data" true with
  | Ok out => out
  | Err _ => OutFrame [] None
  end.

Lemma demo_out_run :
  @map_geometry_to_geotiffs ref_backend demo_env demo_gdf "/data" true = Ok demo_out.
Proof. vm_compute. reflexivity. Qed.

Lemma map_geometry_to_geotiffs_complete_witness :
  ∃ r g, (r, g) ∈ out_rows demo_out ∧ r !! "path" = Some (VStr "/data/t_extra.tif").
Proof.
  apply (@map_geometry_to_geotiffs_complete ref_backend demo_env demo_gdf "/data" true
           demo_out ["t"] "/data/t_extra.tif").
  - exact demo_out_run.
  - vm_compute. reflexivity.
  - apply list_elem_of_In. vm_compute. auto 10.
Defined.

Lemma map_geometry_to_geotiffs_clipped_witness :
  ∃ r g, (r, g) ∈ out_rows demo_out ∧
  ∃ stems p src, orig_stems demo_gdf = Ok stems ∧ p ∈ image_paths demo_env stems "/data" true ∧
    env_rasters demo_env !! p = Some src ∧ r = tile_row p src ∧
    ((g ∈ @explode_geom ref_backend (GPolygon empty_polygon) ∧
      ∀ x, x ∈ fr_rows demo_gdf → @intersects ref_backend (fr_geom x) (tile_polygon src) = false) ∨
     ∃ x g0, x ∈ fr_rows demo_gdf ∧ @intersects ref_backend (fr_geom x) (tile_polygon src) = true ∧
       row_geometry demo_gdf x = Ok g0 ∧
       g ∈ @explode_geom ref_backend (@intersection ref_backend g0 (tile_polygon src))).
Proof.
  exists (tile_row "/data/t_extra.tif" (demo_raster 10)), (GPolygon empty_polygon).
  assert (Hin : (tile_row "/data/t_extra.tif" (demo_raster 10), GPolygon empty_polygon)
                  ∈ out_rows demo_out)
    by (apply list_elem_of_In; vm_compute; auto 10).
  split; [exact Hin|].
  exact (@map_geometry_to_geotiffs_clipped ref_backend demo_env demo_gdf "/data" true
           demo_out _ _ demo_out_run Hin).
Defined.

Lemma map_geometry_to_geotiffs_unreadable_witness :
  @map_geometry_to_geotiffs ref_backend demo_env_bad demo_gdf "/data" true = raise RasterioIOError ∧
  is_ok (@map_geometry_to_geotiffs ref_backend demo_env_bad demo_gdf "/data" true) = false.
Proof.
  split; [vm_compute; reflexivity|].
  apply (@map_geometry_to_geotiffs_unreadable ref_backend demo_env_bad demo_gdf "/data" true
           ["t"] "/data/t.tif").
  - vm_compute. reflexivity.
  - apply list_elem_of_In. vm_compute. auto 10.
  - reflexivity.
Defined.

Lemma image_paths_keep_named_witness :
  "/data/t.tif" ∈ image_paths demo_env ["t"] "/data" true.
Proof.
  apply (image_paths_keep_named demo_env demo_gdf ["t"] "/data" true
           (FRow {[ "filename" := VStr "t.tif" ]} (GPolygon (rect 0 0 1 1))) "/data" "t" "tif").
  - vm_compute. reflexivity.
  - left.
  - vm_compute. reflexivity.
  - split; [discriminate | split; reflexivity].
  - split; [discriminate | split; reflexivity].
  - apply list_elem_of_In. vm_compute. auto 10.
Defined.

Lemma compare_stem_substring_witness :
  compare_stem "1" ["tile_1"] = true.
Proof.
  apply (compare_stem_substring "1" "tile_1").
  - left.
  - simpl. lia.
  - reflexivity.
Defined.
