(* ===== verification/MapMetadata.v ===== *)
(** * The metadata mapper: [map_metadata]

    [src/ftcnn/geospacial/mapping.py], lines 18-111.  [preserve_fields] is
    first normalized into an insertion-ordered dict [field_map]
    ([normalize_fields]).  Each source row then gives an image path
    [images_dir / parse_filename(row)].  When the file exists and its path
    is not already listed, the image is opened for its size and a
    metadata row is appended, with the preserved fields copied from the
    source row ([meta_row], [meta_loop]).

    The duplicate test of line 72 compares the stored [str(path)] with the
    [Path] object [path].  Python's [==] between a [str] and a [Path] is
    always false ([py_eq]), so the test never fires
    ([map_metadata_keeps_duplicates]).  The file system is the map
    [me_files] from paths to the files there; [parse_filename] is a
    parameter, as in the source.  [ftcnn.raster.open_raster] (outside
    [src/]) is modelled from the spec: it opens what rasterio can open. *)

From S2P Require Import Prelude Geometry PyStr PyPath Frames.

Local Open Scope nat_scope.

(** ** [preserve_fields] *)

(** An element of a [preserve_fields] list: a column name, a renaming dict
    [{new_name: old_name}] (an association list in insertion order), or
    anything else, which line 58-62 ignores. *)
Inductive field_item : Type :=
| FStr (s : string)
| FDict (d : list (string * string))
| FOtherItem.

Inductive preserve_fields : Type :=
| FieldsNone
| FieldsList (items : list field_item)
| FieldsDict (d : list (string * string))
| FieldsOther.

(** [d[k] = v] on an insertion-ordered dict. *)
Fixpoint dict_set (d : list (string * string)) (k v : string) : list (string * string) :=
  match d with
  | [] => [(k, v)]
  | (k', v') :: d' => if bool_decide (k = k') then (k, v) :: d' else (k', v') :: dict_set d' k v
  end.

(** [d.update(e)] *)
Definition dict_update (d e : list (string * string)) : list (string * string) :=
  foldl (λ d kv, dict_set d kv.1 kv.2) d e.

(** The body of [for item in preserve_fields] (lines 59-62). *)
Definition add_field_item (fm : list (string * string)) (it : field_item) : list (string * string) :=
  match it with
  | FStr s => dict_set fm s s
  | FDict d => dict_update fm d
  | FOtherItem => fm
  end.

(** Lines 53-62 ([if preserve_fields:] is false for [None], [[]] and
    [{}], which all leave [field_map] empty). *)
Definition normalize_fields (pf : preserve_fields) : list (string * string) :=
  match pf with
  | FieldsDict d => d
  | FieldsList items => foldl add_field_item [] items
  | FieldsNone | FieldsOther => []
  end.

(** Lines 48 and 63-64. *)
Definition meta_columns (field_map : list (string * string)) : list string :=
  ["filename"; "path"; "width"; "height"; "bbox"] ++ map fst field_map.

(** ** The environment *)

(** A file on disk: its pixel size and which of the two openers can read
    it. *)
Record image_file : Type := ImageFile {
  if_width : Z; if_height : Z;
  if_raster : bool;    (** rasterio opens it *)
  if_picture : bool    (** PIL opens it *)
}.

(** [path.exists()]: the paths with a file. *)
Record meta_env : Type := MetaEnv { me_files : gmap string image_file }.

(** The frame of lines 106-111; the geometry of a row is whatever
    [row.get("geometry", None)] returned. *)
Record meta_frame : Type := MetaFrame {
  mf_rows : list (row * value);
  mf_columns : list string;
  mf_crs : option string
}.

Section MapMetadata.
Variable env : meta_env.
Variable gdf_src : frame.
Variable images_dir : string.
Variable parse_filename : row → res string.
Variable field_map : list (string * string).

(** Lines 75-84: [open_raster] for [.tif]/[.tiff], [Image.open] otherwise;
    both give (width, height). *)
Definition image_size (path : string) (f : image_file) : res (Z * Z) :=
  if bool_decide (path_suffix path ∈ [".tiff"; ".tif"]) then
    if if_raster f then Ok (if_width f, if_height f) else raise RasterioIOError
  else
    if if_picture f then Ok (if_width f, if_height f) else raise OSError.

(** Lines 96-101: [old_col not in row] tests the row's labels, the
    frame's columns. *)
Fixpoint add_fields (r : frow) (fields : list (string * string)) (md : row) : res row :=
  match fields with
  | [] => Ok md
  | (new_col, old_col) :: fs =>
      if has_column gdf_src old_col
      then add_fields r fs (<[new_col := get_col gdf_src r old_col]> md)
      else raise (KeyError old_col)
  end.

(** Line 72: [any(r["path"] == path for r in rows)], [path] a [Path]. *)
Definition is_dup (rows : list (row * value)) (path : string) : bool :=
  existsb (λ rg, py_eq (default VNone (rg.1 !! "path")) (VPath path)) rows.

(** Lines 67-104: one source row. *)
Definition meta_row (acc : list (row * value)) (r : frow) : res (list (row * value)) :=
  filename ← parse_filename (series gdf_src r);
  let path := path_join images_dir filename in
  match me_files env !! path with
  | None => Ok acc
  | Some f =>
      if is_dup acc path then Ok acc else
      wh ← image_size path f;
      md ← add_fields r field_map
             {[ "filename" := VStr filename; "path" := VStr path;
                "width" := VInt wh.1; "height" := VInt wh.2;
                "bbox" := get_col gdf_src r "bbox" ]};
      Ok (acc ++ [(md, get_col gdf_src r "geometry")])
  end.

(** Line 66: [for _, row in gdf_src.iterrows()]. *)
Fixpoint meta_loop (acc : list (row * value)) (rs : list frow) : res (list (row * value)) :=
  match rs with
  | [] => Ok acc
  | r :: rs' => acc' ← meta_row acc r; meta_loop acc' rs'
  end.
End MapMetadata.

Definition map_metadata (env : meta_env) (gdf_src : frame) (images_dir : string)
    (parse_filename : row → res string) (pf : preserve_fields) : res meta_frame :=
  let field_map := normalize_fields pf in
  rows ← meta_loop env gdf_src images_dir parse_filename field_map [] (fr_rows gdf_src);
  Ok (MetaFrame rows (meta_columns field_map) (fr_crs gdf_src)).

(** ** Lemmas *)

Definition path_of (rg : row * value) : option value := rg.1 !! "path".
Definition str_path (rg : row * value) : Prop := ∃ s, path_of rg = Some (VStr s).

(** A stored [str] never equals a [Path]. *)
Lemma is_dup_str_paths acc p : Forall str_path acc → is_dup acc p = false.
Proof.
  intros H. apply not_true_iff_false. unfold is_dup. rewrite existsb_exists.
  intros (rg & Hin & Heq).
  rewrite Forall_forall in H. destruct (H rg Hin) as [s Hs].
  unfold path_of in Hs. by rewrite Hs in Heq.
Qed.

Section MetaProofs.
Variable env : meta_env.
Variable gdf_src : frame.
Variable images_dir : string.
Variable parse_filename : row → res string.
Variable field_map : list (string * string).

Lemma add_fields_path r fields md md' :
  "path" ∉ map fst fields → add_fields gdf_src r fields md = Ok md' → md' !! "path" = md !! "path".
Proof.
  revert md. induction fields as [|[n o] fields IH]; intros md Hn; simpl; [by intros [= <-]|].
  apply not_elem_of_cons in Hn as [Hno Hn].
  destruct (has_column gdf_src o); [|done]. intros H. rewrite (IH _ Hn H).
  by rewrite lookup_insert_ne.
Qed.

Lemma add_fields_columns r fields md md' :
  add_fields gdf_src r fields md = Ok md' →
  ∀ o, o ∈ map snd fields → has_column gdf_src o = true.
Proof.
  revert md. induction fields as [|[n o'] fields IH]; intros md; simpl.
  - intros _ o Ho. by apply not_elem_of_nil in Ho.
  - destruct (has_column gdf_src o') eqn:Hc; [|done]. intros H o [->|Ho]%elem_of_cons; [done|].
    by eapply IH.
Qed.

Definition exists_at (fn : string) : bool := bool_decide (is_Some (me_files env !! path_join images_dir fn)).

(** One source row appends one row, with its path as a [str], exactly when
    its file exists. *)
Lemma meta_row_step acc r acc' :
  "path" ∉ map fst field_map → Forall str_path acc →
  meta_row env gdf_src images_dir parse_filename field_map acc r = Ok acc' →
  ∃ fn, parse_filename (series gdf_src r) = Ok fn ∧ Forall str_path acc' ∧
    map path_of acc' =
      map path_of acc ++ (if exists_at fn then [Some (VStr (path_join images_dir fn))] else []).
Proof.
  intros Hp Hacc Hm. unfold meta_row, exists_at in *.
  destruct (parse_filename _) as [fn|e]; cbn -[is_dup image_size add_fields] in Hm; [|done].
  exists fn. split; [done|].
  destruct (me_files env !! path_join images_dir fn) as [f|] eqn:Hf.
  - rewrite is_dup_str_paths in Hm by done.
    destruct (image_size _ f) as [wh|e]; cbn -[add_fields] in Hm; [|done].
    destruct (add_fields _ _ _ _) as [md|e] eqn:Ha; simpl in Hm; [|done]. injection Hm as <-.
    apply add_fields_path in Ha; [|done].
    assert (Hmd : path_of (md, get_col gdf_src r "geometry")
                  = Some (VStr (path_join images_dir fn))).
    { unfold path_of. simpl. rewrite Ha. by simplify_map_eq. }
    split.
    + apply Forall_app. split; [done|]. repeat constructor. eexists; exact Hmd.
    + rewrite map_app. cbn [map]. rewrite Hmd. by rewrite bool_decide_eq_true_2 by eauto.
  - injection Hm as <-. by rewrite app_nil_r.
Qed.

Lemma meta_loop_paths acc rs out :
  "path" ∉ map fst field_map → Forall str_path acc →
  meta_loop env gdf_src images_dir parse_filename field_map acc rs = Ok out →
  ∃ fns, mapM (λ r, parse_filename (series gdf_src r)) rs = Ok fns ∧
    map path_of out =
      map path_of acc ++ map (λ fn, Some (VStr (path_join images_dir fn)))
                             (filter (λ fn, exists_at fn = true) fns).
Proof.
  revert acc. induction rs as [|r rs IH]; intros acc Hp Hacc; simpl.
  - intros [= <-]. exists []. by rewrite app_nil_r.
  - destruct (meta_row _ _ _ _ _ acc r) as [acc'|e] eqn:Hr; simpl; [|done]. intros Hl.
    destruct (meta_row_step _ _ _ Hp Hacc Hr) as (fn & Hfn & Hacc' & Hmap).
    destruct (IH acc' Hp Hacc' Hl) as (fns & Hfns & Hout).
    exists (fn :: fns). rewrite Hfn, Hfns. split; [done|].
    rewrite Hout, Hmap, filter_cons. destruct (exists_at fn); simpl; by rewrite <-app_assoc.
Qed.

Lemma meta_loop_fields acc rs out :
  meta_loop env gdf_src images_dir parse_filename field_map acc rs = Ok out →
  out = acc ∨ ∀ o, o ∈ map snd field_map → has_column gdf_src o = true.
Proof.
  revert acc. induction rs as [|r rs IH]; intros acc; simpl; [intros [= <-]; by left|].
  destruct (meta_row _ _ _ _ _ acc r) as [acc'|e] eqn:Hr; simpl; [|done]. intros Hl.
  assert (Hstep : acc' = acc ∨ ∀ o, o ∈ map snd field_map → has_column gdf_src o = true).
  { revert Hr. unfold meta_row. destruct (parse_filename _); simpl; [|done].
    destruct (me_files env !! _); [|intros [= <-]; by left].
    destruct (is_dup acc _); [intros [= <-]; by left|].
    destruct (image_size _ _); simpl; [|done].
    destruct (add_fields _ _ _ _) eqn:Ha; simpl; [|done].
    intros _. right. by eapply add_fields_columns. }
  destruct (IH _ Hl) as [->|]; [done | by right].
Qed.
End MetaProofs.

Lemma meta_loop_no_files env gdf dir parse fm acc rs fns :
  mapM (λ r, parse (series gdf r)) rs = Ok fns →
  (∀ fn, fn ∈ fns → me_files env !! path_join dir fn = None) →
  meta_loop env gdf dir parse fm acc rs = Ok acc.
Proof.
  revert fns. induction rs as [|r rs IH]; intros fns; [done|].
  rewrite mapM_res_cons. intros Hm Hnone.
  destruct (parse (series gdf r)) as [fn|e] eqn:Hp; simpl in Hm; [|done].
  destruct (mapM _ rs) as [fns'|e] eqn:Hm'; simpl in Hm; [|done]. injection Hm as <-.
  cbn [meta_loop]. unfold meta_row. rewrite Hp, bind_Ok.
  rewrite (Hnone fn (list_elem_of_here _ _)), bind_Ok.
  apply (IH fns'); [done|]. intros fn' Hfn'. apply Hnone. by right.
Qed.

(** C10: the duplicate test of line 72 never fires: when no preserved
    field is renamed to "path", [map_metadata] returns one row per source
    row whose image exists, in order, repeated paths included, although
    the comment of line 71 says duplicate paths are skipped. *)
Theorem map_metadata_keeps_duplicates env gdf dir parse pf out :
  "path" ∉ map fst (normalize_fields pf) →
  map_metadata env gdf dir parse pf = Ok out →
  ∃ fns, mapM (λ r, parse (series gdf r)) (fr_rows gdf) = Ok fns ∧
    map path_of (mf_rows out) =
      map (λ fn, Some (VStr (path_join dir fn))) (filter (λ fn, exists_at env dir fn = true) fns).
Proof.
  unfold map_metadata. intros Hp H.
  destruct (meta_loop _ _ _ _ _ [] _) as [rows|e] eqn:Hl; simpl in H; [|done].
  injection H as <-.
  destruct (meta_loop_paths _ _ _ _ _ _ _ _ Hp (Forall_nil _) Hl) as (fns & ? & ?).
  by exists fns.
Qed.

(** C25: a preserved field that is not a column of the source frame makes
    [map_metadata] raise [KeyError] as soon as one image exists: a
    non-empty result has every preserved field as a column. *)
Theorem map_metadata_fields_exist env gdf dir parse pf out :
  map_metadata env gdf dir parse pf = Ok out → mf_rows out ≠ [] →
  ∀ o, o ∈ map snd (normalize_fields pf) → has_column gdf o = true.
Proof.
  unfold map_metadata. intros H Hne.
  destruct (meta_loop _ _ _ _ _ [] _) as [rows|e] eqn:Hl; simpl in H; [|done].
  injection H as <-. simpl in Hne.
  destruct (meta_loop_fields _ _ _ _ _ _ _ _ Hl) as [->|]; done.
Qed.

(** C26: when no image exists the preserved fields are never checked:
    [map_metadata] returns an empty frame even for fields that are not
    columns, where spec section 6 says a missing passthrough attribute
    raises. *)
Theorem map_metadata_no_files env gdf dir parse pf fns :
  mapM (λ r, parse (series gdf r)) (fr_rows gdf) = Ok fns →
  (∀ fn, fn ∈ fns → me_files env !! path_join dir fn = None) →
  map_metadata env gdf dir parse pf =
    Ok (MetaFrame [] (meta_columns (normalize_fields pf)) (fr_crs gdf)).
Proof.
  intros Hm Hnone. unfold map_metadata.
  by rewrite (meta_loop_no_files _ _ _ _ _ [] _ _ Hm Hnone).
Qed.

(** ** A concrete run *)

(** The file-name convention: the row's "filename" column. *)
Definition demo_parse (r : row) : res string :=
  match r !! "filename" with Some (VStr s) => Ok s | _ => raise (KeyError "filename") end.

Definition demo_meta_gdf : frame :=
  Frame [FRow {[ "filename" := VStr "a.png"; "label" := VStr "x" ]} (GPolygon (rect 0 0 1 1));
         FRow {[ "filename" := VStr "a.png"; "label" := VStr "y" ]} (GPolygon (rect 2 0 3 1));
         FRow {[ "filename" := VStr "b.tif"; "label" := VStr "z" ]} (GPolygon (rect 0 0 1 1))]
        ["filename"; "label"] "geometry" None.

Definition demo_meta_env : meta_env :=
  MetaEnv {[ "/img/a.png" := ImageFile 10 20 false true; "/img/b.tif" := ImageFile 5 5 true false ]}.

Definition demo_meta_out : meta_frame :=
  match map_metadata demo_meta_env demo_meta_gdf "/img" demo_parse (FieldsList [FStr "label"]) with
  | Ok out => out
  | Err _ => MetaFrame [] [] None
  end.

Lemma demo_meta_run :
  map_metadata demo_meta_env demo_meta_gdf "/img" demo_parse (FieldsList [FStr "label"])
  = Ok demo_meta_out.
Proof. vm_compute. reflexivity. Qed.

Lemma map_metadata_keeps_duplicates_witness :
  map path_of (mf_rows demo_meta_out) =
    [Some (VStr "/img/a.png"); Some (VStr "/img/a.png"); Some (VStr "/img/b.tif")] ∧
  ∃ fns, mapM (λ r, demo_parse (series demo_meta_gdf r)) (fr_rows demo_meta_gdf) = Ok fns ∧
    map path_of (mf_rows demo_meta_out) =
      map (λ fn, Some (VStr (path_join "/img" fn)))
          (filter (λ fn, exists_at demo_meta_env "/img" fn = true) fns).
Proof.
  split; [vm_compute; reflexivity|].
  apply (map_metadata_keeps_duplicates demo_meta_env demo_meta_gdf "/img" demo_parse
           (FieldsList [FStr "label"])).
  - simpl. intros [Hc|Hc]%elem_of_cons; [discriminate|by apply not_elem_of_nil in Hc].
  - exact demo_meta_run.
Defined.

Lemma map_metadata_fields_exist_witness :
  has_column demo_meta_gdf "label" = true.
Proof.
  apply (map_metadata_fields_exist demo_meta_env demo_meta_gdf "/img" demo_parse
           (FieldsList [FStr "label"]) demo_meta_out).
  - exact demo_meta_run.
  - vm_compute. discriminate.
  - left.
Defined.

Lemma map_metadata_no_files_witness :
  map_metadata (MetaEnv ∅) demo_meta_gdf "/img" demo_parse (FieldsList [FStr "missing"]) =
    Ok (MetaFrame [] (meta_columns (normalize_fields (FieldsList [FStr "missing"]))) None).
Proof.
  apply (map_metadata_no_files (MetaEnv ∅) demo_meta_gdf "/img" demo_parse
           (FieldsList [FStr "missing"]) ["a.png"; "a.png"; "b.tif"]).
  - vm_compute. reflexivity.
  - intros fn _. reflexivity.
Defined.

