(* ===== verification/Pipeline.v ===== *)
(** * The pipeline: flattened annotations mapped onto raster tiles

    Spec section 2's data flow feeds the flattened annotation set
    ([flatten_polygons], [src/ftcnn/geometry/polygons.py] lines 12-57)
    into the spatial mapper ([map_geometry_to_geotiffs],
    [src/ftcnn/geospacial/mapping.py] lines 114-192).  The frame
    [flatten_polygons] returns is the one built at its line 57,
    [gpd.GeoDataFrame(rows, geometry=geometry, crs=gdf_src.crs)];
    [frame_of_out] reads it back as a frame: the row dicts become the
    attributes, their keys the columns, and the [geometry] list the active
    geometry column, named "geometry".  [flatten_then_map] composes the two
    phases in the result monad.

    The theorem [flatten_then_map_sound]: on success every mapped row
    clips the whole union of one group (not one part of it) to the
    footprint of an opened raster, or is a raster's empty placeholder; on
    failure the exception comes from the flattening, from the file-name
    column, or from a raster that does not open, never from the geometry
    column the mapper reads by name ([polygon_row["geometry"]]). *)

From S2P Require Import Prelude Geometry Frames Flatten Mapping.

Local Open Scope nat_scope.

(** [gpd.GeoDataFrame(rows, geometry=geometry, crs=crs)] (polygons.py line
    57) as a frame: [geometry=] sets the column "geometry", replacing a key
    "geometry" of the dicts; the columns are the keys of the dicts (their
    order plays no part in the model). *)
Definition frame_of_out (o : out_frame) : frame :=
  Frame (map (λ rg, FRow (delete "geometry" rg.1) rg.2) (out_rows o))
        (filter (λ c, c ≠ "geometry")
                (unique (concat (map (λ rg, map fst (map_to_list rg.1)) (out_rows o)))))
        "geometry" (out_crs o).

Section Pipeline.
Context `{GB : GeomBackend}.
Variable env : fs_env.

(** [map_geometry_to_geotiffs(flatten_polygons(gdf_src, geometry_column,
    group_by), img_dir, recurse)]. *)
Definition flatten_then_map (gdf_src : frame) (geometry_column : string)
    (group_by : option (list string)) (img_dir : string) (recurse : bool) : res out_frame :=
  flat ← flatten_polygons gdf_src geometry_column group_by;
  map_geometry_to_geotiffs env (frame_of_out flat) img_dir recurse.
End Pipeline.

(** ** Lemmas *)

Lemma elem_of_frame_of_out o x :
  x ∈ fr_rows (frame_of_out o) → ∃ r, (r, fr_geom x) ∈ out_rows o.
Proof.
  simpl. intros ([r g] & -> & Hin)%elem_of_map_iff. by exists r.
Qed.

(** The mapper's [polygon_row["geometry"]] reads the geometry column of
    such a frame. *)
Lemma row_geometry_frame_of_out o x : row_geometry (frame_of_out o) x = Ok (fr_geom x).
Proof. unfold row_geometry, series. simpl. by rewrite lookup_insert_eq. Qed.

(** [gdf["filename"]] raises [KeyError], [os.path.splitext] on a
    non-string [TypeError]. *)
Lemma orig_stems_Err gdf e : orig_stems gdf = Err e → e = TypeError ∨ e = KeyError "filename".
Proof.
  unfold orig_stems. destruct (has_column gdf "filename"); [|intros [= <-]; by right].
  destruct (mapM as_str _) as [fs|e'] eqn:Hm; simpl; [done|]. intros [= <-].
  apply mapM_res_Err in Hm as (v & _ & Hv). left. destruct v; simpl in Hv; congruence.
Qed.

Section PipelineProofs.
Context `{GB : GeomBackend}.
Variable env : fs_env.

(** On such a frame a raster's loop body only fails when the raster does
    not open. *)
Lemma map_tile_frame_of_out_Err o p e :
  map_tile env (frame_of_out o) p = Err e → e = RasterioIOError.
Proof.
  unfold map_tile, open_raster. destruct (env_rasters env !! p); simpl; [|congruence].
  destruct (filter _ _); [done|]. intros (x & _ & Hx)%mapM_res_Err.
  by rewrite row_geometry_frame_of_out in Hx.
Qed.

(** ** Theorem *)

(** C12: composition of the flattening and the mapper (spec section 2).
    When the pipeline succeeds, every row it returns belongs to an opened
    raster and holds a part of its empty placeholder or a part of the
    intersection of a whole group's union (what [flatten_polygons] puts in
    every row of the group) with that raster's footprint.  When it fails,
    the exception is the flattening's, [TypeError] or [KeyError] from the
    file names, or [RasterioIOError]: never the [KeyError] of the
    mapper's [polygon_row["geometry"]], whatever the source's geometry
    column is called. *)
Theorem flatten_then_map_sound gdf_src gc group_by img_dir recurse :
  match flatten_then_map env gdf_src gc group_by img_dir recurse with
  | Ok res => ∀ r g, (r, g) ∈ out_rows res →
      ∃ p src, env_rasters env !! p = Some src ∧ r = tile_row p src ∧
        (g ∈ explode_geom (GPolygon empty_polygon) ∨
         ∃ gs group, groupby gdf_src group_by = Ok gs ∧ group ∈ gs ∧
           intersects (group_geometry group) (tile_polygon src) = true ∧
           g ∈ explode_geom (intersection (group_geometry group) (tile_polygon src)))
  | Err e => flatten_polygons gdf_src gc group_by = Err e ∨
             e = RasterioIOError ∨ e = TypeError ∨ e = KeyError "filename"
  end.
Proof.
  unfold flatten_then_map.
  destruct (flatten_polygons gdf_src gc group_by) as [flat|e] eqn:Hf; simpl; [|by left].
  destruct (map_geometry_to_geotiffs env (frame_of_out flat) img_dir recurse) as [res|e] eqn:Hm.
  - intros r g Hrg. apply map_geometry_to_geotiffs_Ok in Hm as (stems & rss & _ & Hm & Hout).
    rewrite Hout in Hrg. apply elem_of_drop_duplicates, elem_of_explode in Hrg as (g1 & Hrg1 & Hg).
    destruct (mapM_res_concat_elem _ _ _ _ Hm Hrg1) as (p & rs & _ & Hrs & Hin).
    destruct (map_tile_Ok _ _ _ _ Hrs) as (src & Hsrc & _ & Hall).
    exists p, src.
    destruct (Hall r g1 Hin) as [-> [[-> _] | (x & g0 & Hx & Hi & Hg0 & ->)]];
      split_and!; try done; [by left|right].
    rewrite row_geometry_frame_of_out in Hg0. injection Hg0 as <-.
    apply elem_of_frame_of_out in Hx as (r0 & Hx).
    apply flatten_polygons_Ok in Hf as (gs & xs & Hgs & Hmx & Hflat). rewrite Hflat in Hx.
    destruct (mapM_res_concat_elem _ _ _ _ Hmx Hx) as (group & ys & Hgr & Hgy & Hys).
    destruct (group_spec_elem _ _ _ _ _ _ Hgy Hys) as (b & _ & _ & Hgeo).
    exists gs, group. rewrite <-Hgeo. by split_and!.
  - right. unfold map_geometry_to_geotiffs in Hm.
    destruct (orig_stems _) as [stems|e'] eqn:Hs; simpl in Hm.
    + destruct (mapM _ _) as [rss|e'] eqn:Hmm; simpl in Hm; [done|]. injection Hm as <-.
      apply mapM_res_Err in Hmm as (p & _ & Hp). left. by eapply map_tile_frame_of_out_Err.
    + injection Hm as <-. right. by eapply orig_stems_Err.
Qed.
End PipelineProofs.
