(* ===== verification/Utils.v ===== *)
(** * The utilities package: [src/ftcnn/utils/__init__.py]

    Importing the package (lines 1-14) binds three constants and creates
    the process-wide write lock [_WRITE_LOCK = Lock()].  [import_utils] is
    that import: [TQDM_INTERVAL], the temporary directory
    [Path("/tmp", "ftcnn")] through [path_join] of PyPath.v, and
    [cpu_count()], which raises [NotImplementedError] when the operating
    system does not report a count (CPython's [multiprocessing.cpu_count]).

    [Lock] comes from [ftcnn.utils.lock], a module that is not under
    [src/]; a new lock is modelled, from spec section 9, as free.  No code
    under [src/] acquires or releases [_WRITE_LOCK], so the lock's
    operations are not modelled.  [import_utils_result] computes the
    import's outcome. *)

From S2P Require Import Prelude PyStr PyPath.

(** ** The constants (lines 6-8) *)

(** [TQDM_INTERVAL = 1 / 100], a float; the rational it rounds. *)
Definition TQDM_INTERVAL : Qc := Q2Qc (1 # 100)%Q.

(** [Path("/tmp", "ftcnn")]. *)
Definition FTCNN_TMP_DIR : string := path_join "/tmp" "ftcnn".

(** [multiprocessing.cpu_count()]: the count [os.cpu_count()] reports,
    [NotImplementedError] when it reports [None]. *)
Definition cpu_count (os_cpu_count : option nat) : res nat :=
  match os_cpu_count with
  | Some n => Ok n
  | None => raise NotImplementedError
  end.

(** ** The lock of [ftcnn.utils.lock] *)

Module WriteLock.

(** The thread holding the lock, if any. *)
Definition t : Type := option nat.

(** [Lock()]: a new lock is free. *)
Definition Lock : t := None.

End WriteLock.

(** [_WRITE_LOCK = Lock()] (line 14): the process-wide lock. *)
Definition WRITE_LOCK : WriteLock.t := WriteLock.Lock.

(** ** The import of the package *)

Record utils_module : Type := UtilsModule {
  tqdm_interval : Qc;
  tmp_dir : string;
  num_cpu : nat;
  write_lock : WriteLock.t
}.

(** Lines 6-14 in order: the constants, [NUM_CPU = cpu_count()], then
    [_WRITE_LOCK = Lock()]. *)
Definition import_utils (os_cpu_count : option nat) : res utils_module :=
  n ← cpu_count os_cpu_count;
  Ok (UtilsModule TQDM_INTERVAL FTCNN_TMP_DIR n WRITE_LOCK).

(** ** The import's outcome *)

(** The import binds [TQDM_INTERVAL] to 1/100, [FTCNN_TMP_DIR] to
    [/tmp/ftcnn], [NUM_CPU] to the reported count and a free lock, and
    raises [NotImplementedError] when no count is reported. *)
Theorem import_utils_result os_cpu_count :
  import_utils os_cpu_count =
  match os_cpu_count with
  | Some n => Ok (UtilsModule (Q2Qc (1 # 100)%Q) "/tmp/ftcnn" n None)
  | None => Err NotImplementedError
  end.
Proof. by destruct os_cpu_count. Qed.
